(** * Voice agent: session store, capability clients and pipeline

    A shallow embedding of the Python sources

      - [models/schemas.py]        request, response and session records
      - [utils/chat_history.py]    [ChatHistoryManager]
      - [utils/error_handling.py]  [ValidationUtils]
      - [services/stt.py], [services/llm.py], [services/tts.py]
      - [app.py]                   [_handle_text_query], [_process_voice_pipeline]

    Conventions of the embedding.

      - A Python [str] is a [string]; a character stands for the code point
        of the same number (0..255).  [len], slicing, [lower], [strip] and
        the UTF-8 encoder are written for that range.
      - A Python [int] is a [Z]; [datetime] values are readings of a clock,
        kept as [Z].
      - A [dict] keyed by strings is a [gmap string _].  Iteration order of
        the dictionary is not kept; nothing below depends on it.
      - A call that may raise returns [Exc A]; [try]/[except] is a match on
        the class of the exception.
      - What a call obtains from outside the process (a [uuid4()], a clock
        reading, the answer of a remote service) is an explicit argument. *)

From Stdlib Require Import ZArith QArith Ascii String Strings.Byte List Lia.
From stdpp Require Import base option list gmap strings pretty fin_maps.

Local Open Scope Z_scope.

(** ** Exceptions *)

Inductive ExnClass :=
  | KeyError
  | AttributeError
  | ValueError
  | ValidationError        (* pydantic; a subclass of ValueError *)
  | RequestsTimeout        (* requests.exceptions.Timeout *)
  | RequestException       (* any other requests.exceptions.RequestException *)
  | OtherException.

Record PyExn := mkExn { exn_class : ExnClass; exn_str : string }.

Inductive Exc (A : Type) :=
  | Ok (a : A)
  | Raise (e : PyExn).
Arguments Ok {A} a.
Arguments Raise {A} e.

Global Instance exc_ret : MRet Exc := λ A a, Ok a.
Global Instance exc_bind : MBind Exc := λ A B k c,
  match c with
  | Ok a => k a
  | Raise e => Raise e
  end.

(** [isinstance(e, ValueError)], [isinstance(e, RequestException)]. *)
Definition is_ValueError (e : PyExn) : bool :=
  match exn_class e with
  | ValueError | ValidationError => true
  | _ => false
  end.

Definition is_RequestException (e : PyExn) : bool :=
  match exn_class e with
  | RequestsTimeout | RequestException => true
  | _ => false
  end.

Definition is_Timeout (e : PyExn) : bool :=
  match exn_class e with
  | RequestsTimeout => true
  | _ => false
  end.

(** ** models/schemas.py *)

Inductive ErrorType :=
  | STT_ERROR
  | LLM_ERROR
  | TTS_ERROR
  | API_ERROR
  | NETWORK_ERROR
  | TIMEOUT_ERROR
  | GENERAL_ERROR
  | CONFIG_ERROR
  | INPUT_ERROR.

Inductive MessageRole :=
  | USER
  | ASSISTANT
  | SYSTEM.

Definition Time := Z.

Record ChatMessage := mkChatMessage {
  role : MessageRole;
  content : string;
  timestamp : option Time
}.

Record ChatSessionInfo := mkChatSessionInfo {
  session_id : string;
  message_count : Z;
  created_at : Time;
  last_activity : Time;
  messages : list ChatMessage
}.

(** ** utils/chat_history.py *)

(** What one call of the manager reads from outside: the value of
    [uuid.uuid4()] (when the call draws one) and the readings of
    [datetime.now()], in the order the code takes them. *)
Record Draw := mkDraw {
  uuid4 : string;
  now_created : Time;
  now_message : Time;
  now_activity : Time
}.

(** Python's [l[start:]]. *)
Definition py_slice_from {A} (start : Z) (l : list A) : list A :=
  let n := Z.of_nat (length l) in
  let i := if start <? 0 then Z.max (start + n) 0 else Z.min start n in
  drop (Z.to_nat i) l.

Record ChatHistoryManager := mkManager {
  sessions : gmap string ChatSessionInfo
}.

(** [__init__] *)
Definition ChatHistoryManager_init : ChatHistoryManager :=
  {| sessions := ∅ |}.

Record SessionStats := mkStats {
  total_sessions : Z;
  total_messages : Z;
  active_sessions : list string
}.

Definition create_session (d : Draw) (self : ChatHistoryManager)
  : string * ChatHistoryManager :=
  let session_id := uuid4 d in
  let now := now_created d in
  let session_info :=
    {| session_id := session_id;
       message_count := 0;
       created_at := now;
       last_activity := now;
       messages := [] |} in
  (session_id, {| sessions := <[session_id := session_info]> (sessions self) |}).

(** The three updates [add_message] makes to the session object it found:
    the message, stamped on creation, is appended, the count is set to the
    length of the list and the activity time is read.  (Kept apart because
    inside [add_message] the name [session_id] is the parameter.) *)
Definition with_message (d : Draw) (session : ChatSessionInfo)
    (role : MessageRole) (content : string) : ChatSessionInfo :=
  let message := mkChatMessage role content (Some (now_message d)) in
  let messages := messages session ++ [message] in
  {| session_id := session_id session;
     message_count := Z.of_nat (length messages);
     created_at := created_at session;
     last_activity := now_activity d;
     messages := messages |}.

Definition get_session (self : ChatHistoryManager) (session_id : string)
  : option ChatSessionInfo :=
  sessions self !! session_id.

Definition get_chat_history (self : ChatHistoryManager) (session_id : string)
  : list ChatMessage :=
  match sessions self !! session_id with
  | Some session => messages session
  | None => []
  end.

(** [self.sessions[k]]: a missing key raises. *)
Definition sessions_getitem (self : ChatHistoryManager) (k : string)
  : Exc ChatSessionInfo :=
  match sessions self !! k with
  | Some s => Ok s
  | None => Raise (mkExn KeyError k)
  end.

Definition add_message (d : Draw) (self : ChatHistoryManager)
    (session_id : string) (role : MessageRole) (content : string)
  : Exc (bool * ChatHistoryManager) :=
  let '(session_id, self) :=
    if bool_decide (is_Some (sessions self !! session_id))
    then (session_id, self)
    else create_session d self in
  session ← sessions_getitem self session_id;
  let session := with_message d session role content in
  Ok (true, {| sessions := <[session_id := session]> (sessions self) |}).

Definition add_user_message (d : Draw) (self : ChatHistoryManager)
    (session_id content : string) : Exc (bool * ChatHistoryManager) :=
  add_message d self session_id USER content.

Definition add_assistant_message (d : Draw) (self : ChatHistoryManager)
    (session_id content : string) : Exc (bool * ChatHistoryManager) :=
  add_message d self session_id ASSISTANT content.

Definition clear_session (self : ChatHistoryManager) (session_id : string)
  : bool * ChatHistoryManager :=
  if bool_decide (is_Some (sessions self !! session_id))
  then (true, {| sessions := delete session_id (sessions self) |})
  else (false, self).

Definition get_recent_messages (self : ChatHistoryManager)
    (session_id : string) (limit : Z) : list ChatMessage :=
  let messages := get_chat_history self session_id in
  match messages with
  | [] => []
  | _ => py_slice_from (- limit) messages
  end.

(** The default of [limit]. *)
Definition get_recent_messages_default (self : ChatHistoryManager)
    (session_id : string) : list ChatMessage :=
  get_recent_messages self session_id 10.

Definition get_session_stats (self : ChatHistoryManager) : SessionStats :=
  let items := map_to_list (sessions self) in
  {| total_sessions := Z.of_nat (size (sessions self));
     total_messages := foldr Z.add 0 (message_count <$> items.*2);
     active_sessions :=
       (filter (λ it : string * ChatSessionInfo, 0 < message_count it.2) items).*1 |}.

(** ** Python strings *)

Definition nl : string := String (ascii_of_nat 10) "".

(** [len(s)] *)
Definition len (s : string) : Z := Z.of_nat (String.length s).

(** [c.lower()] for one character: A-Z and the capital letters of
    0xC0..0xDE (0xD7, the multiplication sign, is no letter) move up by 32. *)
Definition chr_lower (c : ascii) : ascii :=
  let n := N_of_ascii c in
  if ((65 <=? n) && (n <=? 90) ||
      (192 <=? n) && (n <=? 222) && negb (n =? 215))%N
  then ascii_of_N (n + 32)
  else c.

(** [s.lower()] *)
Fixpoint lower (s : string) : string :=
  match s with
  | EmptyString => EmptyString
  | String c s' => String (chr_lower c) (lower s')
  end.

(** [c.isspace()]: TAB..CR, FS..US, SPACE, NEL, NBSP. *)
Definition chr_isspace (c : ascii) : bool :=
  let n := N_of_ascii c in
  ((9 <=? n) && (n <=? 13) || (28 <=? n) && (n <=? 31) ||
   (n =? 32) || (n =? 133) || (n =? 160))%N.

Fixpoint lstrip (s : string) : string :=
  match s with
  | EmptyString => EmptyString
  | String c s' => if chr_isspace c then lstrip s' else s
  end.

Definition str_reverse (s : string) : string :=
  string_of_list_ascii (reverse (list_ascii_of_string s)).

Definition rstrip (s : string) : string :=
  str_reverse (lstrip (str_reverse s)).

(** [s.strip()] *)
Definition strip (s : string) : string := rstrip (lstrip s).
Global Arguments strip : simpl never.

(** [s[:n]] for [n >= 0]. *)
Fixpoint str_take (n : nat) (s : string) : string :=
  match n, s with
  | S n', String c s' => String c (str_take n' s')
  | _, _ => EmptyString
  end.

(** [needle in hay] *)
Fixpoint contains (needle hay : string) : bool :=
  String.prefix needle hay ||
  match hay with
  | EmptyString => false
  | String _ hay' => contains needle hay'
  end.

(** [any(word in s for word in words)] *)
Definition any_word_in (words : list string) (s : string) : bool :=
  existsb (λ word, contains word s) words.

(** [not s] *)
Definition str_falsy (s : string) : bool :=
  match s with
  | EmptyString => true
  | String _ _ => false
  end.

(** [sep.join(parts)] *)
Fixpoint join (sep : string) (parts : list string) : string :=
  match parts with
  | [] => ""
  | [p] => p
  | p :: rest => p +:+ sep +:+ join sep rest
  end.

(** [s.encode('utf-8')]: one byte below 0x80, two bytes below 0x800. *)
Definition N_to_byte (n : N) : byte := byte_of_ascii (ascii_of_N n).

Definition utf8_char (c : ascii) : list byte :=
  let n := N_of_ascii c in
  if (n <? 128)%N then [N_to_byte n]
  else [N_to_byte (192 + N.shiftr n 6); N_to_byte (128 + N.land n 63)].

Fixpoint encode_utf8 (s : string) : list byte :=
  match s with
  | EmptyString => []
  | String c s' => utf8_char c ++ encode_utf8 s'
  end.

(** [base64.b64encode]: three bytes make a 24-bit number whose four 6-bit
    digits are written in the alphabet; a last group of one or two bytes is
    filled with zero bits and closed with [=]. *)
Definition b64_alphabet : string :=
  "ABCDEFGHIJKLMNOPQRSTUVWXYZabcdefghijklmnopqrstuvwxyz0123456789+/".

Definition b64_digit (i : N) : byte :=
  byte_of_ascii (default "="%char (String.get (N.to_nat i) b64_alphabet)).

Definition b64_pad : byte := byte_of_ascii "="%char.

Fixpoint b64encode (bs : list byte) : list byte :=
  match bs with
  | [] => []
  | [a] =>
      let n := (Byte.to_N a * 65536)%N in
      [b64_digit (n / 262144); b64_digit ((n / 4096) mod 64); b64_pad; b64_pad]
  | [a; b] =>
      let n := (Byte.to_N a * 65536 + Byte.to_N b * 256)%N in
      [b64_digit (n / 262144); b64_digit ((n / 4096) mod 64);
       b64_digit ((n / 64) mod 64); b64_pad]
  | a :: b :: c :: rest =>
      let n := (Byte.to_N a * 65536 + Byte.to_N b * 256 + Byte.to_N c)%N in
      b64_digit (n / 262144) :: b64_digit ((n / 4096) mod 64) ::
      b64_digit ((n / 64) mod 64) :: b64_digit (n mod 64) :: b64encode rest
  end.

(** [bs.decode('utf-8')] on the output of [b64encode], which is ASCII. *)
Definition decode_ascii (bs : list byte) : string :=
  string_of_list_ascii (ascii_of_byte <$> bs).

(** ** models/schemas.py: requests and responses

    The fields [timestamp], [day] and [challenge] of the response models are
    set by defaults and read by no operation; they are left out. *)

Definition validation_error (what : string) : PyExn :=
  mkExn ValidationError what.

Record LLMRequest := mkLLMRequest {
  rq_text : string;
  rq_session_id : option string;
  rq_model : option string;
  rq_include_history : option bool
}.

(** [LLMRequest(text=..., session_id=...)]: the length bounds of the field
    are checked on the value as given, then the validator strips it. *)
Definition LLMRequest_new (text : string) (session_id : option string)
  : Exc LLMRequest :=
  if len text <? 1 then Raise (validation_error "text: string_too_short")
  else if 10000 <? len text then Raise (validation_error "text: string_too_long")
  else if str_falsy (strip text)
  then Raise (validation_error "text: Text cannot be empty or whitespace only")
  else Ok {| rq_text := strip text;
             rq_session_id := session_id;
             rq_model := Some "gemini-1.5-flash";
             rq_include_history := Some true |}.

Record LLMResponse := mkLLMResponse {
  lr_success : bool;
  lr_response : option string;
  lr_query : option string;
  lr_model : option string;
  lr_session_id : option string;
  lr_error : option string;
  lr_error_type : option ErrorType;
  lr_fallback_response : option string
}.

Record TTSRequest := mkTTSRequest {
  tts_text : string;
  tts_voice_id : option string;
  tts_speed : option Z;
  tts_pitch : option Z
}.

Definition in_range (lo hi : Z) (v : option Z) : bool :=
  match v with
  | Some z => (lo <=? z) && (z <=? hi)
  | None => true
  end.

Definition TTSRequest_new (text : string) (voice_id : option string)
    (speed pitch : option Z) : Exc TTSRequest :=
  if len text <? 1 then Raise (validation_error "text: string_too_short")
  else if 5000 <? len text then Raise (validation_error "text: string_too_long")
  else if negb (in_range 50 200 speed) then Raise (validation_error "speed")
  else if negb (in_range 0 100 pitch) then Raise (validation_error "pitch")
  else if str_falsy (strip text)
  then Raise (validation_error "text: Text cannot be empty or whitespace only")
  else Ok {| tts_text := strip text;
             tts_voice_id := voice_id;
             tts_speed := speed;
             tts_pitch := pitch |}.

(** [TTSRequest(text=...)], the other fields at their defaults. *)
Definition TTSRequest_of_text (text : string) : Exc TTSRequest :=
  TTSRequest_new text (Some "en-US-AriaNeural") (Some 95) (Some 45).

Record TTSResponse := mkTTSResponse {
  tts_success : bool;
  tts_audio_url : option string;
  tts_error : option string;
  tts_error_type : option ErrorType;
  tts_emergency_fallback : option string
}.

Record TranscriptionResponse := mkTranscriptionResponse {
  stt_success : bool;
  stt_transcription : option string;
  stt_confidence : option Q;
  stt_language : option string;
  stt_error : option string;
  stt_error_type : option ErrorType
}.

(** The range check [ge=0.0, le=1.0] on [confidence]. *)
Definition confidence_ok (c : option Q) : bool :=
  match c with
  | Some q => Qle_bool 0 q && Qle_bool q 1
  | None => true
  end.

Definition TranscriptionResponse_new (success : bool)
    (transcription : option string) (confidence : option Q)
    (language error : option string) (error_type : option ErrorType)
  : Exc TranscriptionResponse :=
  if confidence_ok confidence
  then Ok (mkTranscriptionResponse success transcription confidence language
             error error_type)
  else Raise (validation_error "confidence").

Record VoiceQueryResponse := mkVoiceQueryResponse {
  vq_success : bool;
  vq_transcription : option string;
  vq_llm_response : option string;
  vq_audio_url : option string;
  vq_confidence : option Q;
  vq_chat_history : option (list ChatMessage);
  vq_session_id : option string;
  vq_message_count : option Z;
  vq_error : option string;
  vq_error_type : option ErrorType;
  vq_fallback_used : option bool
}.

Record ErrorResponse := mkErrorResponse {
  er_success : bool;
  er_error : string;
  er_error_type : ErrorType;
  er_fallback_action : option string;
  er_retry_after : option Z
}.

(** ** utils/error_handling.py *)

Definition create_error_response (error_message : string)
    (error_type : ErrorType) : ErrorResponse :=
  {| er_success := false;
     er_error := error_message;
     er_error_type := error_type;
     er_fallback_action := None;
     er_retry_after := None |}.

(** An uploaded file as the checks see it. *)
Record FileStorage := mkFileStorage {
  filename : string;
  content_length : Z;
  stream : list byte
}.

(** [s.rsplit('.', 1)[-1]]: what follows the last dot, or all of [s]. *)
Fixpoint after_last_dot (s : string) : string :=
  match s with
  | EmptyString => EmptyString
  | String c s' =>
      if contains "." s' then after_last_dot s'
      else if Ascii.eqb c "."%char then s' else s
  end.

Definition allowed_extensions : list string :=
  [".webm"; ".wav"; ".mp3"; ".m4a"; ".ogg"].

(** The order in which [', '.join] walks the set of extensions is not fixed
    by the language; the message lists them as written. *)
Definition validate_audio_file (file : FileStorage) : option string :=
  if str_falsy (filename file) then Some "No audio file provided"
  else if String.eqb (filename file) "" then Some "No file selected"
  else if negb (content_length file =? 0) &&
          (16 * 1024 * 1024 <? content_length file)
  then Some "File too large (max 16MB)"
  else
    let file_ext := "." +:+ lower (after_last_dot (filename file)) in
    if bool_decide (file_ext ∈ allowed_extensions) then None
    else Some ("Unsupported file format. Allowed: " +:+ join ", " allowed_extensions).

Definition validate_text_input (text : string) (max_length : Z) : option string :=
  if str_falsy text then Some "Text cannot be empty"
  else
    let text := strip text in
    if str_falsy text then Some "Text cannot be empty or whitespace only"
    else if max_length <? len text
    then Some ("Text too long (max " +:+ pretty max_length +:+ " characters)")
    else None.

(** ** What the services reach outside the process *)

(** An AssemblyAI transcript, as far as the code reads it. *)
Record Transcript := mkTranscript {
  status_error : bool;              (* status == TranscriptStatus.error *)
  transcript_error : string;
  transcript_text : option string;
  transcript_confidence : option Q  (* None: no such attribute *)
}.

(** A value found under a key of a parsed JSON object. *)
Inductive JsonValue :=
  | JString (s : string)
  | JOther (truthy : bool).          (* a number, boolean, list or object *)

(** What [response.json()] followed by [data.get("audioFile")] meets. *)
Inductive JsonBody :=
  | BodyUnparsable (msg : string)    (* json() raises ValueError *)
  | BodyNotObject (msg : string)     (* parsed, but has no [get] *)
  | BodyObject (audioFile : option JsonValue).  (* None: absent or null *)

Record HttpResponse := mkHttpResponse {
  status_code : Z;
  response_text : string;
  response_json : JsonBody
}.

Record MurfPayload := mkMurfPayload {
  voiceId : string;
  style : string;
  text : string;
  rate : Z;
  pitch : Z;
  sampleRate : Z;
  format : string;
  channelType : string;
  encodeAsBase64 : bool;
  variation : Z;
  audioDuration : Z;
  modelVersion : string
}.

Record MurfHeaders := mkMurfHeaders {
  api_key_header : option string;
  content_type_header : string
}.

(** The remote parties: each field answers one kind of outgoing call. *)
Record Remote := mkRemote {
  save_upload : FileStorage -> Exc string;       (* mkstemp and save: the path *)
  aai_transcribe : string -> Exc Transcript;     (* Transcriber().transcribe(path) *)
  gemini_generate_content : string -> Exc string; (* generate_content(ctx).text *)
  requests_post : string -> MurfPayload -> MurfHeaders -> Z -> Exc HttpResponse
}.

(** The outgoing calls a function made, oldest first. *)
Inductive Call :=
  | CallSaveUpload (file : FileStorage)
  | CallTranscribe (path : string)
  | CallUnlink (path : string)
  | CallGenerate (context : string)
  | CallPost (url : string) (payload : MurfPayload) (headers : MurfHeaders)
             (timeout : Z).

(** ** services/llm.py *)

Inductive GenerativeModel := GenerativeModel_of (model_name : string).

Record LLMService := mkLLMService {
  llm_api_key : option string;
  llm_model_name : string;
  llm_timeout : Z;
  llm_client : option GenerativeModel
}.

(** [not key or key == placeholder] *)
Definition key_missing (key : option string) (placeholder : string) : bool :=
  match key with
  | None => true
  | Some k => str_falsy k || String.eqb k placeholder
  end.

(** [__init__] with [_setup_client]; [configure] is the outcome of
    [genai.configure] and of building the model. *)
Definition LLMService_init (api_key : option string) (timeout : Z)
    (configure : Exc unit) : LLMService :=
  let model_name := "gemini-1.5-flash" in
  {| llm_api_key := api_key;
     llm_model_name := model_name;
     llm_timeout := timeout;
     llm_client :=
       if key_missing api_key "your_gemini_api_key_here" then None
       else match configure with
            | Ok _ => Some (GenerativeModel_of model_name)
            | Raise _ => None
            end |}.

Definition llm_is_available (self : LLMService) : bool :=
  bool_decide (llm_client self ≠ None) && bool_decide (llm_api_key self ≠ None).

Definition system_prompt : string :=
  "You are a helpful AI voice assistant. Provide clear, concise, and helpful responses. " +:+
  "Keep your responses conversational and engaging, suitable for voice interaction.".

Definition context_line (message : ChatMessage) : string :=
  let role := match role message with USER => "User" | _ => "Assistant" end in
  role +:+ ": " +:+ content message.

Definition _prepare_context (request : LLMRequest)
    (chat_history : option (list ChatMessage)) : string :=
  let context_parts := ["System: " +:+ system_prompt] in
  let context_parts :=
    match rq_include_history request, chat_history with
    | Some true, Some ((_ :: _) as history) =>
        context_parts ++ [nl +:+ "Conversation History:"] ++
        (context_line <$> py_slice_from (-10) history)
    | _, _ => context_parts
    end in
  let context_parts := context_parts ++ [nl +:+ "User: " +:+ rq_text request] in
  let context_parts := context_parts ++ ["Assistant:"] in
  join nl context_parts.

Definition _generate_llm_response (remote : Remote) (self : LLMService)
    (context : string) : Exc string * list Call :=
  match llm_client self with
  | None => (Raise (mkExn AttributeError "generate_content"), [])
  | Some _ =>
      (match gemini_generate_content remote context with
       | Raise e => Raise e
       | Ok text =>
           if str_falsy text
           then Raise (mkExn OtherException "Empty response from LLM")
           else Ok (strip text)
       end, [CallGenerate context])
  end.

Definition _generate_contextual_fallback (user_text : string) : string :=
  if str_falsy user_text
  then "I didn't catch that. Could you please repeat your message?"
  else
    let user_lower := lower user_text in
    if any_word_in ["hello"; "hi"; "hey"; "good morning"; "good afternoon"] user_lower
    then "Hello! I'm having some technical difficulties with my AI brain, but I'm here to help as best I can."
    else if any_word_in ["how are you"; "how do you do"] user_lower
    then "I'm experiencing some technical issues right now, but thank you for asking! How can I help you?"
    else if any_word_in ["thank"; "thanks"] user_lower
    then "You're very welcome! Though I should mention I'm having some connectivity issues at the moment."
    else if any_word_in ["bye"; "goodbye"; "see you"; "farewell"] user_lower
    then "Goodbye! Sorry for any technical difficulties during our conversation. Hope to chat again soon!"
    else if any_word_in ["help"; "support"; "assist"] user_lower
    then "I'd love to help you! I'm currently experiencing some technical difficulties, but I'll do my best to assist."
    else if any_word_in ["what"; "how"; "why"; "when"; "where"; "who"] user_lower
    then "That's a great question! Unfortunately, I'm having trouble accessing my full knowledge base right now, but please try asking again in a moment."
    else
      let preview :=
        if 50 <? len user_text then str_take 50 user_text +:+ "..."
        else user_text in
      "I heard you mention something about '" +:+ preview +:+
      "'. I'm experiencing some technical difficulties, but I'm trying to help as best I can.".

Definition generate_response (remote : Remote) (self : LLMService)
    (request : LLMRequest) (chat_history : option (list ChatMessage))
  : LLMResponse * list Call :=
  if negb (llm_is_available self) then
    let fallback := _generate_contextual_fallback (rq_text request) in
    ({| lr_success := false;
        lr_response := None;
        lr_query := Some (rq_text request);
        lr_model := None;
        lr_session_id := rq_session_id request;
        lr_error := Some "LLM service not available - API key not configured";
        lr_error_type := Some CONFIG_ERROR;
        lr_fallback_response := Some fallback |}, [])
  else
    let conversation_context := _prepare_context request chat_history in
    let '(outcome, calls) := _generate_llm_response remote self conversation_context in
    match outcome with
    | Ok response =>
        ({| lr_success := true;
            lr_response := Some response;
            lr_query := Some (rq_text request);
            lr_model := Some (llm_model_name self);
            lr_session_id := rq_session_id request;
            lr_error := None;
            lr_error_type := None;
            lr_fallback_response := None |}, calls)
    | Raise e =>
        let fallback := _generate_contextual_fallback (rq_text request) in
        ({| lr_success := false;
            lr_response := None;
            lr_query := Some (rq_text request);
            lr_model := None;
            lr_session_id := rq_session_id request;
            lr_error := Some ("LLM generation failed: " +:+ exn_str e);
            lr_error_type := Some LLM_ERROR;
            lr_fallback_response := Some fallback |}, calls)
    end.

(** ** services/tts.py *)

Record TTSService := mkTTSService {
  tts_api_key : option string;
  tts_api_url : option string;
  tts_timeout : Z;
  default_voice : string;
  default_speed : Z;
  default_pitch : Z
}.

Definition tts_is_available (self : TTSService) : bool :=
  bool_decide (tts_api_key self ≠ None) &&
  bool_decide (tts_api_key self ≠ Some "your_murf_api_key_here") &&
  bool_decide (tts_api_url self ≠ None) &&
  bool_decide (tts_api_url self ≠ Some "your_murf_api_url_here").

(** [a or b] on an optional string and on an optional integer. *)
Definition str_or (a : option string) (b : string) : string :=
  match a with
  | Some s => if str_falsy s then b else s
  | None => b
  end.

Definition int_or (a : option Z) (b : Z) : Z :=
  match a with
  | Some z => if z =? 0 then b else z
  | None => b
  end.

Definition _prepare_murf_payload (self : TTSService) (request : TTSRequest)
  : MurfPayload :=
  {| voiceId := str_or (tts_voice_id request) (default_voice self);
     style := "Conversational";
     text := tts_text request;
     rate := int_or (tts_speed request) (default_speed self);
     pitch := int_or (tts_pitch request) (default_pitch self);
     sampleRate := 24000;
     format := "MP3";
     channelType := "MONO";
     encodeAsBase64 := false;
     variation := 1;
     audioDuration := 0;
     modelVersion := "GEN2" |}.

Definition _prepare_murf_headers (self : TTSService) : MurfHeaders :=
  {| api_key_header := tts_api_key self;
     content_type_header := "application/json" |}.

(** The text as a data URL.  The encoder of this embedding accepts every
    string, so the [except] branch of the source, which returns [None], is
    never taken. *)
Definition _generate_emergency_fallback (text : string) : option string :=
  let text_bytes := encode_utf8 text in
  let base64_text := decode_ascii (b64encode text_bytes) in
  Some ("data:text/plain;base64," +:+ base64_text).

Definition tts_failure (error : string) (error_type : ErrorType)
    (emergency_fallback : option string) : TTSResponse :=
  {| tts_success := false;
     tts_audio_url := None;
     tts_error := Some error;
     tts_error_type := Some error_type;
     tts_emergency_fallback := emergency_fallback |}.

Definition json_truthy (v : option JsonValue) : bool :=
  match v with
  | None => false
  | Some (JString s) => negb (str_falsy s)
  | Some (JOther truthy) => truthy
  end.

(** [TTSResponse(success=True, audio_url=v)]: the field takes a string. *)
Definition TTSResponse_success (v : option JsonValue) : Exc TTSResponse :=
  match v with
  | Some (JString s) =>
      Ok {| tts_success := true;
            tts_audio_url := Some s;
            tts_error := None;
            tts_error_type := None;
            tts_emergency_fallback := None |}
  | None =>
      Ok {| tts_success := true;
            tts_audio_url := None;
            tts_error := None;
            tts_error_type := None;
            tts_emergency_fallback := None |}
  | Some (JOther _) => Raise (validation_error "audio_url: string_type")
  end.

Definition _process_murf_response (response : HttpResponse)
    (original_text : string) : Exc TTSResponse :=
  if negb (status_code response =? 200) then
    let emergency_fallback := _generate_emergency_fallback original_text in
    Ok (tts_failure ("TTS API returned status " +:+ pretty (status_code response))
          API_ERROR emergency_fallback)
  else
    let attempt : Exc TTSResponse :=
      match response_json response with
      | BodyUnparsable msg => Raise (mkExn ValueError msg)
      | BodyNotObject msg => Raise (mkExn AttributeError msg)
      | BodyObject audio_url =>
          if negb (json_truthy audio_url) then
            let emergency_fallback := _generate_emergency_fallback original_text in
            Ok (tts_failure "No audio URL returned from TTS service"
                  TTS_ERROR emergency_fallback)
          else TTSResponse_success audio_url
      end in
    match attempt with
    | Ok r => Ok r
    | Raise e =>
        if is_ValueError e then
          let emergency_fallback := _generate_emergency_fallback original_text in
          Ok (tts_failure "Invalid response format from TTS service"
                API_ERROR emergency_fallback)
        else Raise e
    end.

(** The [except] clauses of [synthesize_speech], in their order. *)
Definition synthesize_except (e : PyExn) (request : TTSRequest) : TTSResponse :=
  let emergency_fallback := _generate_emergency_fallback (tts_text request) in
  if is_Timeout e then
    tts_failure "TTS request timed out" TIMEOUT_ERROR emergency_fallback
  else if is_RequestException e then
    tts_failure ("TTS API request failed: " +:+ exn_str e) NETWORK_ERROR
      emergency_fallback
  else
    tts_failure ("TTS synthesis failed: " +:+ exn_str e) TTS_ERROR
      emergency_fallback.

Definition synthesize_speech (remote : Remote) (self : TTSService)
    (request : TTSRequest) : TTSResponse * list Call :=
  if negb (tts_is_available self) then
    let emergency_fallback := _generate_emergency_fallback (tts_text request) in
    (tts_failure "TTS service not available - API keys not configured"
       CONFIG_ERROR emergency_fallback, [])
  else
    let payload := _prepare_murf_payload self request in
    let headers := _prepare_murf_headers self in
    let url := default "" (tts_api_url self) in
    let calls := [CallPost url payload headers (tts_timeout self)] in
    match requests_post remote url payload headers (tts_timeout self) with
    | Raise e => (synthesize_except e request, calls)
    | Ok response =>
        match _process_murf_response response (tts_text request) with
        | Ok r => (r, calls)
        | Raise e => (synthesize_except e request, calls)
        end
    end.

(** ** services/stt.py *)

Inductive AaiClient := aai.

Record STTService := mkSTTService {
  stt_api_key : option string;
  stt_timeout : Z;
  stt_client : option AaiClient
}.

Definition STTService_init (api_key : option string) (timeout : Z)
    (configure : Exc unit) : STTService :=
  {| stt_api_key := api_key;
     stt_timeout := timeout;
     stt_client :=
       if key_missing api_key "your_assemblyai_api_key_here" then None
       else match configure with
            | Ok _ => Some aai
            | Raise _ => None
            end |}.

Definition stt_is_available (self : STTService) : bool :=
  bool_decide (stt_client self ≠ None) && bool_decide (stt_api_key self ≠ None).

Definition stt_failure (error : string) (error_type : ErrorType)
  : TranscriptionResponse :=
  mkTranscriptionResponse false None None None (Some error) (Some error_type).

Definition _save_temp_file (remote : Remote) (audio_file : FileStorage)
  : Exc string * list Call :=
  (save_upload remote audio_file, [CallSaveUpload audio_file]).

Definition _perform_transcription (remote : Remote) (self : STTService)
    (audio_file_path : string) : TranscriptionResponse * list Call :=
  let attempt : Exc TranscriptionResponse * list Call :=
    match stt_client self with
    | None => (Raise (mkExn AttributeError "Transcriber"), [])
    | Some _ =>
        (transcript ← aai_transcribe remote audio_file_path;
         if status_error transcript then
           Ok (stt_failure
                 ("Transcription service error: " +:+ transcript_error transcript)
                 STT_ERROR)
         else
           let transcription_text := transcript_text transcript in
           let confidence := transcript_confidence transcript in
           match transcription_text with
           | Some t =>
               if str_falsy t || String.eqb (strip t) "" then
                 Ok (stt_failure "No speech detected in audio" STT_ERROR)
               else
                 TranscriptionResponse_new true (Some (strip t)) confidence
                   (Some "en") None None
           | None => Ok (stt_failure "No speech detected in audio" STT_ERROR)
           end,
         [CallTranscribe audio_file_path])
    end in
  match attempt with
  | (Ok r, calls) => (r, calls)
  | (Raise e, calls) =>
      (stt_failure ("Transcription processing failed: " +:+ exn_str e) STT_ERROR,
       calls)
  end.

Definition transcribe_audio (remote : Remote) (self : STTService)
    (audio_file : FileStorage) : TranscriptionResponse * list Call :=
  if negb (stt_is_available self) then
    (stt_failure "STT service not available - API key not configured"
       CONFIG_ERROR, [])
  else
    match _save_temp_file remote audio_file with
    | (Raise e, calls) =>
        (stt_failure ("Transcription failed: " +:+ exn_str e) STT_ERROR, calls)
    | (Ok temp_file_path, calls) =>
        let '(transcription_result, calls') :=
          _perform_transcription remote self temp_file_path in
        (transcription_result, calls ++ calls' ++ [CallUnlink temp_file_path])
    end.

(** ** app.py *)

(** The module-level service instances and the session store. *)
Record App := mkApp {
  stt_service : STTService;
  llm_service : LLMService;
  tts_service : TTSService;
  chat_manager : ChatHistoryManager
}.

(** Code that reads and updates [chat_manager], makes outgoing calls and may
    raise: the store and the calls made so far are threaded through, and they
    are kept when an exception passes. *)
Definition Pipe (A : Type) : Type :=
  ChatHistoryManager * list Call -> Exc A * (ChatHistoryManager * list Call).

Global Instance pipe_ret : MRet Pipe := λ A a st, (Ok a, st).
Global Instance pipe_bind : MBind Pipe := λ A B k c st,
  match c st with
  | (Ok a, st') => k a st'
  | (Raise e, st') => (Raise e, st')
  end.

Definition raise_from {A} (c : Exc A) : Pipe A := λ st, (c, st).

Definition service_call {A} (r : A * list Call) : Pipe A :=
  λ st, (Ok r.1, (st.1, st.2 ++ r.2)).

Definition store_call {A} (f : ChatHistoryManager -> Exc (A * ChatHistoryManager))
  : Pipe A :=
  λ st, match f st.1 with
        | Ok (a, m) => (Ok a, (m, st.2))
        | Raise e => (Raise e, st)
        end.

Definition store_read {A} (f : ChatHistoryManager -> A) : Pipe A :=
  λ st, (Ok (f st.1), st).

(** A field declared [str] that is handed an [Optional[str]]. *)
Definition require_str (what : string) (v : option string) : Exc string :=
  match v with
  | Some s => Ok s
  | None => Raise (validation_error (what +:+ ": string_type"))
  end.

Definition voice_failure (error : option string) (error_type : option ErrorType)
    (session_id : string) : VoiceQueryResponse :=
  {| vq_success := false;
     vq_transcription := None;
     vq_llm_response := None;
     vq_audio_url := None;
     vq_confidence := None;
     vq_chat_history := None;
     vq_session_id := Some session_id;
     vq_message_count := None;
     vq_error := error;
     vq_error_type := error_type;
     vq_fallback_used := Some false |}.

(** The [try] block of [_process_voice_pipeline].  [d_user] and
    [d_assistant] are what the two calls of the store draw. *)
Definition voice_pipeline_try (remote : Remote) (app : App)
    (audio_file : FileStorage) (session_id : string)
    (d_user d_assistant : Draw) : Pipe VoiceQueryResponse :=
  (* Step 1: Speech-to-Text *)
  stt_response ← service_call (transcribe_audio remote (stt_service app) audio_file);
  if negb (stt_success stt_response) then
    mret (voice_failure (stt_error stt_response) (stt_error_type stt_response)
            session_id)
  else
    let transcription := stt_transcription stt_response in
    (* Step 2: Add user message to chat history *)
    user_content ← raise_from (require_str "content" transcription);
    _ ← store_call (λ m, add_user_message d_user m session_id user_content);
    (* Step 3: LLM Processing *)
    chat_history ← store_read (λ m, get_recent_messages m session_id 10);
    request_text ← raise_from (require_str "text" transcription);
    llm_request ← raise_from (LLMRequest_new request_text (Some session_id));
    llm_response ← service_call
      (generate_response remote (llm_service app) llm_request (Some chat_history));
    let response_text :=
      if negb (lr_success llm_response)
      then Some (str_or (lr_fallback_response llm_response)
                   "I'm having trouble processing your request.")
      else lr_response llm_response in
    (* Step 4: Add assistant message to chat history *)
    assistant_content ← raise_from (require_str "content" response_text);
    _ ← store_call (λ m, add_assistant_message d_assistant m session_id
                            assistant_content);
    (* Step 5: Text-to-Speech *)
    tts_request ← raise_from (TTSRequest_of_text assistant_content);
    tts_response ← service_call
      (synthesize_speech remote (tts_service app) tts_request);
    (* Step 6: Prepare final response *)
    updated_history ← store_read (λ m, get_chat_history m session_id);
    mret {| vq_success := true;
            vq_transcription := transcription;
            vq_llm_response := response_text;
            vq_audio_url :=
              if tts_success tts_response then tts_audio_url tts_response
              else None;
            vq_confidence := stt_confidence stt_response;
            vq_chat_history := Some updated_history;
            vq_session_id := Some session_id;
            vq_message_count := Some (Z.of_nat (length updated_history));
            vq_error := None;
            vq_error_type := None;
            vq_fallback_used :=
              Some (negb (lr_success llm_response) ||
                    negb (tts_success tts_response)) |}.

Definition _process_voice_pipeline (remote : Remote) (app : App)
    (audio_file : FileStorage) (session_id : string)
    (d_user d_assistant : Draw)
  : VoiceQueryResponse * ChatHistoryManager * list Call :=
  match voice_pipeline_try remote app audio_file session_id d_user d_assistant
          (chat_manager app, []) with
  | (Ok response, (m, calls)) => (response, m, calls)
  | (Raise e, (m, calls)) =>
      (voice_failure (Some ("Voice processing failed: " +:+ exn_str e))
         (Some GENERAL_ERROR) session_id, m, calls)
  end.

(** The parts of a Flask request the handlers read.  [json_text] is
    [data.get('text') if data else None]. *)
Record FlaskRequest := mkFlaskRequest {
  is_json : bool;
  json_text : option string;
  form_text : option string;
  form_session_id : option string;
  files_audio : option FileStorage
}.

Inductive ReplyBody :=
  | ReplyError (r : ErrorResponse)
  | ReplyLLM (r : LLMResponse)
  | ReplyVoice (r : VoiceQueryResponse).

(** [jsonify(body), status] *)
Record Reply := mkReply {
  reply_body : ReplyBody;
  reply_status : Z
}.

Definition _handle_text_query (remote : Remote) (app : App)
    (request : FlaskRequest) : Pipe Reply :=
  let text := if is_json request then json_text request else form_text request in
  match text with
  | None | Some EmptyString =>
      mret (mkReply (ReplyError (create_error_response
                                   "Missing 'text' field in request" INPUT_ERROR))
              400)
  | Some text =>
      match validate_text_input text 10000 with
      | Some validation_error =>
          mret (mkReply (ReplyError (create_error_response validation_error
                                       INPUT_ERROR)) 400)
      | None =>
          llm_request ← raise_from (LLMRequest_new text None);
          response ← service_call
            (generate_response remote (llm_service app) llm_request None);
          mret (mkReply (ReplyLLM response) 200)
      end
  end.

(** [new_session_id] is the [str(uuid.uuid4())] taken when the form carries
    no session id. *)
Definition _handle_voice_query (remote : Remote) (app : App)
    (request : FlaskRequest) (new_session_id : string)
    (d_user d_assistant : Draw) : Pipe Reply :=
  match files_audio request with
  | None =>
      mret (mkReply (ReplyError (create_error_response "No audio file provided"
                                   INPUT_ERROR)) 400)
  | Some audio_file =>
      match validate_audio_file audio_file with
      | Some validation_error =>
          mret (mkReply (ReplyError (create_error_response validation_error
                                       INPUT_ERROR)) 400)
      | None =>
          let session_id := str_or (form_session_id request) new_session_id in
          λ st,
            let '(response, m, calls) :=
              _process_voice_pipeline remote
                (mkApp (stt_service app) (llm_service app) (tts_service app) st.1)
                audio_file session_id d_user d_assistant in
            (Ok (mkReply (ReplyVoice response) 200), (m, st.2 ++ calls))
      end
  end.

(** The route [/llm/query]: the reply, the store after the request and the
    outgoing calls made. *)
Definition llm_query (remote : Remote) (app : App) (request : FlaskRequest)
    (new_session_id : string) (d_user d_assistant : Draw)
  : Reply * ChatHistoryManager * list Call :=
  let handler :=
    match files_audio request with
    | Some _ => _handle_voice_query remote app request new_session_id
                  d_user d_assistant
    | None => _handle_text_query remote app request
    end in
  match handler (chat_manager app, []) with
  | (Ok reply, (m, calls)) => (reply, m, calls)
  | (Raise e, (m, calls)) =>
      (mkReply (ReplyError (create_error_response "LLM processing failed"
                              GENERAL_ERROR)) 500, m, calls)
  end.

(** ** The fallback generator as an ordered rule table

    The specification's wording of [_generate_contextual_fallback]: keyword
    families tried top to bottom, the first that matches the lower-cased
    input wins, the default comes last.  The keywords and the replies are
    those of the source. *)

Inductive Family :=
  | Greeting
  | WellBeing
  | Gratitude
  | Farewell
  | HelpRequest
  | QuestionWord
  | OtherText.

Definition family_keywords : list (Family * list string) :=
  [ (Greeting, ["hello"; "hi"; "hey"; "good morning"; "good afternoon"]);
    (WellBeing, ["how are you"; "how do you do"]);
    (Gratitude, ["thank"; "thanks"]);
    (Farewell, ["bye"; "goodbye"; "see you"; "farewell"]);
    (HelpRequest, ["help"; "support"; "assist"]);
    (QuestionWord, ["what"; "how"; "why"; "when"; "where"; "who"]) ].

Fixpoint first_match (table : list (Family * list string)) (user_lower : string)
  : Family :=
  match table with
  | [] => OtherText
  | (family, words) :: rest =>
      if any_word_in words user_lower then family
      else first_match rest user_lower
  end.

Definition classify (user_text : string) : Family :=
  first_match family_keywords (lower user_text).

(** The input as the default reply quotes it. *)
Definition preview_of (user_text : string) : string :=
  if 50 <? len user_text then str_take 50 user_text +:+ "..." else user_text.

Definition canned_reply (family : Family) (user_text : string) : string :=
  match family with
  | Greeting =>
      "Hello! I'm having some technical difficulties with my AI brain, but I'm here to help as best I can."
  | WellBeing =>
      "I'm experiencing some technical issues right now, but thank you for asking! How can I help you?"
  | Gratitude =>
      "You're very welcome! Though I should mention I'm having some connectivity issues at the moment."
  | Farewell =>
      "Goodbye! Sorry for any technical difficulties during our conversation. Hope to chat again soon!"
  | HelpRequest =>
      "I'd love to help you! I'm currently experiencing some technical difficulties, but I'll do my best to assist."
  | QuestionWord =>
      "That's a great question! Unfortunately, I'm having trouble accessing my full knowledge base right now, but please try asking again in a moment."
  | OtherText =>
      "I heard you mention something about '" +:+ preview_of user_text +:+
      "'. I'm experiencing some technical difficulties, but I'm trying to help as best I can."
  end.

Definition contextual_fallback_spec (user_text : string) : string :=
  canned_reply (classify user_text) user_text.

(** ** The ways a synthesis can fail *)

Inductive SynthesisFailure :=
  | NotConfigured
  | TimedOut
  | TransportError
  | BadStatus
  | MissingAudioReference
  | UnparsableResponse.

(** The answer to the one POST that [synthesize_speech] sends. *)
Definition murf_answer (remote : Remote) (self : TTSService)
    (request : TTSRequest) : Exc HttpResponse :=
  requests_post remote (default "" (tts_api_url self))
    (_prepare_murf_payload self request) (_prepare_murf_headers self)
    (tts_timeout self).

Definition fails_by (mode : SynthesisFailure) (remote : Remote)
    (self : TTSService) (request : TTSRequest) : Prop :=
  match mode with
  | NotConfigured => tts_is_available self = false
  | TimedOut =>
      tts_is_available self = true ∧
      ∃ e, murf_answer remote self request = Raise e ∧ is_Timeout e = true
  | TransportError =>
      tts_is_available self = true ∧
      ∃ e, murf_answer remote self request = Raise e ∧
           is_Timeout e = false ∧ is_RequestException e = true
  | BadStatus =>
      tts_is_available self = true ∧
      ∃ response, murf_answer remote self request = Ok response ∧
                  status_code response ≠ 200
  | MissingAudioReference =>
      tts_is_available self = true ∧
      ∃ response audio_url,
        murf_answer remote self request = Ok response ∧
        status_code response = 200 ∧
        response_json response = BodyObject audio_url ∧
        json_truthy audio_url = false
  | UnparsableResponse =>
      tts_is_available self = true ∧
      ∃ response msg,
        murf_answer remote self request = Ok response ∧
        status_code response = 200 ∧
        response_json response = BodyUnparsable msg
  end.

Definition failure_error_type (mode : SynthesisFailure) : ErrorType :=
  match mode with
  | NotConfigured => CONFIG_ERROR
  | TimedOut => TIMEOUT_ERROR
  | TransportError => NETWORK_ERROR
  | BadStatus => API_ERROR
  | MissingAudioReference => TTS_ERROR
  | UnparsableResponse => API_ERROR
  end.

(** The text as a [data:] URL: its UTF-8 bytes in base64. *)
Definition data_url (text : string) : string :=
  "data:text/plain;base64," +:+ decode_ascii (b64encode (encode_utf8 text)).

(** ** Reading a data URL back

    What a client does with the emergency fallback: it takes what follows the
    prefix, undoes the base64 and decodes the bytes as UTF-8.  Only code
    points below 256 are decoded, as everywhere in this file. *)

Definition b64_index (c : byte) : option N :=
  (fix go (alphabet : string) (i : N) : option N :=
     match alphabet with
     | EmptyString => None
     | String x rest =>
         if Byte.eqb (byte_of_ascii x) c then Some i else go rest (i + 1)%N
     end) b64_alphabet 0%N.

Fixpoint b64decode (cs : list byte) : option (list byte) :=
  match cs with
  | [] => Some []
  | c1 :: c2 :: c3 :: c4 :: rest =>
      v1 ← b64_index c1;
      v2 ← b64_index c2;
      match rest with
      | [] =>
          if Byte.eqb c4 b64_pad then
            if Byte.eqb c3 b64_pad then
              let n := (v1 * 262144 + v2 * 4096)%N in
              Some [N_to_byte (n / 65536)]
            else
              v3 ← b64_index c3;
              let n := (v1 * 262144 + v2 * 4096 + v3 * 64)%N in
              Some [N_to_byte (n / 65536); N_to_byte ((n / 256) mod 256)]
          else
            v3 ← b64_index c3;
            v4 ← b64_index c4;
            let n := (v1 * 262144 + v2 * 4096 + v3 * 64 + v4)%N in
            Some [N_to_byte (n / 65536); N_to_byte ((n / 256) mod 256);
                  N_to_byte (n mod 256)]
      | _ =>
          v3 ← b64_index c3;
          v4 ← b64_index c4;
          tail ← b64decode rest;
          let n := (v1 * 262144 + v2 * 4096 + v3 * 64 + v4)%N in
          Some (N_to_byte (n / 65536) :: N_to_byte ((n / 256) mod 256) ::
                N_to_byte (n mod 256) :: tail)
      end
  | _ => None
  end.

Fixpoint decode_utf8 (bs : list byte) : option string :=
  match bs with
  | [] => Some ""
  | b :: rest =>
      let n := Byte.to_N b in
      if (n <? 128)%N then String (ascii_of_N n) <$> decode_utf8 rest
      else
        match rest with
        | b' :: rest' =>
            let n' := Byte.to_N b' in
            if ((194 <=? n) && (n <=? 195) && (128 <=? n') && (n' <? 192))%N
            then String (ascii_of_N ((n - 192) * 64 + (n' - 128))) <$>
                 decode_utf8 rest'
            else None
        | [] => None
        end
  end.

Fixpoint str_drop (n : nat) (s : string) : string :=
  match n, s with
  | S n', String _ s' => str_drop n' s'
  | _, _ => s
  end.

Definition read_data_url (url : string) : option string :=
  if String.prefix "data:text/plain;base64," url
  then b64decode (list_byte_of_string (str_drop 23 url)) ≫= decode_utf8
  else None.

(** Steps through [b64decode] on digits whose index is known: [index] gives
    the index of a digit, [not_pad] says a digit is not the padding. *)
Ltac b64_step index not_pad :=
  repeat first
    [ rewrite index by done
    | rewrite not_pad by done
    | progress change (Byte.eqb b64_pad b64_pad) with true
    | progress cbn [mbind option_bind]
    | progress cbn match ].

Definition is_post (c : Call) : bool :=
  match c with
  | CallPost _ _ _ _ => true
  | _ => false
  end.

Definition is_generate (c : Call) : bool :=
  match c with
  | CallGenerate _ => true
  | _ => false
  end.

(** No call of the list reaches the generator or the synthesizer. *)
Definition no_generation_no_synthesis (calls : list Call) : Prop :=
  Forall (λ c, is_generate c = false ∧ is_post c = false) calls.

(** ** Concrete surroundings for the examples *)

(** Remote parties that all answer well: the transcript reads [heard], the
    generator answers [answer], the synthesizer returns a URL. *)
Definition healthy_remote (heard answer : string) : Remote :=
  {| save_upload := λ _, Ok "/tmp/upload.webm";
     aai_transcribe := λ _, Ok (mkTranscript false "" (Some heard) (Some (9 # 10)));
     gemini_generate_content := λ _, Ok answer;
     requests_post := λ _ _ _ _,
       Ok (mkHttpResponse 200 ""
             (BodyObject (Some (JString "https://murf.ai/audio/1.mp3")))) |}.

(** As [healthy_remote], with a generator that raises. *)
Definition failing_generator_remote (heard : string) : Remote :=
  {| save_upload := λ _, Ok "/tmp/upload.webm";
     aai_transcribe := λ _, Ok (mkTranscript false "" (Some heard) (Some (9 # 10)));
     gemini_generate_content := λ _, Raise (mkExn OtherException "503 unavailable");
     requests_post := λ _ _ _ _,
       Ok (mkHttpResponse 200 ""
             (BodyObject (Some (JString "https://murf.ai/audio/1.mp3")))) |}.

(** The services with their keys set, over a given store. *)
Definition configured_app (store : ChatHistoryManager) : App :=
  {| stt_service := STTService_init (Some "stt-key") 30 (Ok ());
     llm_service := LLMService_init (Some "llm-key") 30 (Ok ());
     tts_service :=
       mkTTSService (Some "tts-key") (Some "https://api.murf.ai/v1/speech/generate")
         60 "en-US-AriaNeural" 95 45;
     chat_manager := store |}.

Definition sample_audio : FileStorage :=
  mkFileStorage "question.webm" 2048 [].

(** ** Sequences of store operations *)

Inductive Op :=
  | OpCreate (d : Draw)
  | OpAppend (d : Draw) (session_id : string) (role : MessageRole)
             (content : string)
  | OpClear (session_id : string).

Definition step (op : Op) (m : ChatHistoryManager) : ChatHistoryManager :=
  match op with
  | OpCreate d => (create_session d m).2
  | OpAppend d session_id role content =>
      match add_message d m session_id role content with
      | Ok (_, m') => m'
      | Raise _ => m
      end
  | OpClear session_id => (clear_session m session_id).2
  end.

(** The operations are applied oldest first. *)
Definition run (ops : list Op) (m : ChatHistoryManager) : ChatHistoryManager :=
  foldl (λ m op, step op m) m ops.

(** A [uuid4()] that is drawn names no session of the store it is drawn
    for.  [add_message] draws only for an id the store does not know. *)
Definition draw_fresh (op : Op) (m : ChatHistoryManager) : bool :=
  match op with
  | OpCreate d => bool_decide (sessions m !! uuid4 d = None)
  | OpAppend d session_id _ _ =>
      bool_decide (is_Some (sessions m !! session_id)) ||
      bool_decide (sessions m !! uuid4 d = None)
  | OpClear _ => true
  end.

Fixpoint draws_fresh (ops : list Op) (m : ChatHistoryManager) : bool :=
  match ops with
  | [] => true
  | op :: ops' => draw_fresh op m && draws_fresh ops' (step op m)
  end.

(** The last [k] elements of a list. *)
Definition last_n {A} (k : nat) (l : list A) : list A :=
  drop (length l - k) l.

(** The session [create_session] stores. *)
Definition new_session (d : Draw) : ChatSessionInfo :=
  {| session_id := uuid4 d;
     message_count := 0;
     created_at := now_created d;
     last_activity := now_created d;
     messages := [] |}.

(** Every stored count is the length of the stored list. *)
Definition counts_match (m : ChatHistoryManager) : Prop :=
  ∀ sid s, sessions m !! sid = Some s →
    message_count s = Z.of_nat (length (messages s)).

(** ** config/settings.py

    The class attributes are read from the environment once; they are the
    fields of a record.  The Flask, upload and logging settings, which none
    of the functions below reads, are left out. *)

Record Config := mkConfig {
  ASSEMBLYAI_API_KEY : option string;
  GEMINI_API_KEY : option string;
  MURF_API_KEY : option string;
  MURF_API_URL : option string;
  DEFAULT_VOICE_ID : string;
  DEFAULT_SPEECH_SPEED : Z;
  DEFAULT_SPEECH_PITCH : Z;
  STT_TIMEOUT : Z;
  LLM_TIMEOUT : Z;
  TTS_TIMEOUT : Z
}.

(** [bool(key and key != placeholder)] *)
Definition key_configured (key : option string) (placeholder : string) : bool :=
  match key with
  | None => false
  | Some k => negb (str_falsy k) && negb (String.eqb k placeholder)
  end.

(** The dictionary of [validate_api_keys], in the order of its keys. *)
Definition validate_api_keys (cls : Config) : list (string * bool) :=
  [ ("assemblyai",
     key_configured (ASSEMBLYAI_API_KEY cls) "your_assemblyai_api_key_here");
    ("gemini", key_configured (GEMINI_API_KEY cls) "your_gemini_api_key_here");
    ("murf", key_configured (MURF_API_KEY cls) "your_murf_api_key_here");
    ("murf_url", key_configured (MURF_API_URL cls) "your_murf_api_url_here") ].

Definition get_missing_keys (cls : Config) : list string :=
  let validation := validate_api_keys cls in
  (List.filter (λ item : string * bool, negb item.2) validation).*1.

Definition is_production_ready (cls : Config) : bool :=
  let missing_keys := get_missing_keys cls in
  bool_decide (length missing_keys = 0%nat).

(** ** The services as the modules build them from the configuration *)

(** [TTSService.__init__] *)
Definition TTSService_init (config : Config) : TTSService :=
  {| tts_api_key := MURF_API_KEY config;
     tts_api_url := MURF_API_URL config;
     tts_timeout := TTS_TIMEOUT config;
     default_voice := DEFAULT_VOICE_ID config;
     default_speed := DEFAULT_SPEECH_SPEED config;
     default_pitch := DEFAULT_SPEECH_PITCH config |}.

(** The three module-level instances; [stt_configure] and [llm_configure]
    are the outcomes of setting up the two client libraries. *)
Definition app_of_config (config : Config) (stt_configure llm_configure : Exc unit)
    (store : ChatHistoryManager) : App :=
  {| stt_service :=
       STTService_init (ASSEMBLYAI_API_KEY config) (STT_TIMEOUT config)
         stt_configure;
     llm_service :=
       LLMService_init (GEMINI_API_KEY config) (LLM_TIMEOUT config) llm_configure;
     tts_service := TTSService_init config;
     chat_manager := store |}.

(** ** The [health_check] methods of the services *)

Record STTHealth := mkSTTHealth {
  stt_health_service : string;
  stt_health_available : bool;
  stt_health_api_key_configured : bool;
  stt_health_timeout : Z
}.

Definition stt_health_check (self : STTService) : STTHealth :=
  {| stt_health_service := "AssemblyAI";
     stt_health_available := stt_is_available self;
     stt_health_api_key_configured :=
       key_configured (stt_api_key self) "your_assemblyai_api_key_here";
     stt_health_timeout := stt_timeout self |}.

Record LLMHealth := mkLLMHealth {
  llm_health_service : string;
  llm_health_model : string;
  llm_health_available : bool;
  llm_health_api_key_configured : bool;
  llm_health_timeout : Z
}.

Definition llm_health_check (self : LLMService) : LLMHealth :=
  {| llm_health_service := "Google Gemini";
     llm_health_model := llm_model_name self;
     llm_health_available := llm_is_available self;
     llm_health_api_key_configured :=
       key_configured (llm_api_key self) "your_gemini_api_key_here";
     llm_health_timeout := llm_timeout self |}.

Record TTSHealth := mkTTSHealth {
  tts_health_service : string;
  tts_health_available : bool;
  tts_health_api_key_configured : bool;
  tts_health_api_url_configured : bool;
  tts_health_timeout : Z;
  tts_health_default_voice : string
}.

Definition tts_health_check (self : TTSService) : TTSHealth :=
  {| tts_health_service := "Murf API";
     tts_health_available := tts_is_available self;
     tts_health_api_key_configured :=
       key_configured (tts_api_key self) "your_murf_api_key_here";
     tts_health_api_url_configured :=
       key_configured (tts_api_url self) "your_murf_api_url_here";
     tts_health_timeout := tts_timeout self;
     tts_health_default_voice := default_voice self |}.

(** ** app.py: the other routes *)

Record HealthCheckResponse := mkHealthCheckResponse {
  hc_status : string;
  hc_version : string;
  hc_day : Z;
  hc_services : list (string * bool)
}.

(** [/api/health] *)
Definition health_check (config : Config) (app : App) : HealthCheckResponse * Z :=
  let missing_keys := get_missing_keys config in
  let services_status :=
    [ ("stt", stt_is_available (stt_service app));
      ("llm", llm_is_available (llm_service app));
      ("tts", tts_is_available (tts_service app)) ] in
  ({| hc_status :=
        if bool_decide (length missing_keys = 0%nat) then "healthy" else "degraded";
      hc_version := "1.0.0";
      hc_day := 14;
      hc_services := services_status |}, 200).

Inductive ServiceReply :=
  | ServiceError (r : ErrorResponse)
  | ServiceSpeech (r : TTSResponse)
  | ServiceTranscription (r : TranscriptionResponse).





(** [/api/transcribe]; [audio] is [request.files.get('audio')]. *)
Definition transcribe_audio_route (remote : Remote) (app : App)
    (audio : option FileStorage) : (ServiceReply * Z) * list Call :=
  match audio with
  | None =>
      ((ServiceError (create_error_response "No audio file provided" INPUT_ERROR),
        400), [])
  | Some audio_file =>
      match validate_audio_file audio_file with
      | Some validation_error =>
          ((ServiceError (create_error_response validation_error INPUT_ERROR),
            400), [])
      | None =>
          let '(response, calls) :=
            transcribe_audio remote (stt_service app) audio_file in
          ((ServiceTranscription response,
            if stt_success response then 200 else 500), calls)
      end
  end.

Record HistoryReply := mkHistoryReply {
  history_success : bool;
  history_session_id : string;
  history : list ChatMessage;
  history_message_count : Z
}.

(** [/api/chat/history/<session_id>] *)
Definition get_chat_history_route (app : App) (session_id : string)
  : HistoryReply * Z :=
  let history := get_chat_history (chat_manager app) session_id in
  ({| history_success := true;
      history_session_id := session_id;
      history := history;
      history_message_count := Z.of_nat (length history) |}, 200).

(** ** Helpers for the statements *)

(** The ids drawn by the operations of a sequence. *)
Definition drawn_id (op : Op) : list string :=
  match op with
  | OpCreate d => [uuid4 d]
  | OpAppend d _ _ _ => [uuid4 d]
  | OpClear _ => []
  end.

Definition drawn_ids (ops : list Op) : list string := ops ≫= drawn_id.


(** Every character of the string is white space. *)
Fixpoint all_space (s : string) : bool :=
  match s with
  | EmptyString => true
  | String c s' => chr_isspace c && all_space s'
  end.

(** The key of a stored session is its own [session_id], and it is an id
    one of the operations drew. *)
Definition keys_are_drawn (ids : list string) (m : ChatHistoryManager) : Prop :=
  ∀ k s, sessions m !! k = Some s → session_id s = k ∧ k ∈ ids.

(** * Properties *)

(** ** Strings: append, length, strip *)

Section strings.
Implicit Types (s a b : string) (c : ascii).

Lemma str_app_cons c a b : String c a +:+ b = String c (a +:+ b).
Proof. reflexivity. Qed.

Lemma str_app_assoc a b s : (a +:+ b) +:+ s = a +:+ (b +:+ s).
Proof.
  induction a as [|c a IH]; [done|].
  by rewrite !str_app_cons, IH.
Qed.

Lemma len_app a b : len (a +:+ b) = len a + len b.
Proof.
  unfold len. induction a as [|c a IH]; [by cbn|].
  rewrite str_app_cons. cbn [String.length]. lia.
Qed.

Lemma len_str_take_le n s : len (str_take n s) ≤ Z.of_nat n.
Proof.
  unfold len. revert s. induction n as [|n IH]; intros s; [by cbn|].
  destruct s as [|c s]; cbn [str_take String.length]; [lia|].
  specialize (IH s). lia.
Qed.

Lemma list_ascii_of_string_app a b :
  list_ascii_of_string (a +:+ b) = list_ascii_of_string a ++ list_ascii_of_string b.
Proof.
  induction a as [|c a IH]; [done|].
  rewrite str_app_cons. cbn. by rewrite IH.
Qed.

Lemma str_reverse_snoc s c :
  str_reverse (s +:+ String c "") = String c (str_reverse s).
Proof.
  unfold str_reverse. rewrite list_ascii_of_string_app. cbn.
  by rewrite reverse_snoc.
Qed.

Lemma str_reverse_involutive s : str_reverse (str_reverse s) = s.
Proof.
  unfold str_reverse.
  by rewrite list_ascii_of_string_of_list_ascii, reverse_involutive,
    string_of_list_ascii_of_string.
Qed.

(** A string that neither starts nor ends with a space is its own strip. *)
Lemma strip_fixed c s c' :
  chr_isspace c = false →
  chr_isspace c' = false →
  strip (String c (s +:+ String c' "")) = String c (s +:+ String c' "").
Proof.
  intros Hc Hc'. unfold strip. cbn [lstrip]. rewrite Hc.
  unfold rstrip. rewrite <- str_app_cons, str_reverse_snoc.
  cbn [lstrip]. rewrite Hc'.
  rewrite <- str_reverse_snoc. apply str_reverse_involutive.
Qed.

Lemma preview_of_length user_text : len (preview_of user_text) ≤ 53.
Proof.
  unfold preview_of. destruct (Z.ltb_spec 50 (len user_text)); [|lia].
  rewrite len_app. pose proof (len_str_take_le 50 user_text).
  change (len "...") with 3. lia.
Qed.

Lemma TTSRequest_of_text_fixed s :
  1 ≤ len s ≤ 5000 →
  strip s = s →
  TTSRequest_of_text s =
    Ok (mkTTSRequest s (Some "en-US-AriaNeural") (Some 95) (Some 45)).
Proof.
  intros [Hlo Hhi] Hstrip. unfold TTSRequest_of_text, TTSRequest_new.
  rewrite (proj2 (Z.ltb_ge _ _)) by lia.
  rewrite (proj2 (Z.ltb_ge _ _)) by lia.
  cbn [in_range negb andb Z.leb Z.compare Pos.compare Pos.compare_cont].
  rewrite Hstrip. destruct s; [unfold len in Hlo; cbn in Hlo; lia|]. reflexivity.
Qed.

(** Every reply of the fallback generator is accepted by [TTSRequest] as it
    stands: it is between 1 and 5000 characters long and strips to itself. *)
Lemma fallback_is_speakable user_text :
  TTSRequest_of_text (_generate_contextual_fallback user_text) =
    Ok (mkTTSRequest (_generate_contextual_fallback user_text)
          (Some "en-US-AriaNeural") (Some 95) (Some 45)).
Proof.
  unfold _generate_contextual_fallback.
  destruct (str_falsy user_text); [vm_compute; reflexivity|].
  repeat (destruct (any_word_in _ _); [vm_compute; reflexivity|]).
  fold (preview_of user_text).
  apply TTSRequest_of_text_fixed.
  - rewrite !len_app. pose proof (preview_of_length user_text).
    assert (0 ≤ len (preview_of user_text)) by (unfold len; lia).
    remember (len "I heard you mention something about '") as la eqn:Hla.
    vm_compute in Hla.
    remember (len "'. I'm experiencing some technical difficulties, but I'm trying to help as best I can.")
      as lb eqn:Hlb.
    vm_compute in Hlb. lia.
  - change ("I heard you mention something about '" +:+ preview_of user_text +:+
            "'. I'm experiencing some technical difficulties, but I'm trying to help as best I can.")
      with (String "I"
              (" heard you mention something about '" +:+ preview_of user_text +:+
               ("'. I'm experiencing some technical difficulties, but I'm trying to help as best I can" +:+
                String "." ""))).
    rewrite <- (str_app_assoc (preview_of user_text)), <- str_app_assoc.
    by apply strip_fixed.
Qed.
End strings.

(** ** The data URL can be read back *)

Section data_url.
Implicit Types (bs : list byte) (i : N).

Lemma b64_digit_index i : (i < 64)%N → b64_index (b64_digit i) = Some i.
Proof.
  intros Hi. rewrite <- (N2Nat.id i).
  assert (Hk : (N.to_nat i < 64)%nat) by lia.
  revert Hk. generalize (N.to_nat i). clear. intros k Hk.
  do 64 (destruct k as [|k]; [vm_compute; reflexivity|]). lia.
Qed.

Lemma b64_digit_not_pad i : (i < 64)%N → Byte.eqb (b64_digit i) b64_pad = false.
Proof.
  intros Hi. rewrite <- (N2Nat.id i).
  assert (Hk : (N.to_nat i < 64)%nat) by lia.
  revert Hk. generalize (N.to_nat i). clear. intros k Hk.
  do 64 (destruct k as [|k]; [vm_compute; reflexivity|]). lia.
Qed.

Lemma byte_to_N_lt (a : byte) : (Byte.to_N a < 256)%N.
Proof. destruct a; vm_compute; reflexivity. Qed.

Lemma N_to_byte_to_N (a : byte) : N_to_byte (Byte.to_N a) = a.
Proof. destruct a; reflexivity. Qed.

Lemma list_ind3 {A} (P : list A → Prop) :
  P [] →
  (∀ a, P [a]) →
  (∀ a b, P [a; b]) →
  (∀ a b c l, P l → P (a :: b :: c :: l)) →
  ∀ l, P l.
Proof.
  intros H0 H1 H2 H3 l.
  assert (P l ∧ (∀ a, P (a :: l)) ∧ (∀ a b, P (a :: b :: l))) as [H _].
  { induction l as [|x l (IH0 & IH1 & IH2)]; [by auto|].
    split_and!; auto. }
  exact H.
Qed.

Lemma b64encode_nil bs : b64encode bs = [] → bs = [].
Proof. by destruct bs as [|a [|b [|c rest]]]. Qed.

Lemma digits_lt (n : N) :
  (n < 16777216 →
   n / 262144 < 64 ∧ (n / 4096) mod 64 < 64 ∧ (n / 64) mod 64 < 64 ∧
   n mod 64 < 64)%N.
Proof. intros. repeat split; zify; Z.to_euclidean_division_equations; lia. Qed.

Lemma digits_recompose (n : N) :
  (n / 262144 * 262144 + (n / 4096) mod 64 * 4096 + (n / 64) mod 64 * 64 +
   n mod 64 = n)%N.
Proof. zify; Z.to_euclidean_division_equations; lia. Qed.

Lemma bytes_of_number (a b c : N) :
  (a < 256 → b < 256 → c < 256 →
   let n := a * 65536 + b * 256 + c in
   n < 16777216 ∧ n / 65536 = a ∧ (n / 256) mod 256 = b ∧ n mod 256 = c)%N.
Proof.
  intros. cbv zeta. repeat split; zify; Z.to_euclidean_division_equations; lia.
Qed.

Lemma b64decode_group (a b c : byte) (tail : list byte) :
  let n := (Byte.to_N a * 65536 + Byte.to_N b * 256 + Byte.to_N c)%N in
  ∀ v1 v2 v3 v4,
    v1 = (n / 262144)%N → v2 = ((n / 4096) mod 64)%N →
    v3 = ((n / 64) mod 64)%N → v4 = (n mod 64)%N →
    let m := (v1 * 262144 + v2 * 4096 + v3 * 64 + v4)%N in
    N_to_byte (m / 65536) :: N_to_byte ((m / 256) mod 256) ::
    N_to_byte (m mod 256) :: tail = a :: b :: c :: tail.
Proof.
  cbv zeta. intros v1 v2 v3 v4 -> -> -> ->.
  rewrite digits_recompose.
  destruct (bytes_of_number _ _ _ (byte_to_N_lt a) (byte_to_N_lt b) (byte_to_N_lt c))
    as (_ & -> & -> & ->).
  by rewrite !N_to_byte_to_N.
Qed.

Lemma one_byte_back (a : N) :
  (a < 256 →
   let n := a * 65536 in
   n < 16777216 ∧
   (n / 262144 * 262144 + (n / 4096) mod 64 * 4096) / 65536 = a)%N.
Proof.
  intros. cbv zeta. repeat split; zify; Z.to_euclidean_division_equations; lia.
Qed.

Lemma two_bytes_back (a b : N) :
  (a < 256 → b < 256 →
   let n := a * 65536 + b * 256 in
   let m := n / 262144 * 262144 + (n / 4096) mod 64 * 4096 +
            (n / 64) mod 64 * 64 in
   n < 16777216 ∧ m / 65536 = a ∧ (m / 256) mod 256 = b)%N.
Proof.
  intros. cbv zeta. repeat split; zify; Z.to_euclidean_division_equations; lia.
Qed.

Lemma b64decode_encode bs : b64decode (b64encode bs) = Some bs.
Proof.
  induction bs as [|a|a b|a b c rest IH] using list_ind3.
  - reflexivity.
  - cbn [b64encode].
    destruct (one_byte_back _ (byte_to_N_lt a)) as [Hn Ha].
    destruct (digits_lt _ Hn) as (H1 & H2 & _ & _).
    set (n := (Byte.to_N a * 65536)%N) in *.
    cbn [b64decode]. b64_step b64_digit_index b64_digit_not_pad.
    by rewrite Ha, N_to_byte_to_N.
  - cbn [b64encode].
    destruct (two_bytes_back _ _ (byte_to_N_lt a) (byte_to_N_lt b))
      as (Hn & Ha & Hb).
    destruct (digits_lt _ Hn) as (H1 & H2 & H3 & _).
    set (n := (Byte.to_N a * 65536 + Byte.to_N b * 256)%N) in *.
    cbn [b64decode]. b64_step b64_digit_index b64_digit_not_pad.
    by rewrite Ha, Hb, !N_to_byte_to_N.
  - cbn [b64encode].
    destruct (bytes_of_number _ _ _ (byte_to_N_lt a) (byte_to_N_lt b)
                (byte_to_N_lt c)) as (Hn & _).
    destruct (digits_lt _ Hn) as (H1 & H2 & H3 & H4).
    pose proof (b64decode_group a b c) as Hgroup. cbv zeta in Hgroup.
    set (n := (Byte.to_N a * 65536 + Byte.to_N b * 256 + Byte.to_N c)%N) in *.
    cbn [b64decode]. b64_step b64_digit_index b64_digit_not_pad.
    destruct (b64encode rest) as [|x code] eqn:Hrest.
    + apply b64encode_nil in Hrest as ->.
      b64_step b64_digit_index b64_digit_not_pad.
      f_equal. by apply Hgroup.
    + b64_step b64_digit_index b64_digit_not_pad. rewrite IH.
      b64_step b64_digit_index b64_digit_not_pad.
      f_equal. by apply Hgroup.
Qed.

Lemma utf8_char_back (c : ascii) (rest : list byte) :
  decode_utf8 (utf8_char c ++ rest) = String c <$> decode_utf8 rest.
Proof. destruct c as [[] [] [] [] [] [] [] []]; reflexivity. Qed.

Lemma decode_utf8_encode (s : string) : decode_utf8 (encode_utf8 s) = Some s.
Proof.
  induction s as [|c s IH]; [reflexivity|].
  cbn [encode_utf8]. by rewrite utf8_char_back, IH.
Qed.

Lemma list_byte_of_decode_ascii bs : list_byte_of_string (decode_ascii bs) = bs.
Proof.
  unfold decode_ascii, list_byte_of_string.
  rewrite list_ascii_of_string_of_list_ascii.
  induction bs as [|b bs IH]; [done|].
  cbn. by rewrite byte_of_ascii_of_byte, IH.
Qed.

(** The emergency fallback names its text: reading the URL gives the text
    back, so two texts with the same fallback are the same text. *)
Lemma prefix_app (p s : string) : String.prefix p (p +:+ s) = true.
Proof.
  induction p as [|c p IH]; [by destruct s|].
  rewrite str_app_cons. cbn. by destruct (ascii_dec c c).
Qed.

Lemma str_drop_app (p s : string) : str_drop (String.length p) (p +:+ s) = s.
Proof. induction p as [|c p IH]; [by destruct s|]. by rewrite str_app_cons. Qed.

Lemma read_data_url_back (text : string) : read_data_url (data_url text) = Some text.
Proof.
  unfold read_data_url, data_url.
  rewrite prefix_app.
  rewrite (str_drop_app "data:text/plain;base64,").
  rewrite list_byte_of_decode_ascii, b64decode_encode. cbn.
  apply decode_utf8_encode.
Qed.

Example data_url_no_padding : data_url "Hello!" = "data:text/plain;base64,SGVsbG8h".
Proof. reflexivity. Qed.

Example data_url_one_pad : data_url "Hello" = "data:text/plain;base64,SGVsbG8=".
Proof. reflexivity. Qed.

Example data_url_two_pads : data_url "Hi~~" = "data:text/plain;base64,SGl+fg==".
Proof. reflexivity. Qed.

Example data_url_last_digit : data_url "???" = "data:text/plain;base64,Pz8/".
Proof. reflexivity. Qed.

Example data_url_two_byte_character :
  data_url (String (ascii_of_nat 255) "") = "data:text/plain;base64,w78=".
Proof. reflexivity. Qed.
End data_url.

(** ** The session store *)

Section store.
Implicit Types (self m : ChatHistoryManager) (sid : string) (d : Draw).

Lemma add_message_known d self sid role content s :
  sessions self !! sid = Some s →
  add_message d self sid role content =
    Ok (true, mkManager (<[sid := with_message d s role content]> (sessions self))).
Proof.
  intros Hs. unfold add_message.
  rewrite bool_decide_eq_true_2 by (rewrite Hs; eauto).
  unfold sessions_getitem. rewrite Hs. reflexivity.
Qed.

Lemma add_message_unknown d self sid role content :
  sessions self !! sid = None →
  add_message d self sid role content =
    Ok (true, mkManager (<[uuid4 d := with_message d (new_session d) role content]>
                           (sessions self))).
Proof.
  intros Hs. unfold add_message.
  rewrite bool_decide_eq_false_2 by (rewrite Hs; intros [? ?]; discriminate).
  unfold create_session, sessions_getitem. cbn.
  rewrite lookup_insert_eq. cbn. rewrite insert_insert_eq. reflexivity.
Qed.

(** [add_message] never raises and always answers [True]. *)
Lemma add_message_returns d self sid role content :
  ∃ m, add_message d self sid role content = Ok (true, m).
Proof.
  destruct (sessions self !! sid) as [s|] eqn:Hs.
  - eexists. by apply add_message_known.
  - eexists. by apply add_message_unknown.
Qed.

Lemma get_chat_history_unknown self sid :
  sessions self !! sid = None → get_chat_history self sid = [].
Proof. intros Hs. unfold get_chat_history. by rewrite Hs. Qed.

Lemma get_recent_messages_unknown self sid limit :
  sessions self !! sid = None → get_recent_messages self sid limit = [].
Proof.
  intros Hs. unfold get_recent_messages. by rewrite get_chat_history_unknown.
Qed.

Lemma py_slice_from_last {A} (l : list A) (n : Z) :
  1 ≤ n → py_slice_from (- n) l = last_n (Z.to_nat n) l.
Proof.
  intros Hn. unfold py_slice_from, last_n.
  destruct (Z.ltb_spec (- n) 0) as [_|?]; [|lia].
  f_equal. lia.
Qed.

Lemma py_slice_from_0 {A} (l : list A) : py_slice_from (- 0) l = l.
Proof. unfold py_slice_from. cbn. by rewrite Z.min_l by lia. Qed.

(** For a limit of at least one, [get_recent_messages] is the last
    [min limit total] messages of the history. *)
Lemma get_recent_messages_positive self sid limit :
  1 ≤ limit →
  get_recent_messages self sid limit =
    last_n (Z.to_nat (Z.min limit (Z.of_nat (length (get_chat_history self sid)))))
      (get_chat_history self sid).
Proof.
  intros Hn. unfold get_recent_messages.
  destruct (get_chat_history self sid) as [|x l] eqn:Hh; [done|].
  rewrite py_slice_from_last by done.
  unfold last_n. f_equal. lia.
Qed.
End store.

Section store_claims.
Implicit Types (self m : ChatHistoryManager) (sid : string) (d : Draw).

(** C2.  Reading the history or the recent messages of an id the store does
    not know gives the empty list (and, being a read, leaves the store as it
    is).  But [add_message] on such an id files the message under the id
    drawn by [create_session], not under the id it was given: unless the two
    coincide, the given id is still unknown afterwards and its history is
    still empty, while the message sits alone in the session named by the
    drawn id. *)
Theorem add_message_unknown_id_files_elsewhere d self sid role content :
  sessions self !! sid = None →
  uuid4 d ≠ sid →
  get_chat_history self sid = [] ∧
  get_recent_messages self sid 10 = [] ∧
  ∃ m, add_message d self sid role content = Ok (true, m) ∧
       sessions m !! sid = None ∧
       get_chat_history m sid = [] ∧
       get_recent_messages m sid 10 = [] ∧
       get_chat_history m (uuid4 d) =
         [mkChatMessage role content (Some (now_message d))].
Proof.
  intros Hs Hne.
  split; [by apply get_chat_history_unknown|].
  split; [by apply get_recent_messages_unknown|].
  eexists. split; [by apply add_message_unknown|].
  assert (Hl : sessions
            (mkManager (<[uuid4 d := with_message d (new_session d) role content]>
                          (sessions self))) !! sid = None).
  { cbn. by rewrite lookup_insert_ne. }
  split_and!.
  - exact Hl.
  - by apply get_chat_history_unknown.
  - by apply get_recent_messages_unknown.
  - unfold get_chat_history. cbn. by rewrite lookup_insert_eq.
Qed.

Lemma add_message_unknown_id_files_elsewhere_witness :
  sessions ChatHistoryManager_init !! "session-1" = None ∧
  get_chat_history ChatHistoryManager_init "session-1" = [] ∧
  get_recent_messages ChatHistoryManager_init "session-1" 10 = [] ∧
  ∃ m, add_message (mkDraw "0b4e" 1 2 3) ChatHistoryManager_init
         "session-1" USER "Hello" = Ok (true, m) ∧
       sessions m !! "session-1" = None ∧
       get_chat_history m "session-1" = [] ∧
       get_recent_messages m "session-1" 10 = [] ∧
       get_chat_history m "0b4e" = [mkChatMessage USER "Hello" (Some 2)].
Proof.
  split; [reflexivity|].
  apply (add_message_unknown_id_files_elsewhere (mkDraw "0b4e" 1 2 3)
           ChatHistoryManager_init "session-1" USER "Hello").
  - reflexivity.
  - discriminate.
Defined.

(** C5.  With a limit of zero [get_recent_messages] returns the whole
    history of the session, whatever its length, where the last
    [min 0 total] messages are none.  And after [add_message] on an id the
    store does not know, the recent messages of that id are none for every
    limit, the message having gone to the session of the drawn id. *)
Theorem get_recent_messages_zero_is_all self sid :
  get_recent_messages self sid 0 = get_chat_history self sid ∧
  last_n (Z.to_nat (Z.min 0 (Z.of_nat (length (get_chat_history self sid)))))
    (get_chat_history self sid) = [] ∧
  ∀ d role content limit,
    sessions self !! sid = None →
    uuid4 d ≠ sid →
    ∃ m, add_message d self sid role content = Ok (true, m) ∧
         get_recent_messages m sid limit = [].
Proof.
  split_and!.
  - unfold get_recent_messages.
    destruct (get_chat_history self sid) as [|x l]; [done|].
    apply py_slice_from_0.
  - unfold last_n. rewrite Z.min_l by lia. cbn.
    rewrite Nat.sub_0_r. apply drop_all.
  - intros d role content limit Hs Hne.
    eexists. split; [by apply add_message_unknown|].
    apply get_recent_messages_unknown. cbn. by rewrite lookup_insert_ne.
Qed.

Lemma get_recent_messages_zero_is_all_witness :
  let self := run [OpCreate (mkDraw "s" 1 1 1);
                   OpAppend (mkDraw "x" 2 2 2) "s" USER "a";
                   OpAppend (mkDraw "y" 3 3 3) "s" ASSISTANT "b"]
                ChatHistoryManager_init in
  get_recent_messages self "s" 0 =
    [mkChatMessage USER "a" (Some 2); mkChatMessage ASSISTANT "b" (Some 3)] ∧
  sessions self !! "t" = None ∧
  ∃ m, add_message (mkDraw "z" 4 4 4) self "t" USER "c" = Ok (true, m) ∧
       get_recent_messages m "t" 1 = [].
Proof.
  cbv zeta.
  pose proof (get_recent_messages_zero_is_all
                (run [OpCreate (mkDraw "s" 1 1 1);
                      OpAppend (mkDraw "x" 2 2 2) "s" USER "a";
                      OpAppend (mkDraw "y" 3 3 3) "s" ASSISTANT "b"]
                   ChatHistoryManager_init)) as H.
  split; [exact (proj1 (H "s"))|]. split; [vm_compute; reflexivity|].
  apply (proj2 (proj2 (H "t"))).
  - vm_compute; reflexivity.
  - discriminate.
Defined.

(** C9.  [clear_session] answers [true] exactly when the store knew the id;
    afterwards the id is unknown and the other sessions are as before; a
    second call answers [false] and leaves the store as it is, and the
    history of the id is empty. *)
Theorem clear_session_twice self sid :
  let first := clear_session self sid in
  let second := clear_session first.2 sid in
  (first.1 = true ↔ is_Some (sessions self !! sid)) ∧
  sessions first.2 !! sid = None ∧
  (∀ k, k ≠ sid → sessions first.2 !! k = sessions self !! k) ∧
  second = (false, first.2) ∧
  get_chat_history second.2 sid = [].
Proof.
  cbv zeta.
  assert (Hgone : sessions (clear_session self sid).2 !! sid = None).
  { unfold clear_session. case_bool_decide as Hk; cbn.
    - apply lookup_delete_eq.
    - by apply eq_None_not_Some. }
  assert (Hsecond : clear_session (clear_session self sid).2 sid =
                    (false, (clear_session self sid).2)).
  { unfold clear_session at 1.
    rewrite bool_decide_eq_false_2; [done|].
    rewrite Hgone. by intros [? ?]. }
  split_and!.
  - unfold clear_session. case_bool_decide; cbn; naive_solver.
  - exact Hgone.
  - intros k Hk. unfold clear_session. case_bool_decide; cbn; [|done].
    by apply lookup_delete_ne.
  - exact Hsecond.
  - rewrite Hsecond. cbn. by apply get_chat_history_unknown.
Qed.
End store_claims.

Section store_invariants.
Implicit Types (self m : ChatHistoryManager) (sid : string) (d : Draw).

Lemma step_create d m :
  step (OpCreate d) m = mkManager (<[uuid4 d := new_session d]> (sessions m)).
Proof. reflexivity. Qed.

Lemma step_append_known d m sid role content s :
  sessions m !! sid = Some s →
  step (OpAppend d sid role content) m =
    mkManager (<[sid := with_message d s role content]> (sessions m)).
Proof. intros Hs. cbn. by rewrite (add_message_known _ _ _ _ _ s). Qed.

Lemma step_append_unknown d m sid role content :
  sessions m !! sid = None →
  step (OpAppend d sid role content) m =
    mkManager (<[uuid4 d := with_message d (new_session d) role content]>
                 (sessions m)).
Proof. intros Hs. cbn. by rewrite add_message_unknown. Qed.

Lemma step_clear m sid :
  sessions (step (OpClear sid) m) = delete sid (sessions m).
Proof.
  cbn. unfold clear_session. case_bool_decide as Hk; cbn; [done|].
  symmetry. apply delete_id. by apply eq_None_not_Some.
Qed.

Lemma run_app ops1 ops2 m : run (ops1 ++ ops2) m = run ops2 (run ops1 m).
Proof. apply foldl_app. Qed.

Lemma draws_fresh_app ops1 ops2 m :
  draws_fresh (ops1 ++ ops2) m = true → draws_fresh ops2 (run ops1 m) = true.
Proof.
  revert m. induction ops1 as [|op ops1 IH]; intros m; cbn; [done|].
  intros [_ H]%andb_true_iff. by apply IH.
Qed.

Lemma counts_match_init : counts_match ChatHistoryManager_init.
Proof. intros sid s. cbn. by rewrite lookup_empty. Qed.

Lemma counts_match_step op m : counts_match m → counts_match (step op m).
Proof.
  intros Hm. destruct op as [d|d sid' role content|sid'].
  - rewrite step_create. intros sid s. cbn.
    rewrite lookup_insert. case_decide.
    + intros [= <-]. reflexivity.
    + apply Hm.
  - destruct (sessions m !! sid') as [s0|] eqn:Hs0.
    + rewrite (step_append_known _ _ _ _ _ s0) by done. intros sid s. cbn.
      rewrite lookup_insert. case_decide.
      * intros [= <-]. reflexivity.
      * apply Hm.
    + rewrite step_append_unknown by done. intros sid s. cbn.
      rewrite lookup_insert. case_decide.
      * intros [= <-]. reflexivity.
      * apply Hm.
  - intros sid s. rewrite step_clear.
    intros [_ Hs]%lookup_delete_Some. by eapply Hm.
Qed.

Lemma counts_match_run ops m : counts_match m → counts_match (run ops m).
Proof.
  revert m. induction ops as [|op ops IH]; intros m Hm; [done|].
  cbn. apply IH. by apply counts_match_step.
Qed.

(** One operation either is the [clear] of the session or leaves it in the
    store with its messages as a prefix of what it holds afterwards. *)
Lemma step_extends op m sid s :
  draw_fresh op m = true →
  sessions m !! sid = Some s →
  op = OpClear sid ∨
  ∃ s' tail, sessions (step op m) !! sid = Some s' ∧
             messages s' = messages s ++ tail.
Proof.
  intros Hfresh Hs. destruct op as [d|d sid' role content|sid'].
  - right. exists s, []. rewrite step_create. cbn in *.
    apply bool_decide_eq_true in Hfresh.
    rewrite lookup_insert_ne by congruence. by rewrite app_nil_r.
  - right. destruct (sessions m !! sid') as [s0|] eqn:Hs0.
    + rewrite (step_append_known _ _ _ _ _ s0) by done. cbn.
      destruct (decide (sid' = sid)) as [->|Hne].
      * rewrite lookup_insert_eq. assert (s0 = s) as -> by congruence.
        by eexists _, _.
      * exists s, []. rewrite lookup_insert_ne by done. by rewrite app_nil_r.
    + rewrite step_append_unknown by done. cbn in *.
      rewrite Hs0 in Hfresh.
      rewrite bool_decide_eq_false_2 in Hfresh by (by intros [? ?]).
      apply bool_decide_eq_true in Hfresh.
      exists s, []. rewrite lookup_insert_ne by congruence. by rewrite app_nil_r.
  - destruct (decide (sid' = sid)) as [->|Hne]; [by left|right].
    exists s, []. rewrite step_clear, lookup_delete_ne by done.
    by rewrite app_nil_r.
Qed.

Lemma run_extends ops m sid s :
  draws_fresh ops m = true →
  sessions m !! sid = Some s →
  In (OpClear sid) ops ∨
  ∃ s' tail, sessions (run ops m) !! sid = Some s' ∧
             messages s' = messages s ++ tail.
Proof.
  revert m s. induction ops as [|op ops IH]; intros m s Hfresh Hs.
  - right. exists s, []. by rewrite app_nil_r.
  - cbn in Hfresh. apply andb_true_iff in Hfresh as [Hop Hrest].
    destruct (step_extends op m sid s Hop Hs) as [->|(s1 & tail1 & Hs1 & Hm1)].
    + left. by left.
    + destruct (IH _ _ Hrest Hs1) as [Hin|(s2 & tail2 & Hs2 & Hm2)].
      * left. by right.
      * right. exists s2, (tail1 ++ tail2). split; [done|].
        by rewrite Hm2, Hm1, app_assoc.
Qed.

Lemma sum_permutation (l l' : list Z) :
  l ≡ₚ l' → foldr Z.add 0 l = foldr Z.add 0 l'.
Proof. induction 1; cbn; lia. Qed.

Lemma total_messages_delete self sid s :
  sessions self !! sid = Some s →
  total_messages (get_session_stats self) =
    message_count s +
    total_messages (get_session_stats (mkManager (delete sid (sessions self)))).
Proof.
  intros Hs. cbn.
  rewrite (sum_permutation _
             (message_count <$> ((sid, s) :: map_to_list (delete sid (sessions self))).*2)).
  - reflexivity.
  - by rewrite (map_to_list_delete _ _ _ Hs).
Qed.

Lemma active_sessions_spec self sid :
  sid ∈ active_sessions (get_session_stats self) ↔
  ∃ s, sessions self !! sid = Some s ∧ 0 < message_count s.
Proof.
  cbn. rewrite list_elem_of_fmap. split.
  - intros [[k s] [-> [Hpos Hin]%list_elem_of_filter]].
    exists s. split; [|done]. by apply elem_of_map_to_list.
  - intros (s & Hs & Hpos). exists (sid, s). split; [done|].
    apply list_elem_of_filter. split; [done|]. by apply elem_of_map_to_list.
Qed.

Lemma active_sessions_NoDup self :
  NoDup (active_sessions (get_session_stats self)).
Proof.
  cbn. apply (sublist_NoDup _ ((map_to_list (sessions self)).*1)).
  - apply NoDup_fst_map_to_list.
  - apply fmap_sublist, sublist_filter.
Qed.
End store_invariants.

Section store_invariant_claims.
Implicit Types (self m : ChatHistoryManager) (sid : string) (d : Draw).

(** C8.  Take any sequence of [create_session], [add_message] and
    [clear_session] calls on the empty store, cut in two.  In the store
    between the two parts and in the store at the end every session's
    [message_count] is the length of its message list.  When the ids drawn in
    the second part are new to the store they are drawn for, a session of the
    store in between either is cleared by a call of the second part or is
    still stored at the end with the messages it had, in their order,
    followed by what was added. *)
Theorem session_logs_append_only (pre post : list Op) :
  let before := run pre ChatHistoryManager_init in
  let after := run post before in
  counts_match before ∧
  counts_match after ∧
  (draws_fresh post before = true →
   ∀ sid s, sessions before !! sid = Some s →
     In (OpClear sid) post ∨
     ∃ s' tail, sessions after !! sid = Some s' ∧
                messages s' = messages s ++ tail).
Proof.
  cbv zeta. split_and!.
  - apply counts_match_run, counts_match_init.
  - apply counts_match_run, counts_match_run, counts_match_init.
  - intros Hfresh sid s Hs. by apply run_extends.
Qed.

Lemma session_logs_append_only_witness :
  let pre := [OpCreate (mkDraw "a" 1 1 1);
              OpAppend (mkDraw "x" 2 2 2) "a" USER "one"] in
  let post := [OpAppend (mkDraw "y" 3 3 3) "a" ASSISTANT "two";
               OpCreate (mkDraw "b" 4 4 4);
               OpClear "b"] in
  let before := run pre ChatHistoryManager_init in
  let s := mkChatSessionInfo "a" 1 1 2 [mkChatMessage USER "one" (Some 2)] in
  draws_fresh post before = true ∧
  sessions before !! "a" = Some s ∧
  (In (OpClear "a") post ∨
   ∃ s' tail, sessions (run post before) !! "a" = Some s' ∧
              messages s' = messages s ++ tail).
Proof.
  cbv zeta. split; [vm_compute; reflexivity|]. split; [vm_compute; reflexivity|].
  refine (proj2 (proj2 (session_logs_append_only
                          [OpCreate (mkDraw "a" 1 1 1);
                           OpAppend (mkDraw "x" 2 2 2) "a" USER "one"]
                          [OpAppend (mkDraw "y" 3 3 3) "a" ASSISTANT "two";
                           OpCreate (mkDraw "b" 4 4 4);
                           OpClear "b"])) _ "a" _ _).
  - vm_compute; reflexivity.
  - vm_compute; reflexivity.
Defined.

(** C10.  [get_session_stats] reports as [total_sessions] the number of
    stored sessions; as [total_messages] the sum of their [message_count]s
    (zero for the empty store, and the count of any one session plus the
    total of the others); and as [active_sessions] the ids, each once, of
    exactly the stored sessions whose [message_count] is positive.  A session
    just made by [create_session] is stored with no messages: it is not in
    [active_sessions], and when its id is new it adds one to
    [total_sessions] and nothing to [total_messages]. *)
Theorem session_stats_report self :
  let stats := get_session_stats self in
  total_sessions stats = Z.of_nat (size (sessions self)) ∧
  total_sessions (get_session_stats ChatHistoryManager_init) = 0 ∧
  total_messages (get_session_stats ChatHistoryManager_init) = 0 ∧
  (∀ sid s, sessions self !! sid = Some s →
     let others := get_session_stats (mkManager (delete sid (sessions self))) in
     total_sessions stats = 1 + total_sessions others ∧
     total_messages stats = message_count s + total_messages others) ∧
  (∀ sid, sid ∈ active_sessions stats ↔
          ∃ s, sessions self !! sid = Some s ∧ 0 < message_count s) ∧
  NoDup (active_sessions stats) ∧
  ∀ d,
    let created := (create_session d self).2 in
    let stats' := get_session_stats created in
    (create_session d self).1 = uuid4 d ∧
    sessions created !! uuid4 d = Some (new_session d) ∧
    message_count (new_session d) = 0 ∧
    (uuid4 d ∉ active_sessions stats') ∧
    (sessions self !! uuid4 d = None →
       total_sessions stats' = total_sessions stats + 1 ∧
       total_messages stats' = total_messages stats).
Proof.
  cbv zeta. split_and!.
  - reflexivity.
  - reflexivity.
  - reflexivity.
  - intros sid s Hs. split; [|by apply total_messages_delete].
    cbn. rewrite map_size_delete, Hs.
    pose proof (map_size_non_empty_iff (sessions self)) as Hsize.
    assert (sessions self ≠ ∅) as Hne%Hsize by (intros Hempty; by rewrite Hempty in Hs).
    lia.
  - intros sid. apply active_sessions_spec.
  - apply active_sessions_NoDup.
  - intros d.
    assert (Hnew : sessions (create_session d self).2 !! uuid4 d =
                   Some (new_session d)).
    { cbn. apply lookup_insert_eq. }
    split_and!; [reflexivity|exact Hnew|reflexivity| |].
    + rewrite active_sessions_spec. intros (s & Hs & Hpos).
      rewrite Hnew in Hs. injection Hs as <-. cbn in Hpos. lia.
    + intros Hfresh. split.
      * unfold get_session_stats at 1. cbn [total_sessions].
        cbn [create_session snd sessions].
        rewrite map_size_insert_None by done. cbn. lia.
      * rewrite (total_messages_delete _ _ _ Hnew). cbn [create_session snd sessions].
        rewrite delete_insert_id by done. cbn [new_session message_count].
        by destruct self.
Qed.

Lemma session_stats_report_witness :
  let self := run [OpCreate (mkDraw "a" 1 1 1);
                   OpAppend (mkDraw "x" 2 2 2) "a" USER "one"]
                ChatHistoryManager_init in
  let d := mkDraw "b" 3 3 3 in
  let stats := get_session_stats self in
  let stats' := get_session_stats (create_session d self).2 in
  sessions self !! "b" = None ∧
  ("b" ∉ active_sessions stats') ∧
  total_sessions stats' = total_sessions stats + 1 ∧
  total_messages stats' = total_messages stats.
Proof.
  cbv zeta. split; [vm_compute; reflexivity|].
  pose proof (session_stats_report
                (run [OpCreate (mkDraw "a" 1 1 1);
                      OpAppend (mkDraw "x" 2 2 2) "a" USER "one"]
                   ChatHistoryManager_init)) as H.
  cbv zeta in H.
  destruct H as (_ & _ & _ & _ & _ & _ & H).
  destruct (H (mkDraw "b" 3 3 3)) as (_ & _ & _ & Hactive & Hfresh).
  split; [exact Hactive|].
  apply Hfresh. vm_compute; reflexivity.
Defined.
End store_invariant_claims.

(** ** The fallback generator *)

Section fallback.
Implicit Types (user_text : string).

Lemma append_nonempty (a b : string) : a ≠ "" → a +:+ b ≠ "".
Proof. destruct a; [done|]. intros _. discriminate. Qed.

Lemma str_take_length n s :
  (n ≤ String.length s)%nat → String.length (str_take n s) = n.
Proof.
  revert s. induction n as [|n IH]; intros s Hn; [done|].
  destruct s as [|c s]; cbn in *; [lia|]. rewrite IH; lia.
Qed.

Lemma str_take_prefix n s : ∃ rest, s = str_take n s +:+ rest.
Proof.
  revert s. induction n as [|n IH]; intros s.
  - by exists s.
  - destruct s as [|c s]; [by exists ""|].
    destruct (IH s) as [rest Hrest]. exists rest. cbn.
    change (String c (str_take n s) +:+ rest)
      with (String c (str_take n s +:+ rest)).
    by rewrite <- Hrest.
Qed.

Lemma canned_reply_nonempty family user_text : canned_reply family user_text ≠ "".
Proof. destruct family; discriminate. Qed.

Lemma fallback_matches_table user_text :
  user_text ≠ "" →
  _generate_contextual_fallback user_text = contextual_fallback_spec user_text.
Proof.
  intros Hne. unfold _generate_contextual_fallback, contextual_fallback_spec.
  destruct user_text as [|c rest]; [done|]. cbn [str_falsy].
  unfold classify, family_keywords, first_match.
  repeat (destruct (any_word_in _ _); [reflexivity|]).
  reflexivity.
Qed.
End fallback.

Section fallback_claims.
Implicit Types (user_text : string).

Lemma first_match_first table user_lower :
  (first_match table user_lower = OtherText ∧
   ∀ row, row ∈ table → row.1 ≠ OtherText →
          any_word_in row.2 user_lower = false) ∨
  ∃ before words after,
    table = before ++ (first_match table user_lower, words) :: after ∧
    any_word_in words user_lower = true ∧
    ∀ row, row ∈ before → any_word_in row.2 user_lower = false.
Proof.
  induction table as [|[family words] rest IH]; cbn.
  - left. split; [done|]. intros row Hrow. by apply elem_of_nil in Hrow.
  - destruct (any_word_in words user_lower) eqn:Hw.
    + right. exists [], words, rest. split_and!; [done..|].
      intros row Hrow. by apply elem_of_nil in Hrow.
    + destruct IH as [[Hother Hnone]|(before & words' & after & Htab & Hhit & Hmiss)].
      * left. split; [done|]. intros row [->|Hrow]%elem_of_cons Hfam; [done|].
        by apply Hnone.
      * right. exists ((family, words) :: before), words', after.
        split_and!; [by rewrite Htab at 1|done|].
        intros row [->|Hrow]%elem_of_cons; [done|]. by apply Hmiss.
Qed.

Example fallback_greeting :
  _generate_contextual_fallback "Hello" = canned_reply Greeting "Hello".
Proof. reflexivity. Qed.

Example fallback_substring_anywhere :
  classify "this is what I need" = Greeting.
Proof. reflexivity. Qed.

Example fallback_first_family_wins :
  classify "THANKS and goodbye" = Gratitude ∧ classify "Bye, thanks" = Gratitude.
Proof. split; reflexivity. Qed.

Example fallback_other_short :
  _generate_contextual_fallback "tea" =
  "I heard you mention something about 'tea'. I'm experiencing some technical difficulties, but I'm trying to help as best I can.".
Proof. reflexivity. Qed.

(** C7, as stated, fails on the empty input: the source answers it before
    any rule is tried, with a sentence of no family, where the rule table
    reaches its default. *)
Lemma contextual_fallback_empty_input :
  _generate_contextual_fallback "" =
    "I didn't catch that. Could you please repeat your message?" ∧
  contextual_fallback_spec "" =
    "I heard you mention something about ''. I'm experiencing some technical difficulties, but I'm trying to help as best I can." ∧
  _generate_contextual_fallback "" ≠ contextual_fallback_spec "".
Proof. split_and!; [reflexivity|reflexivity|discriminate]. Qed.

(** C7, amended.  [_generate_contextual_fallback] is a function of its input
    alone and its reply is never empty.  The empty input gets a fixed request
    to repeat the message.  Every other input is classified on its
    lower-cased form by the ordered table of keyword families (greeting,
    well-being, gratitude, farewell, help, question word), the first family
    with a keyword occurring in it wins and the default comes last, and the
    reply is the canned sentence of that family.  In the default family the
    reply quotes the input: all of it when it has at most 50 characters, else
    its first 50 characters followed by three dots. *)
Theorem contextual_fallback_by_family user_text :
  let reply := _generate_contextual_fallback user_text in
  reply ≠ "" ∧
  (user_text = "" →
     reply = "I didn't catch that. Could you please repeat your message?") ∧
  (user_text ≠ "" →
     reply = canned_reply (classify user_text) user_text ∧
     ((classify user_text = OtherText ∧
       ∀ row, row ∈ family_keywords →
              any_word_in row.2 (lower user_text) = false) ∨
      ∃ before words after,
        family_keywords = before ++ (classify user_text, words) :: after ∧
        any_word_in words (lower user_text) = true ∧
        ∀ row, row ∈ before → any_word_in row.2 (lower user_text) = false) ∧
     (classify user_text = OtherText →
        (len user_text ≤ 50 →
           reply =
             "I heard you mention something about '" +:+ user_text +:+
             "'. I'm experiencing some technical difficulties, but I'm trying to help as best I can.") ∧
        (50 < len user_text →
           String.length (str_take 50 user_text) = 50%nat ∧
           (∃ rest, user_text = str_take 50 user_text +:+ rest) ∧
           reply =
             "I heard you mention something about '" +:+
             (str_take 50 user_text +:+ "...") +:+
             "'. I'm experiencing some technical difficulties, but I'm trying to help as best I can."))).
Proof.
  cbv zeta. split_and!.
  - destruct (decide (user_text = "")) as [->|Hne]; [discriminate|].
    rewrite fallback_matches_table by done. apply canned_reply_nonempty.
  - intros ->. reflexivity.
  - intros Hne. rewrite fallback_matches_table by done.
    unfold contextual_fallback_spec. split_and!.
    + reflexivity.
    + unfold classify.
      destruct (first_match_first family_keywords (lower user_text))
        as [[Hother Hnone]|Hhit]; [left|by right].
      split; [done|]. intros row Hrow. apply Hnone; [done|].
      unfold family_keywords in Hrow.
      repeat (apply elem_of_cons in Hrow as [->|Hrow]; [discriminate|]).
      by apply elem_of_nil in Hrow.
    + intros ->. cbn [canned_reply]. unfold preview_of. split.
      * intros Hlen. by rewrite (proj2 (Z.ltb_ge _ _)) by lia.
      * intros Hlen. rewrite (proj2 (Z.ltb_lt _ _)) by lia.
        split_and!; [|apply str_take_prefix|reflexivity].
        apply str_take_length. unfold len in Hlen. lia.
Qed.

Lemma contextual_fallback_by_family_witness :
  let user_text := "Please book a large meeting room on floor seven for our team today" in
  user_text ≠ "" ∧
  classify user_text = OtherText ∧
  50 < len user_text ∧
  _generate_contextual_fallback user_text =
    "I heard you mention something about '" +:+
    ("Please book a large meeting room on floor seven fo" +:+ "...") +:+
    "'. I'm experiencing some technical difficulties, but I'm trying to help as best I can.".
Proof.
  cbv zeta. split; [discriminate|]. split; [reflexivity|]. split; [reflexivity|].
  pose proof (contextual_fallback_by_family
                "Please book a large meeting room on floor seven for our team today")
    as H.
  cbv zeta in H. destruct H as (_ & _ & H).
  destruct (H ltac:(discriminate)) as (_ & _ & Hother).
  destruct (Hother eq_refl) as [_ Hlong].
  destruct (Hlong eq_refl) as (_ & _ & Hreply).
  exact Hreply.
Defined.
End fallback_claims.

(** ** The synthesizer *)

Section synthesizer.
Implicit Types (remote : Remote) (self : TTSService) (request : TTSRequest).

Lemma emergency_fallback_is_data_url text :
  _generate_emergency_fallback text = Some (data_url text).
Proof. reflexivity. Qed.

Example emergency_fallback_hello :
  _generate_emergency_fallback "Hello" = Some "data:text/plain;base64,SGVsbG8=".
Proof. reflexivity. Qed.

Example emergency_fallback_two_byte :
  _generate_emergency_fallback ("caf" +:+ String (ascii_of_nat 233) "") =
  Some "data:text/plain;base64,Y2Fmw6k=".
Proof. reflexivity. Qed.

Lemma tts_failure_fallback error error_type text :
  tts_emergency_fallback
    (tts_failure error error_type (_generate_emergency_fallback text)) =
  Some (data_url text).
Proof. reflexivity. Qed.



End synthesizer.

Section synthesizer_claims.
Implicit Types (remote : Remote) (self : TTSService) (request : TTSRequest).

(** C6.  In each way a synthesis can fail (service not configured, timeout,
    transport error, remote status other than 200, no audio reference in the
    response, response that cannot be parsed) [synthesize_speech] returns a
    failure of the matching error type, with no audio URL, whose emergency
    fallback is the text of the request as a data URL: the prefix
    [data:text/plain;base64,] followed by the base64 form of the UTF-8 bytes
    of the text, from which the text can be read back.  The fallback is
    computed from the text alone; the call sends no POST when the service is
    not configured and one POST otherwise. *)
Theorem synthesis_failure_carries_text remote self request mode :
  fails_by mode remote self request →
  let result := synthesize_speech remote self request in
  tts_success result.1 = false ∧
  tts_error_type result.1 = Some (failure_error_type mode) ∧
  tts_audio_url result.1 = None ∧
  tts_emergency_fallback result.1 =
    _generate_emergency_fallback (tts_text request) ∧
  tts_emergency_fallback result.1 =
    Some ("data:text/plain;base64," +:+
          decode_ascii (b64encode (encode_utf8 (tts_text request)))) ∧
  tts_emergency_fallback result.1 ≫= read_data_url = Some (tts_text request) ∧
  result.2 =
    if tts_is_available self
    then [CallPost (default "" (tts_api_url self))
            (_prepare_murf_payload self request) (_prepare_murf_headers self)
            (tts_timeout self)]
    else [].
Proof.
  intros Hmode. cbv zeta.
  pose proof (read_data_url_back (tts_text request)) as Hread.
  unfold data_url in Hread. unfold synthesize_speech.
  destruct mode; cbn in Hmode.
  - rewrite Hmode. by cbn.
  - destruct Hmode as (-> & e & Hpost & Htimeout). cbn [negb].
    unfold murf_answer in Hpost. rewrite Hpost. cbn [fst snd].
    unfold synthesize_except. rewrite Htimeout. by cbn.
  - destruct Hmode as (-> & e & Hpost & Htimeout & Hrequest). cbn [negb].
    unfold murf_answer in Hpost. rewrite Hpost. cbn [fst snd].
    unfold synthesize_except. rewrite Htimeout, Hrequest. by cbn.
  - destruct Hmode as (-> & response & Hpost & Hstatus). cbn [negb].
    unfold murf_answer in Hpost. rewrite Hpost.
    unfold _process_murf_response.
    rewrite (proj2 (Z.eqb_neq _ _)) by done. by cbn.
  - destruct Hmode as (-> & response & audio_url & Hpost & Hstatus & Hjson & Hfalsy).
    cbn [negb]. unfold murf_answer in Hpost. rewrite Hpost.
    unfold _process_murf_response.
    rewrite Hstatus, Hjson, Hfalsy. by cbn.
  - destruct Hmode as (-> & response & msg & Hpost & Hstatus & Hjson).
    cbn [negb]. unfold murf_answer in Hpost. rewrite Hpost.
    unfold _process_murf_response.
    rewrite Hstatus, Hjson. by cbn.
Qed.

Lemma synthesis_failure_carries_text_witness :
  let remote :=
    mkRemote (λ _, Ok "/tmp/upload.webm")
      (λ _, Ok (mkTranscript false "" (Some "Hello") None))
      (λ _, Ok "Hi there!")
      (λ _ _ _ _, Raise (mkExn RequestsTimeout "read timed out")) in
  let self :=
    mkTTSService (Some "key") (Some "https://api.murf.ai/v1/speech/generate")
      60 "en-US-AriaNeural" 95 45 in
  let request :=
    mkTTSRequest "Hello" (Some "en-US-AriaNeural") (Some 95) (Some 45) in
  fails_by TimedOut remote self request ∧
  tts_success (synthesize_speech remote self request).1 = false ∧
  tts_error_type (synthesize_speech remote self request).1 = Some TIMEOUT_ERROR ∧
  tts_emergency_fallback (synthesize_speech remote self request).1 =
    Some "data:text/plain;base64,SGVsbG8=".
Proof.
  cbv zeta.
  assert (Hmode :
    fails_by TimedOut
      (mkRemote (λ _, Ok "/tmp/upload.webm")
         (λ _, Ok (mkTranscript false "" (Some "Hello") None))
         (λ _, Ok "Hi there!")
         (λ _ _ _ _, Raise (mkExn RequestsTimeout "read timed out")))
      (mkTTSService (Some "key") (Some "https://api.murf.ai/v1/speech/generate")
         60 "en-US-AriaNeural" 95 45)
      (mkTTSRequest "Hello" (Some "en-US-AriaNeural") (Some 95) (Some 45))).
  { split; [reflexivity|]. eexists. split; reflexivity. }
  split; [exact Hmode|].
  pose proof (synthesis_failure_carries_text _ _ _ _ Hmode) as H.
  cbv zeta in H. destruct H as (Hfail & Htype & _ & _ & Hfallback & _ & _).
  split; [exact Hfail|]. split; [exact Htype|]. exact Hfallback.
Defined.
End synthesizer_claims.

(** ** The pipeline *)

Section pipeline.
Implicit Types (remote : Remote) (app : App) (audio_file : FileStorage).
Implicit Types (sid : string) (d : Draw).

Lemma perform_transcription_calls remote self path :
  no_generation_no_synthesis (_perform_transcription remote self path).2.
Proof.
  unfold _perform_transcription, no_generation_no_synthesis.
  destruct (stt_client self); cbn.
  - destruct (_ ≫= _); cbn; by repeat constructor.
  - constructor.
Qed.

Lemma transcribe_audio_calls remote self audio_file :
  no_generation_no_synthesis (transcribe_audio remote self audio_file).2.
Proof.
  unfold transcribe_audio.
  destruct (stt_is_available self); cbn; [|constructor].
  destruct (save_upload remote audio_file) as [path|e]; cbn.
  - pose proof (perform_transcription_calls remote self path) as Hcalls.
    destruct (_perform_transcription remote self path) as [r calls]. cbn in *.
    constructor; [done|]. apply Forall_app. split; [done|]. by repeat constructor.
  - by repeat constructor.
Qed.

(** A successful transcription carries a text, and the text is not empty. *)
Lemma perform_transcription_success remote self path :
  stt_success (_perform_transcription remote self path).1 = true →
  ∃ t, stt_transcription (_perform_transcription remote self path).1 = Some t ∧
       t ≠ "".
Proof.
  unfold _perform_transcription.
  destruct (stt_client self); cbn; [|discriminate].
  destruct (aai_transcribe remote path) as [transcript|e]; cbn; [|discriminate].
  destruct (status_error transcript); cbn; [discriminate|].
  destruct (transcript_text transcript) as [t|]; cbn; [|discriminate].
  destruct (str_falsy t); cbn; [discriminate|].
  destruct (String.eqb_spec (strip t) "") as [|Hne]; cbn; [discriminate|].
  unfold TranscriptionResponse_new.
  destruct (confidence_ok _); cbn; [|discriminate].
  intros _. by exists (strip t).
Qed.

Lemma transcribe_audio_success remote self audio_file :
  stt_success (transcribe_audio remote self audio_file).1 = true →
  ∃ t, stt_transcription (transcribe_audio remote self audio_file).1 = Some t ∧
       t ≠ "".
Proof.
  unfold transcribe_audio.
  destruct (stt_is_available self); cbn; [|discriminate].
  destruct (save_upload remote audio_file) as [path|e]; cbn; [|discriminate].
  pose proof (perform_transcription_success remote self path) as Hok.
  destruct (_perform_transcription remote self path) as [r calls]. by cbn in *.
Qed.

(** An empty or blank transcript is a failure of class STT_ERROR. *)
Lemma transcribe_audio_blank remote self audio_file path transcript :
  stt_is_available self = true →
  save_upload remote audio_file = Ok path →
  aai_transcribe remote path = Ok transcript →
  status_error transcript = false →
  strip (default "" (transcript_text transcript)) = "" →
  (transcribe_audio remote self audio_file).1 =
    stt_failure "No speech detected in audio" STT_ERROR.
Proof.
  intros Havail Hsave Htranscribe Hstatus Hblank.
  unfold transcribe_audio. rewrite Havail. cbn. rewrite Hsave.
  unfold _perform_transcription.
  unfold stt_is_available in Havail.
  destruct (stt_client self); [|done]. cbn.
  rewrite Htranscribe. cbn. rewrite Hstatus.
  destruct (transcript_text transcript) as [t|]; cbn in *; [|done].
  rewrite Hblank. cbn. by rewrite orb_true_r.
Qed.

Lemma voice_pipeline_stt_failure remote app audio_file sid d_user d_assistant :
  let stt := transcribe_audio remote (stt_service app) audio_file in
  stt_success stt.1 = false →
  _process_voice_pipeline remote app audio_file sid d_user d_assistant =
    (voice_failure (stt_error stt.1) (stt_error_type stt.1) sid,
     chat_manager app, stt.2).
Proof.
  cbv zeta. intros Hfail.
  unfold _process_voice_pipeline, voice_pipeline_try.
  unfold mbind, pipe_bind, service_call. cbn [fst snd].
  rewrite Hfail. reflexivity.
Qed.
End pipeline.

Section pipeline_transcription_claim.
Implicit Types (remote : Remote) (app : App) (audio_file : FileStorage).
Implicit Types (sid : string) (d : Draw).

(** C4.  When the transcription fails, [_process_voice_pipeline] returns a
    failure that carries the error message and the error type of the
    transcription response and the session id; the store is the store it
    started with, so every history and the statistics are unchanged; and the
    outgoing calls are those of the transcription alone, none to the
    generator and none to the synthesizer.  A transcript whose text is
    missing, empty or blank is such a failure, of type STT_ERROR. *)
Theorem transcription_failure_aborts remote app audio_file sid d_user d_assistant :
  let stt := transcribe_audio remote (stt_service app) audio_file in
  let result :=
    _process_voice_pipeline remote app audio_file sid d_user d_assistant in
  (stt_success stt.1 = false →
     vq_success result.1.1 = false ∧
     vq_error result.1.1 = stt_error stt.1 ∧
     vq_error_type result.1.1 = stt_error_type stt.1 ∧
     vq_session_id result.1.1 = Some sid ∧
     vq_llm_response result.1.1 = None ∧
     vq_audio_url result.1.1 = None ∧
     result.1.2 = chat_manager app ∧
     (∀ k, get_chat_history result.1.2 k = get_chat_history (chat_manager app) k) ∧
     get_session_stats result.1.2 = get_session_stats (chat_manager app) ∧
     result.2 = stt.2 ∧
     no_generation_no_synthesis result.2) ∧
  (∀ path transcript,
     stt_is_available (stt_service app) = true →
     save_upload remote audio_file = Ok path →
     aai_transcribe remote path = Ok transcript →
     status_error transcript = false →
     strip (default "" (transcript_text transcript)) = "" →
     stt_success stt.1 = false ∧
     vq_success result.1.1 = false ∧
     vq_error_type result.1.1 = Some STT_ERROR ∧
     vq_error result.1.1 = Some "No speech detected in audio" ∧
     result.1.2 = chat_manager app).
Proof.
  cbv zeta. split.
  - intros Hfail. rewrite voice_pipeline_stt_failure by done. cbn.
    split_and!; try done. apply transcribe_audio_calls.
  - intros path transcript Havail Hsave Htranscribe Hstatus Hblank.
    pose proof (transcribe_audio_blank _ _ _ _ _ Havail Hsave Htranscribe
                  Hstatus Hblank) as Hstt.
    assert (Hfail : stt_success
                      (transcribe_audio remote (stt_service app) audio_file).1 = false)
      by (by rewrite Hstt).
    rewrite voice_pipeline_stt_failure by done. rewrite Hstt. by cbn.
Qed.

Lemma transcription_failure_aborts_witness :
  let remote := healthy_remote "   " "Hi there!" in
  let store :=
    run [OpCreate (mkDraw "s1" 1 1 1); OpAppend (mkDraw "x" 2 2 2) "s1" USER "earlier"]
      ChatHistoryManager_init in
  let app := configured_app store in
  let result :=
    _process_voice_pipeline remote app sample_audio "s1"
      (mkDraw "u1" 3 3 3) (mkDraw "u2" 4 4 4) in
  strip (default "" (Some "   ")) = "" ∧
  vq_success result.1.1 = false ∧
  vq_error_type result.1.1 = Some STT_ERROR ∧
  vq_error result.1.1 = Some "No speech detected in audio" ∧
  result.1.2 = store.
Proof.
  cbv zeta. split; [reflexivity|].
  pose proof (transcription_failure_aborts (healthy_remote "   " "Hi there!")
                (configured_app
                   (run [OpCreate (mkDraw "s1" 1 1 1);
                         OpAppend (mkDraw "x" 2 2 2) "s1" USER "earlier"]
                      ChatHistoryManager_init))
                sample_audio "s1" (mkDraw "u1" 3 3 3) (mkDraw "u2" 4 4 4)) as H.
  cbv zeta in H. destruct H as [_ H].
  destruct (H "/tmp/upload.webm" (mkTranscript false "" (Some "   ") (Some (9 # 10)))
              eq_refl eq_refl eq_refl eq_refl eq_refl)
    as (_ & Hfail & Htype & Herror & Hstore).
  split; [exact Hfail|]. split; [exact Htype|]. split; [exact Herror|]. exact Hstore.
Defined.
End pipeline_transcription_claim.

Section text_query.
Implicit Types (remote : Remote) (app : App) (request : FlaskRequest).

Lemma strip_empty : strip "" = "".
Proof. reflexivity. Qed.

Lemma len_nonempty (s : string) : s ≠ "" → 1 ≤ len s.
Proof. destruct s; [done|]. unfold len. cbn. lia. Qed.

Lemma str_falsy_false (s : string) : str_falsy s = false ↔ s ≠ "".
Proof. by destruct s. Qed.

(** What passing [validate_text_input] says of a text. *)
Lemma validate_text_input_passes text max_length :
  validate_text_input text max_length = None →
  text ≠ "" ∧ strip text ≠ "" ∧ len (strip text) ≤ max_length.
Proof.
  unfold validate_text_input.
  destruct (str_falsy text) eqn:Htext; [discriminate|].
  destruct (str_falsy (strip text)) eqn:Hstrip; [discriminate|].
  destruct (Z.ltb_spec max_length (len (strip text))); [discriminate|].
  intros _. by rewrite <- !str_falsy_false.
Qed.

Lemma LLMRequest_new_valid text session_id :
  text ≠ "" → strip text ≠ "" → len text ≤ 10000 →
  LLMRequest_new text session_id =
    Ok (mkLLMRequest (strip text) session_id (Some "gemini-1.5-flash") (Some true)).
Proof.
  intros Htext Hstrip Hlen. unfold LLMRequest_new.
  pose proof (len_nonempty _ Htext).
  rewrite (proj2 (Z.ltb_ge _ _)) by lia.
  rewrite (proj2 (Z.ltb_ge _ _)) by lia.
  by rewrite (proj2 (str_falsy_false _) Hstrip).
Qed.

Lemma prepare_context_without_history request_text session_id model include :
  _prepare_context (mkLLMRequest request_text session_id model include) None =
    join nl ["System: " +:+ system_prompt;
             nl +:+ "User: " +:+ request_text;
             "Assistant:"].
Proof. unfold _prepare_context. cbn. by destruct include as [[]|]. Qed.

Lemma generate_response_calls remote self llm_request chat_history :
  (generate_response remote self llm_request chat_history).2 =
    if llm_is_available self
    then [CallGenerate (_prepare_context llm_request chat_history)]
    else [].
Proof.
  unfold generate_response, _generate_llm_response.
  destruct (llm_is_available self) eqn:Havail; cbn; [|done].
  unfold llm_is_available in Havail.
  destruct (llm_client self); [|done].
  by destruct (gemini_generate_content remote _) as [t|e]; [destruct (str_falsy t)|].
Qed.

(** A generator that is configured and answers with a text that is not
    blank gives a success carrying the stripped text. *)
Lemma generate_response_healthy remote self llm_request chat_history answer :
  llm_is_available self = true →
  gemini_generate_content remote (_prepare_context llm_request chat_history) =
    Ok answer →
  strip answer ≠ "" →
  (generate_response remote self llm_request chat_history).1 =
    {| lr_success := true;
       lr_response := Some (strip answer);
       lr_query := Some (rq_text llm_request);
       lr_model := Some (llm_model_name self);
       lr_session_id := rq_session_id llm_request;
       lr_error := None;
       lr_error_type := None;
       lr_fallback_response := None |}.
Proof.
  intros Havail Hanswer Hstrip.
  unfold generate_response, _generate_llm_response. rewrite Havail. cbn.
  unfold llm_is_available in Havail.
  destruct (llm_client self); [|done].
  rewrite Hanswer.
  destruct answer; [by rewrite strip_empty in Hstrip|]. reflexivity.
Qed.

(** A generation that fails carries the contextual fallback for the text of
    the request. *)
Lemma generate_response_failure remote self llm_request chat_history :
  lr_success (generate_response remote self llm_request chat_history).1 = false →
  lr_fallback_response (generate_response remote self llm_request chat_history).1 =
    Some (_generate_contextual_fallback (rq_text llm_request)) ∧
  lr_response (generate_response remote self llm_request chat_history).1 = None.
Proof.
  unfold generate_response.
  destruct (llm_is_available self); cbn; [|done].
  destruct (_generate_llm_response remote self _) as [[response|e] calls]; cbn;
    [discriminate|done].
Qed.

Lemma handle_text_query_valid remote app request text st :
  (if is_json request then json_text request else form_text request) = Some text →
  validate_text_input text 10000 = None →
  len text ≤ 10000 →
  let llm_request :=
    mkLLMRequest (strip text) None (Some "gemini-1.5-flash") (Some true) in
  let generation := generate_response remote (llm_service app) llm_request None in
  _handle_text_query remote app request st =
    (Ok (mkReply (ReplyLLM generation.1) 200), (st.1, st.2 ++ generation.2)).
Proof.
  intros Htext Hvalid Hlen. cbv zeta.
  destruct (validate_text_input_passes _ _ Hvalid) as (Hne & Hstrip & _).
  unfold _handle_text_query. rewrite Htext.
  destruct text as [|c rest]; [done|]. rewrite Hvalid.
  unfold mbind, pipe_bind, raise_from.
  rewrite LLMRequest_new_valid by done. reflexivity.
Qed.
End text_query.

Section text_query_claims.
Implicit Types (remote : Remote) (app : App) (request : FlaskRequest).

(** C1, as stated, fails: the text query for [Hello], with every service
    configured and answering, succeeds with the generator's answer, but it
    touches no session (the store stays empty, so no session counts two
    messages) and it makes one outgoing call, to the generator, and none to
    the synthesizer. *)
Lemma text_query_hello_touches_no_session :
  let result :=
    llm_query (healthy_remote "" "Hi there!")
      (configured_app ChatHistoryManager_init)
      (mkFlaskRequest true (Some "Hello") None None None)
      "fresh" (mkDraw "u1" 1 2 3) (mkDraw "u2" 4 5 6) in
  result.1.1 =
    mkReply
      (ReplyLLM
         {| lr_success := true;
            lr_response := Some "Hi there!";
            lr_query := Some "Hello";
            lr_model := Some "gemini-1.5-flash";
            lr_session_id := None;
            lr_error := None;
            lr_error_type := None;
            lr_fallback_response := None |})
      200 ∧
  result.1.2 = ChatHistoryManager_init ∧
  total_messages (get_session_stats result.1.2) = 0 ∧
  (∀ sid, get_chat_history result.1.2 sid = []) ∧
  Forall (λ c, is_post c = false) result.2 ∧
  length result.2 = 1%nat.
Proof.
  cbv zeta. split_and!.
  - vm_compute. reflexivity.
  - vm_compute. reflexivity.
  - vm_compute. reflexivity.
  - intros sid.
    replace (llm_query _ _ _ _ _ _).1.2 with ChatHistoryManager_init
      by (vm_compute; reflexivity).
    reflexivity.
  - vm_compute. by repeat constructor.
  - vm_compute. reflexivity.
Qed.

(** C1, amended.  A text-only request (no audio attached) whose text passes
    [validate_text_input] and has at most 10000 characters is answered by the
    generation step alone: the request handed to the generator carries the
    stripped text and no session id, the prompt holds the system line and the
    user line and no history, the reply is the generation response with
    status 200, the session store is the store as it was, and the only
    outgoing call, if any, is the one to the generator.  When the generator is
    configured and answers with a text that is not blank, the response is a
    success carrying that text, stripped, and no fallback. *)
Theorem text_query_generates_only remote app request new_session_id
    d_user d_assistant text :
  files_audio request = None →
  (if is_json request then json_text request else form_text request) = Some text →
  validate_text_input text 10000 = None →
  len text ≤ 10000 →
  let llm_request :=
    mkLLMRequest (strip text) None (Some "gemini-1.5-flash") (Some true) in
  let generation := generate_response remote (llm_service app) llm_request None in
  let context :=
    join nl ["System: " +:+ system_prompt;
             nl +:+ "User: " +:+ strip text;
             "Assistant:"] in
  let result :=
    llm_query remote app request new_session_id d_user d_assistant in
  LLMRequest_new text None = Ok llm_request ∧
  _prepare_context llm_request None = context ∧
  result.1.1 = mkReply (ReplyLLM generation.1) 200 ∧
  result.1.2 = chat_manager app ∧
  result.2 =
    (if llm_is_available (llm_service app) then [CallGenerate context] else []) ∧
  Forall (λ c, is_post c = false) result.2 ∧
  (llm_is_available (llm_service app) = true →
   ∀ answer,
     gemini_generate_content remote context = Ok answer →
     strip answer ≠ "" →
     lr_success generation.1 = true ∧
     lr_response generation.1 = Some (strip answer) ∧
     strip answer ≠ "" ∧
     lr_fallback_response generation.1 = None ∧
     lr_error generation.1 = None).
Proof.
  intros Haudio Htext Hvalid Hlen. cbv zeta.
  destruct (validate_text_input_passes _ _ Hvalid) as (Hne & Hstrip & _).
  assert (Hquery :
    llm_query remote app request new_session_id d_user d_assistant =
      (mkReply (ReplyLLM
                  (generate_response remote (llm_service app)
                     (mkLLMRequest (strip text) None (Some "gemini-1.5-flash")
                        (Some true)) None).1) 200,
       chat_manager app,
       (generate_response remote (llm_service app)
          (mkLLMRequest (strip text) None (Some "gemini-1.5-flash")
             (Some true)) None).2)).
  { unfold llm_query. rewrite Haudio.
    by rewrite (handle_text_query_valid _ _ _ text). }
  rewrite Hquery. cbn [fst snd].
  rewrite generate_response_calls, prepare_context_without_history.
  split; [by apply LLMRequest_new_valid|].
  do 4 (split; [reflexivity|]).
  split; [destruct (llm_is_available (llm_service app)); by repeat constructor|].
  intros Havail answer Hanswer Hblank.
  by rewrite (generate_response_healthy _ _ _ _ answer).
Qed.

Lemma text_query_generates_only_witness :
  let remote := healthy_remote "" "Hi there!" in
  let app := configured_app ChatHistoryManager_init in
  let request := mkFlaskRequest true (Some "Hello") None None None in
  let result :=
    llm_query remote app request "fresh" (mkDraw "u1" 1 2 3) (mkDraw "u2" 4 5 6) in
  validate_text_input "Hello" 10000 = None ∧
  len "Hello" ≤ 10000 ∧
  result.1.2 = chat_manager app ∧
  Forall (λ c, is_post c = false) result.2.
Proof.
  cbv zeta. split; [reflexivity|]. split; [vm_compute; discriminate|].
  pose proof (text_query_generates_only (healthy_remote "" "Hi there!")
                (configured_app ChatHistoryManager_init)
                (mkFlaskRequest true (Some "Hello") None None None)
                "fresh" (mkDraw "u1" 1 2 3) (mkDraw "u2" 4 5 6) "Hello"
                eq_refl eq_refl eq_refl) as H.
  cbv zeta in H.
  destruct (H ltac:(vm_compute; discriminate)) as (_ & _ & _ & Hstore & _ & Hposts & _).
  split; [exact Hstore|exact Hposts].
Defined.
End text_query_claims.

Section pipeline_generation.
Implicit Types (remote : Remote) (app : App) (audio_file : FileStorage).
Implicit Types (sid : string) (d : Draw) (m : ChatHistoryManager).

(** The pipeline past a successful transcription, when no step raises. *)
Lemma voice_pipeline_completes remote app audio_file sid d_user d_assistant
    t m1 llm_request response_text m2 tts_request :
  let stt := transcribe_audio remote (stt_service app) audio_file in
  let llm := generate_response remote (llm_service app) llm_request
               (Some (get_recent_messages m1 sid 10)) in
  let tts := synthesize_speech remote (tts_service app) tts_request in
  stt_success stt.1 = true →
  stt_transcription stt.1 = Some t →
  add_user_message d_user (chat_manager app) sid t = Ok (true, m1) →
  LLMRequest_new t (Some sid) = Ok llm_request →
  (if negb (lr_success llm.1)
   then Some (str_or (lr_fallback_response llm.1)
                "I'm having trouble processing your request.")
   else lr_response llm.1) = Some response_text →
  add_assistant_message d_assistant m1 sid response_text = Ok (true, m2) →
  TTSRequest_of_text response_text = Ok tts_request →
  _process_voice_pipeline remote app audio_file sid d_user d_assistant =
    ({| vq_success := true;
        vq_transcription := Some t;
        vq_llm_response := Some response_text;
        vq_audio_url :=
          if tts_success tts.1 then tts_audio_url tts.1 else None;
        vq_confidence := stt_confidence stt.1;
        vq_chat_history := Some (get_chat_history m2 sid);
        vq_session_id := Some sid;
        vq_message_count := Some (Z.of_nat (length (get_chat_history m2 sid)));
        vq_error := None;
        vq_error_type := None;
        vq_fallback_used :=
          Some (negb (lr_success llm.1) || negb (tts_success tts.1)) |},
     m2, stt.2 ++ llm.2 ++ tts.2).
Proof.
  cbv zeta. intros Hstt Ht Huser Hreq Htext Hassistant Htts.
  unfold _process_voice_pipeline, voice_pipeline_try.
  unfold mbind, pipe_bind, mret, pipe_ret, service_call, store_call, store_read,
    raise_from.
  cbn [fst snd]. rewrite Hstt. cbn [negb fst snd]. rewrite Ht.
  cbn [require_str fst snd]. rewrite Huser. cbn [fst snd]. rewrite Hreq.
  cbn [fst snd]. rewrite Htext. cbn [require_str fst snd]. rewrite Hassistant.
  cbn [fst snd]. rewrite Htts. cbn [fst snd List.app]. by rewrite <- app_assoc.
Qed.

(** When the generation fails the pipeline still completes: the assistant
    text is the fallback of the generation, both messages go through
    [add_message] under the session id of the request, the synthesizer is
    called on the fallback, and the response is a success that reports the
    fallback. *)
Lemma voice_pipeline_generation_failure remote app audio_file sid d_user d_assistant
    t m1 llm_request :
  let stt := transcribe_audio remote (stt_service app) audio_file in
  let llm := generate_response remote (llm_service app) llm_request
               (Some (get_recent_messages m1 sid 10)) in
  let fallback := _generate_contextual_fallback (rq_text llm_request) in
  let tts := synthesize_speech remote (tts_service app)
               (mkTTSRequest fallback (Some "en-US-AriaNeural") (Some 95) (Some 45)) in
  stt_success stt.1 = true →
  stt_transcription stt.1 = Some t →
  add_user_message d_user (chat_manager app) sid t = Ok (true, m1) →
  LLMRequest_new t (Some sid) = Ok llm_request →
  lr_success llm.1 = false →
  ∃ m2,
    add_assistant_message d_assistant m1 sid fallback = Ok (true, m2) ∧
    lr_fallback_response llm.1 = Some fallback ∧
    _process_voice_pipeline remote app audio_file sid d_user d_assistant =
      ({| vq_success := true;
          vq_transcription := Some t;
          vq_llm_response := Some fallback;
          vq_audio_url :=
            if tts_success tts.1 then tts_audio_url tts.1 else None;
          vq_confidence := stt_confidence stt.1;
          vq_chat_history := Some (get_chat_history m2 sid);
          vq_session_id := Some sid;
          vq_message_count := Some (Z.of_nat (length (get_chat_history m2 sid)));
          vq_error := None;
          vq_error_type := None;
          vq_fallback_used := Some true |},
       m2, stt.2 ++ llm.2 ++ tts.2).
Proof.
  cbv zeta. intros Hstt Ht Huser Hreq Hfail.
  destruct (generate_response_failure _ _ _ _ Hfail) as [Hfallback _].
  destruct (add_message_returns d_assistant m1 sid ASSISTANT
              (_generate_contextual_fallback (rq_text llm_request))) as [m2 Hm2].
  exists m2. split; [exact Hm2|]. split; [exact Hfallback|].
  rewrite (voice_pipeline_completes _ _ _ _ _ _ t m1 llm_request
             (_generate_contextual_fallback (rq_text llm_request)) m2
             (mkTTSRequest (_generate_contextual_fallback (rq_text llm_request))
                (Some "en-US-AriaNeural") (Some 95) (Some 45))); try done.
  - by rewrite Hfail.
  - rewrite Hfail, Hfallback. cbn [negb str_or].
    destruct (_generate_contextual_fallback (rq_text llm_request)) eqn:Hfb; [|done].
    exfalso. revert Hfb. unfold _generate_contextual_fallback.
    destruct (str_falsy _); [discriminate|].
    repeat (destruct (any_word_in _ _); [discriminate|]). discriminate.
  - apply fallback_is_speakable.
Qed.
End pipeline_generation.

Section pipeline_generation_claims.
Implicit Types (remote : Remote) (app : App) (audio_file : FileStorage).
Implicit Types (sid : string) (d : Draw) (m : ChatHistoryManager).

(** For a session the store knows, the failure of the generation leaves the
    session with the user message and then the fallback as the assistant
    message, after what it held. *)
Lemma generation_fallback_reaches_known_session remote app audio_file sid
    d_user d_assistant t llm_request s :
  let stt := transcribe_audio remote (stt_service app) audio_file in
  let m1 := mkManager (<[sid := with_message d_user s USER t]>
                         (sessions (chat_manager app))) in
  let llm := generate_response remote (llm_service app) llm_request
               (Some (get_recent_messages m1 sid 10)) in
  let fallback := _generate_contextual_fallback (rq_text llm_request) in
  let result :=
    _process_voice_pipeline remote app audio_file sid d_user d_assistant in
  stt_success stt.1 = true →
  stt_transcription stt.1 = Some t →
  LLMRequest_new t (Some sid) = Ok llm_request →
  sessions (chat_manager app) !! sid = Some s →
  lr_success llm.1 = false →
  vq_success result.1.1 = true ∧
  vq_fallback_used result.1.1 = Some true ∧
  vq_llm_response result.1.1 = Some fallback ∧
  get_chat_history result.1.2 sid =
    messages s ++ [mkChatMessage USER t (Some (now_message d_user));
                   mkChatMessage ASSISTANT fallback (Some (now_message d_assistant))].
Proof.
  cbv zeta. intros Hstt Ht Hreq Hs Hfail.
  pose proof (add_message_known d_user (chat_manager app) sid USER t s Hs) as Huser.
  destruct (voice_pipeline_generation_failure remote app audio_file sid d_user
              d_assistant t _ llm_request Hstt Ht Huser Hreq Hfail)
    as (m2 & Hm2 & _ & ->).
  cbn [fst snd vq_success vq_fallback_used vq_llm_response].
  split_and!; try done.
  unfold add_assistant_message in Hm2.
  rewrite (add_message_known _ _ _ _ _ (with_message d_user s USER t)) in Hm2
    by (cbn; apply lookup_insert_eq).
  injection Hm2 as <-. unfold get_chat_history. cbn.
  rewrite lookup_insert_eq. cbn. by rewrite <- app_assoc.
Qed.

(** C3.  With the generation failing, the pipeline does substitute the
    fallback of the generation, calls the synthesizer on it and answers with
    a success that reports the fallback.  But for a session id the store does
    not know, each of its two calls of [add_message] files its message under
    an id drawn anew: unless a drawn id is the id of the request, that id is
    still unknown after the call, its history is empty, and the response
    carries an empty history and a message count of zero. *)
Theorem generation_fallback_misses_unknown_session remote app audio_file sid
    d_user d_assistant t llm_request :
  let stt := transcribe_audio remote (stt_service app) audio_file in
  let m1 := mkManager (<[uuid4 d_user := with_message d_user (new_session d_user) USER t]>
                         (sessions (chat_manager app))) in
  let llm := generate_response remote (llm_service app) llm_request (Some []) in
  let fallback := _generate_contextual_fallback (rq_text llm_request) in
  let tts := synthesize_speech remote (tts_service app)
               (mkTTSRequest fallback (Some "en-US-AriaNeural") (Some 95) (Some 45)) in
  let result :=
    _process_voice_pipeline remote app audio_file sid d_user d_assistant in
  stt_success stt.1 = true →
  stt_transcription stt.1 = Some t →
  LLMRequest_new t (Some sid) = Ok llm_request →
  sessions (chat_manager app) !! sid = None →
  uuid4 d_user ≠ sid →
  uuid4 d_assistant ≠ sid →
  lr_success llm.1 = false →
  vq_success result.1.1 = true ∧
  vq_fallback_used result.1.1 = Some true ∧
  vq_llm_response result.1.1 = Some fallback ∧
  result.2 = stt.2 ++ llm.2 ++ tts.2 ∧
  add_assistant_message d_assistant m1 sid fallback = Ok (true, result.1.2) ∧
  sessions result.1.2 !! sid = None ∧
  get_chat_history result.1.2 sid = [] ∧
  vq_chat_history result.1.1 = Some [] ∧
  vq_message_count result.1.1 = Some 0.
Proof.
  cbv zeta. intros Hstt Ht Hreq Hs Hne_user Hne_assistant Hfail.
  pose proof (add_message_unknown d_user (chat_manager app) sid USER t Hs) as Huser.
  set (m1 := mkManager (<[uuid4 d_user := with_message d_user (new_session d_user) USER t]>
                          (sessions (chat_manager app)))) in *.
  assert (Hs1 : sessions m1 !! sid = None).
  { subst m1. cbn. by rewrite lookup_insert_ne. }
  assert (Hrecent : get_recent_messages m1 sid 10 = [])
    by (by apply get_recent_messages_unknown).
  rewrite <- Hrecent in Hfail.
  destruct (voice_pipeline_generation_failure remote app audio_file sid d_user
              d_assistant t m1 llm_request Hstt Ht Huser Hreq Hfail)
    as (m2 & Hm2 & _ & ->).
  assert (Hs2 : sessions m2 !! sid = None).
  { unfold add_assistant_message in Hm2.
    rewrite add_message_unknown in Hm2 by done.
    injection Hm2 as <-. cbn. by rewrite lookup_insert_ne. }
  cbn [fst snd vq_success vq_fallback_used vq_llm_response vq_chat_history
       vq_message_count].
  rewrite (get_chat_history_unknown m2 sid Hs2), Hrecent.
  by split_and!.
Qed.

Lemma generation_fallback_misses_unknown_session_witness :
  let remote := failing_generator_remote "Hello there" in
  let app := configured_app ChatHistoryManager_init in
  let result :=
    _process_voice_pipeline remote app sample_audio "session-1"
      (mkDraw "u1" 1 2 3) (mkDraw "u2" 4 5 6) in
  sessions (chat_manager app) !! "session-1" = None ∧
  vq_success result.1.1 = true ∧
  vq_fallback_used result.1.1 = Some true ∧
  vq_llm_response result.1.1 = Some (canned_reply Greeting "Hello there") ∧
  get_chat_history result.1.2 "session-1" = [] ∧
  vq_message_count result.1.1 = Some 0.
Proof.
  cbv zeta. split; [reflexivity|].
  pose proof (generation_fallback_misses_unknown_session
                (failing_generator_remote "Hello there")
                (configured_app ChatHistoryManager_init) sample_audio "session-1"
                (mkDraw "u1" 1 2 3) (mkDraw "u2" 4 5 6) "Hello there"
                (mkLLMRequest "Hello there" (Some "session-1")
                   (Some "gemini-1.5-flash") (Some true))) as H.
  cbv zeta in H.
  destruct (H eq_refl eq_refl eq_refl eq_refl ltac:(discriminate)
              ltac:(discriminate) eq_refl)
    as (Hok & Hused & Htext & _ & _ & _ & Hhistory & _ & Hcount).
  split; [exact Hok|]. split; [exact Hused|]. split; [exact Htext|].
  split; [exact Hhistory|exact Hcount].
Defined.
End pipeline_generation_claims.

Section store_examples.
Implicit Types (m : ChatHistoryManager) (sid : string).

(** In a store reached from the empty one, the history of a session is as
    long as its [message_count], and [total_messages] is the sum of the
    lengths of the histories. *)
Lemma history_length_is_count m sid s :
  counts_match m →
  sessions m !! sid = Some s →
  Z.of_nat (length (get_chat_history m sid)) = message_count s.
Proof.
  intros Hm Hs. unfold get_chat_history. rewrite Hs. symmetry. by eapply Hm.
Qed.

Lemma total_messages_is_sum_of_lengths m :
  counts_match m →
  total_messages (get_session_stats m) =
    foldr Z.add 0
      ((λ it : string * ChatSessionInfo, Z.of_nat (length (get_chat_history m it.1)))
         <$> map_to_list (sessions m)).
Proof.
  intros Hm. cbn. rewrite <- list_fmap_compose. f_equal.
  apply Forall_fmap_ext_1, Forall_forall.
  intros [sid s] Hin%elem_of_map_to_list. cbn.
  symmetry. by apply history_length_is_count.
Qed.

Example recent_messages_limits :
  let m := run [OpCreate (mkDraw "s" 1 1 1);
                OpAppend (mkDraw "x" 2 2 2) "s" USER "a";
                OpAppend (mkDraw "y" 3 3 3) "s" ASSISTANT "b"]
             ChatHistoryManager_init in
  get_recent_messages m "s" 1 = [mkChatMessage ASSISTANT "b" (Some 3)] ∧
  get_recent_messages m "s" 10 =
    [mkChatMessage USER "a" (Some 2); mkChatMessage ASSISTANT "b" (Some 3)] ∧
  get_recent_messages m "s" 0 =
    [mkChatMessage USER "a" (Some 2); mkChatMessage ASSISTANT "b" (Some 3)] ∧
  get_recent_messages m "s" (-1) = [mkChatMessage ASSISTANT "b" (Some 3)].
Proof. cbv zeta. split_and!; vm_compute; reflexivity. Qed.
End store_examples.

Section pipeline_examples.

(** With every service answering and a session the store knows, the voice
    pipeline leaves the user message and the answer in that session. *)
Example voice_pipeline_known_session :
  let store := run [OpCreate (mkDraw "s1" 1 1 1)] ChatHistoryManager_init in
  let result :=
    _process_voice_pipeline (healthy_remote "  Hello  " "Hi there!")
      (configured_app store) sample_audio "s1"
      (mkDraw "u1" 2 3 4) (mkDraw "u2" 5 6 7) in
  vq_success result.1.1 = true ∧
  vq_fallback_used result.1.1 = Some false ∧
  vq_transcription result.1.1 = Some "Hello" ∧
  vq_llm_response result.1.1 = Some "Hi there!" ∧
  vq_audio_url result.1.1 = Some "https://murf.ai/audio/1.mp3" ∧
  vq_message_count result.1.1 = Some 2 ∧
  get_chat_history result.1.2 "s1" =
    [mkChatMessage USER "Hello" (Some 3);
     mkChatMessage ASSISTANT "Hi there!" (Some 6)] ∧
  length result.2 = 5%nat.
Proof. cbv zeta. split_and!; vm_compute; reflexivity. Qed.

(** The same request under a session id the store does not know: the two
    messages end up in two sessions of their own. *)
Example voice_pipeline_unknown_session :
  let result :=
    _process_voice_pipeline (healthy_remote "Hello" "Hi there!")
      (configured_app ChatHistoryManager_init) sample_audio "s1"
      (mkDraw "u1" 2 3 4) (mkDraw "u2" 5 6 7) in
  vq_success result.1.1 = true ∧
  vq_message_count result.1.1 = Some 0 ∧
  get_chat_history result.1.2 "s1" = [] ∧
  get_chat_history result.1.2 "u1" = [mkChatMessage USER "Hello" (Some 3)] ∧
  get_chat_history result.1.2 "u2" = [mkChatMessage ASSISTANT "Hi there!" (Some 6)].
Proof. cbv zeta. split_and!; vm_compute; reflexivity. Qed.
End pipeline_examples.

(** * Further properties of the code *)

(** ** The session store, continued *)

Section store_more.
Implicit Types (self m : ChatHistoryManager) (sid : string) (d : Draw).

Lemma py_slice_from_drop {A} (start : Z) (l : list A) :
  ∃ k, py_slice_from start l = drop k l ∧ (k ≤ length l)%nat ∧
       Z.of_nat k =
         if start <? 0 then Z.max (start + Z.of_nat (length l)) 0
         else Z.min start (Z.of_nat (length l)).
Proof.
  unfold py_slice_from. eexists. split; [reflexivity|].
  destruct (start <? 0) eqn:Hneg; lia.
Qed.

(** X1.  [get_recent_messages] always returns an end piece of the history,
    in the order of the history.  Its length is [min limit total] for a
    positive limit, the whole history for the limit zero, and for a negative
    limit what is left after the first [-limit] messages. *)
Theorem get_recent_messages_is_suffix self sid limit :
  let history := get_chat_history self sid in
  let recent := get_recent_messages self sid limit in
  let total := Z.of_nat (length history) in
  ∃ earlier,
    history = earlier ++ recent ∧
    Z.of_nat (length recent) =
      if 0 <? limit then Z.min limit total
      else if limit =? 0 then total
      else Z.max (total + limit) 0.
Proof.
  cbv zeta. unfold get_recent_messages.
  destruct (get_chat_history self sid) as [|x l] eqn:Hh.
  - exists []. split; [done|]. cbn.
    destruct (Z.ltb_spec 0 limit); [lia|]. destruct (Z.eqb_spec limit 0); lia.
  - destruct (py_slice_from_drop (- limit) (x :: l)) as (k & -> & Hk & Hkz).
    exists (take k (x :: l)). split; [by rewrite take_drop|].
    rewrite length_drop.
    destruct (Z.ltb_spec 0 limit), (Z.eqb_spec limit 0),
      (Z.ltb_spec (- limit) 0); lia.
Qed.

(** X2.  [add_message] never raises and answers [True].  It writes exactly
    one session: the one of the given id when the store knows it, else the
    one of the id it draws.  That session ends up with the history it had
    under the given id (none when the id is unknown) followed by the new
    message, a count equal to the length and the activity time just read;
    every other key of the store is as it was. *)
Theorem add_message_writes_one_session d self sid role content :
  let known := bool_decide (is_Some (sessions self !! sid)) in
  let written := if known then sid else uuid4 d in
  ∃ m s,
    add_message d self sid role content = Ok (true, m) ∧
    sessions m !! written = Some s ∧
    messages s =
      get_chat_history self sid ++
      [mkChatMessage role content (Some (now_message d))] ∧
    message_count s = Z.of_nat (length (messages s)) ∧
    last_activity s = now_activity d ∧
    ∀ k, k ≠ written → sessions m !! k = sessions self !! k.
Proof.
  cbv zeta. unfold get_chat_history.
  destruct (sessions self !! sid) as [s0|] eqn:Hs.
  - rewrite bool_decide_eq_true_2 by eauto.
    exists (mkManager (<[sid := with_message d s0 role content]> (sessions self))),
      (with_message d s0 role content).
    split; [by apply add_message_known|].
    split; [cbn; apply lookup_insert_eq|].
    split_and!; try done.
    intros k Hk. cbn. by apply lookup_insert_ne.
  - rewrite bool_decide_eq_false_2 by (by intros [? ?]).
    exists (mkManager (<[uuid4 d := with_message d (new_session d) role content]>
                         (sessions self))),
      (with_message d (new_session d) role content).
    split; [by apply add_message_unknown|].
    split; [cbn; apply lookup_insert_eq|].
    split_and!; try done.
    intros k Hk. cbn. by apply lookup_insert_ne.
Qed.

(** X3.  Creating a session under an id the store does not hold and then
    clearing that id gives the store back as it was; [clear_session] answers
    [True]. *)
Theorem create_then_clear_restores d self :
  sessions self !! uuid4 d = None →
  (create_session d self).1 = uuid4 d ∧
  clear_session (create_session d self).2 (create_session d self).1 = (true, self).
Proof.
  intros Hfresh. split; [reflexivity|].
  unfold clear_session, create_session. cbn.
  rewrite bool_decide_eq_true_2 by (rewrite lookup_insert_eq; eauto).
  rewrite delete_insert_id by done. by destruct self.
Qed.

Lemma create_then_clear_restores_witness :
  let self := run [OpCreate (mkDraw "a" 1 1 1);
                   OpAppend (mkDraw "x" 2 2 2) "a" USER "one"]
                ChatHistoryManager_init in
  let d := mkDraw "b" 3 3 3 in
  sessions self !! "b" = None ∧
  clear_session (create_session d self).2 "b" = (true, self).
Proof.
  cbv zeta. split; [vm_compute; reflexivity|].
  refine (proj2 (create_then_clear_restores (mkDraw "b" 3 3 3)
                   (run [OpCreate (mkDraw "a" 1 1 1);
                         OpAppend (mkDraw "x" 2 2 2) "a" USER "one"]
                      ChatHistoryManager_init) _)).
  vm_compute; reflexivity.
Defined.

Lemma keys_are_drawn_step op ids m :
  keys_are_drawn ids m → keys_are_drawn (ids ++ drawn_id op) (step op m).
Proof.
  intros Hm. destruct op as [d|d sid' role content|sid'].
  - rewrite step_create. intros k s. cbn.
    rewrite lookup_insert. case_decide as Hk.
    + intros [= <-]. subst k. split; [done|]. set_solver.
    + intros Hs. destruct (Hm _ _ Hs). split; [done|]. set_solver.
  - destruct (sessions m !! sid') as [s0|] eqn:Hs0.
    + rewrite (step_append_known _ _ _ _ _ s0) by done. intros k s. cbn.
      rewrite lookup_insert. case_decide as Hk.
      * intros [= <-]. subst k. destruct (Hm _ _ Hs0). split; [done|]. set_solver.
      * intros Hs. destruct (Hm _ _ Hs). split; [done|]. set_solver.
    + rewrite step_append_unknown by done. intros k s. cbn.
      rewrite lookup_insert. case_decide as Hk.
      * intros [= <-]. subst k. split; [done|]. set_solver.
      * intros Hs. destruct (Hm _ _ Hs). split; [done|]. set_solver.
  - intros k s. rewrite step_clear. intros [_ Hs]%lookup_delete_Some.
    destruct (Hm _ _ Hs). split; [done|]. cbn. by rewrite app_nil_r.
Qed.

Lemma keys_are_drawn_run ops ids m :
  keys_are_drawn ids m → keys_are_drawn (ids ++ drawn_ids ops) (run ops m).
Proof.
  revert ids m. induction ops as [|op ops IH]; intros ids m Hm.
  - cbn. by rewrite app_nil_r.
  - cbn. unfold drawn_ids. cbn. rewrite app_assoc.
    apply IH. by apply keys_are_drawn_step.
Qed.

(** X4.  In a store reached from the empty one by [create_session],
    [add_message] and [clear_session] calls, every key is an id that one of
    the calls drew with [uuid4()], and the session under a key carries that
    key as its [session_id].  So an id handed to [add_message] is a key of
    the store only if it was also drawn. *)
Theorem store_keys_are_drawn_ids (ops : list Op) :
  let m := run ops ChatHistoryManager_init in
  (∀ k s, sessions m !! k = Some s → session_id s = k ∧ k ∈ drawn_ids ops) ∧
  ∀ sid, sid ∉ drawn_ids ops →
    sessions m !! sid = None ∧ get_chat_history m sid = [].
Proof.
  cbv zeta.
  assert (Hkeys : keys_are_drawn (drawn_ids ops) (run ops ChatHistoryManager_init)).
  { apply (keys_are_drawn_run ops [] ChatHistoryManager_init).
    intros k s. cbn. by rewrite lookup_empty. }
  split; [exact Hkeys|].
  intros sid Hnot.
  assert (Hnone : sessions (run ops ChatHistoryManager_init) !! sid = None).
  { destruct (sessions (run ops ChatHistoryManager_init) !! sid) as [s|] eqn:Hs;
      [|done].
    by destruct (Hkeys _ _ Hs). }
  split; [done|]. by apply get_chat_history_unknown.
Qed.

Lemma store_keys_are_drawn_ids_witness :
  let ops := [OpCreate (mkDraw "a" 1 1 1);
              OpAppend (mkDraw "x" 2 2 2) "caller-id" USER "one";
              OpAppend (mkDraw "y" 3 3 3) "a" USER "two"] in
  sessions (run ops ChatHistoryManager_init) !! "caller-id" = None ∧
  get_chat_history (run ops ChatHistoryManager_init) "caller-id" = [].
Proof.
  cbv zeta.
  refine (proj2 (store_keys_are_drawn_ids _) "caller-id" _).
  cbn. intros Hin.
  repeat (apply elem_of_cons in Hin as [Hin|Hin]; [discriminate|]).
  by apply elem_of_nil in Hin.
Defined.

(** X5.  In a store reached from the empty one, [total_messages] of the
    statistics is the sum of the lengths of the stored histories, and the
    active sessions are exactly the ids whose history is not empty. *)
Theorem stats_agree_with_histories (ops : list Op) :
  let m := run ops ChatHistoryManager_init in
  let stats := get_session_stats m in
  total_messages stats =
    foldr Z.add 0
      ((λ it : string * ChatSessionInfo, Z.of_nat (length (get_chat_history m it.1)))
         <$> map_to_list (sessions m)) ∧
  ∀ sid, sid ∈ active_sessions stats ↔ get_chat_history m sid ≠ [].
Proof.
  cbv zeta.
  assert (Hm : counts_match (run ops ChatHistoryManager_init))
    by apply counts_match_run, counts_match_init.
  split; [by apply total_messages_is_sum_of_lengths|].
  intros sid. rewrite active_sessions_spec. unfold get_chat_history.
  destruct (sessions (run ops ChatHistoryManager_init) !! sid) as [s|] eqn:Hs.
  - specialize (Hm _ _ Hs). split.
    + intros (s' & [= <-] & Hpos). destruct (messages s); [cbn in Hm; lia|done].
    + intros Hne. exists s. split; [done|].
      destruct (messages s); [done|]. cbn in Hm. lia.
  - split; [by intros (? & ? & ?)|done].
Qed.

(** X6.  Clearing a stored session takes one session and its
    [message_count] off the statistics and takes its id off the active
    sessions; the ids active afterwards are the other ids active before. *)
Theorem clear_session_updates_stats self sid s :
  sessions self !! sid = Some s →
  let cleared := (clear_session self sid).2 in
  total_sessions (get_session_stats cleared) =
    total_sessions (get_session_stats self) - 1 ∧
  total_messages (get_session_stats cleared) =
    total_messages (get_session_stats self) - message_count s ∧
  ∀ k, k ∈ active_sessions (get_session_stats cleared) ↔
       k ≠ sid ∧ k ∈ active_sessions (get_session_stats self).
Proof.
  intros Hs. cbv zeta.
  assert (Hcleared : (clear_session self sid).2 =
                     mkManager (delete sid (sessions self))).
  { unfold clear_session. by rewrite bool_decide_eq_true_2 by eauto. }
  rewrite Hcleared. split_and!.
  - cbn. rewrite map_size_delete, Hs.
    pose proof (map_size_non_empty_iff (sessions self)) as Hsize.
    assert (sessions self ≠ ∅) as Hne%Hsize
      by (intros Hempty; by rewrite Hempty in Hs).
    lia.
  - rewrite (total_messages_delete self sid s Hs). lia.
  - intros k. rewrite !active_sessions_spec. cbn. split.
    + intros (s' & [Hk Hs']%lookup_delete_Some & Hpos). eauto.
    + intros (Hk & s' & Hs' & Hpos). exists s'. split; [|done].
      apply lookup_delete_Some. eauto.
Qed.

Lemma clear_session_updates_stats_witness :
  let self := run [OpCreate (mkDraw "a" 1 1 1);
                   OpAppend (mkDraw "x" 2 2 2) "a" USER "one";
                   OpCreate (mkDraw "b" 3 3 3)]
                ChatHistoryManager_init in
  let s := mkChatSessionInfo "a" 1 1 2 [mkChatMessage USER "one" (Some 2)] in
  sessions self !! "a" = Some s ∧
  total_sessions (get_session_stats (clear_session self "a").2) =
    total_sessions (get_session_stats self) - 1 ∧
  total_messages (get_session_stats (clear_session self "a").2) =
    total_messages (get_session_stats self) - 1.
Proof.
  cbv zeta. split; [vm_compute; reflexivity|].
  pose proof (clear_session_updates_stats
                (run [OpCreate (mkDraw "a" 1 1 1);
                      OpAppend (mkDraw "x" 2 2 2) "a" USER "one";
                      OpCreate (mkDraw "b" 3 3 3)]
                   ChatHistoryManager_init) "a"
                (mkChatSessionInfo "a" 1 1 2 [mkChatMessage USER "one" (Some 2)])) as H.
  cbv zeta in H.
  destruct (H ltac:(vm_compute; reflexivity)) as (Hsessions & Hmessages & _).
  split; [exact Hsessions|exact Hmessages].
Defined.
End store_more.

(** ** Validation of what a request carries *)

Section validation_more.
Implicit Types (s a b : string) (c : ascii) (remote : Remote) (app : App)
  (request : FlaskRequest).

Lemma len_nonneg s : 0 ≤ len s.
Proof. unfold len. lia. Qed.

Lemma len_lstrip_le s : len (lstrip s) ≤ len s.
Proof.
  unfold len. induction s as [|c s IH]; [done|].
  cbn [lstrip]. destruct (chr_isspace c); cbn [String.length]; lia.
Qed.

Lemma len_str_reverse s : len (str_reverse s) = len s.
Proof.
  unfold len, str_reverse. f_equal.
  rewrite <- (string_of_list_ascii_of_string s) at 2.
  generalize (list_ascii_of_string s). intros l.
  assert (Hlen : ∀ l', String.length (string_of_list_ascii l') = length l').
  { induction l' as [|x l' IH]; [done|]. cbn. by rewrite IH. }
  by rewrite !Hlen, length_reverse.
Qed.

(** [strip] never makes a text longer. *)
Lemma len_strip_le s : len (strip s) ≤ len s.
Proof.
  unfold strip, rstrip. rewrite len_str_reverse.
  pose proof (len_lstrip_le (str_reverse (lstrip s))).
  rewrite len_str_reverse in *. pose proof (len_lstrip_le s). lia.
Qed.

Lemma lower_app a b : lower (a +:+ b) = lower a +:+ lower b.
Proof.
  induction a as [|c a IH]; [done|].
  rewrite str_app_cons. cbn [lower]. by rewrite str_app_cons, IH.
Qed.

Lemma contains_app needle a b : contains needle (a +:+ needle +:+ b) = true.
Proof.
  induction a as [|c a IH].
  - change ("" +:+ needle +:+ b) with (needle +:+ b).
    destruct (needle +:+ b) eqn:Heq; cbn [contains];
      by rewrite <- Heq, prefix_app.
  - rewrite str_app_cons. cbn [contains]. rewrite IH. apply orb_true_r.
Qed.

Lemma chr_lower_dot c : chr_lower c = "."%char → c = "."%char.
Proof.
  destruct c as [[] [] [] [] [] [] [] []]; vm_compute; congruence.
Qed.

Lemma contains_dot_cons c s :
  contains "." (String c s) = Ascii.eqb c "."%char || contains "." s.
Proof.
  cbn [contains String.prefix]. f_equal.
  destruct (ascii_dec "." c) as [<-|Hne]; [by destruct s|].
  symmetry. apply Ascii.eqb_neq. congruence.
Qed.

Lemma contains_dot_lower s : contains "." (lower s) = contains "." s.
Proof.
  induction s as [|c s IH]; [done|].
  cbn [lower]. rewrite !contains_dot_cons, IH. f_equal.
  destruct (Ascii.eqb_spec c "."%char) as [->|Hne]; [done|].
  apply Ascii.eqb_neq. intros Hdot. by apply chr_lower_dot in Hdot.
Qed.

(** [s.rsplit('.', 1)[-1]] of a name without a dot is the name. *)
Lemma after_last_dot_plain s : contains "." s = false → after_last_dot s = s.
Proof.
  destruct s as [|c s]; [done|].
  rewrite contains_dot_cons. intros [Hc Hs]%orb_false_elim.
  cbn [after_last_dot]. by rewrite Hs, Hc.
Qed.

(** ... and of [stem.ext], where [ext] has no dot, it is [ext]. *)
Lemma after_last_dot_app stem ext :
  contains "." ext = false → after_last_dot (stem +:+ "." +:+ ext) = ext.
Proof.
  intros Hext. induction stem as [|c stem IH].
  - change ("" +:+ "." +:+ ext) with (String "." ext).
    cbn [after_last_dot]. by rewrite Hext.
  - rewrite str_app_cons. cbn [after_last_dot].
    by rewrite (contains_app "." stem ext).
Qed.

Lemma allowed_extension_plain ext :
  "." +:+ lower ext ∈ allowed_extensions →
  contains "." ext = false ∧ ext ≠ "".
Proof.
  intros Hin. rewrite <- contains_dot_lower.
  unfold allowed_extensions in Hin.
  change ("." +:+ lower ext) with (String "." (lower ext)) in Hin.
  repeat (apply elem_of_cons in Hin as [Hin|Hin];
          [injection Hin as Hin; rewrite Hin; split; [reflexivity|];
           intros ->; discriminate|]).
  by apply elem_of_nil in Hin.
Qed.

(** X7.  [validate_audio_file] passes every upload of at most 16 MB whose
    name ends in a dot and one of webm, wav, mp3, m4a and ogg in any mix of
    upper and lower case, whatever comes before the dot.  A name that is
    only such a word, with no dot at all, passes as well:
    [rsplit('.', 1)[-1]] is then the whole name. *)
Theorem validate_audio_file_accepts stem ext size bytes :
  "." +:+ lower ext ∈ allowed_extensions →
  size ≤ 16 * 1024 * 1024 →
  validate_audio_file (mkFileStorage (stem +:+ "." +:+ ext) size bytes) = None ∧
  validate_audio_file (mkFileStorage ext size bytes) = None.
Proof.
  intros Hin Hsize.
  destruct (allowed_extension_plain _ Hin) as [Hplain Hne].
  assert (Hbig : (16 * 1024 * 1024 <? size) = false) by (apply Z.ltb_ge; lia).
  unfold validate_audio_file. cbn [filename content_length].
  rewrite Hbig, andb_false_r.
  rewrite after_last_dot_app, after_last_dot_plain by done.
  rewrite bool_decide_eq_true_2 by done.
  split.
  - destruct stem as [|c stem]; [done|]. by rewrite str_app_cons.
  - by destruct ext.
Qed.

Lemma validate_audio_file_accepts_witness :
  validate_audio_file (mkFileStorage "my.first.take.WebM" 2048 []) = None ∧
  validate_audio_file (mkFileStorage "WebM" 2048 []) = None.
Proof.
  apply (validate_audio_file_accepts "my.first.take" "WebM" 2048 []).
  - vm_compute. set_solver.
  - lia.
Defined.

(** X8.  An upload that [validate_audio_file] rejects is answered with
    status 400 and an [INPUT_ERROR] carrying the message of the check, by
    [/llm/query] and by [/api/transcribe] alike; no outgoing call is made
    and [/llm/query] leaves the session store as it was. *)
Theorem rejected_upload_is_answered_400 remote app request audio message
    new_session_id d_user d_assistant :
  files_audio request = Some audio →
  validate_audio_file audio = Some message →
  llm_query remote app request new_session_id d_user d_assistant =
    (mkReply (ReplyError (create_error_response message INPUT_ERROR)) 400,
     chat_manager app, []) ∧
  transcribe_audio_route remote app (Some audio) =
    ((ServiceError (create_error_response message INPUT_ERROR), 400), []).
Proof.
  intros Haudio Hcheck. split.
  - unfold llm_query, _handle_voice_query. by rewrite Haudio, Hcheck.
  - unfold transcribe_audio_route. by rewrite Hcheck.
Qed.

Lemma rejected_upload_is_answered_400_witness :
  let request :=
    mkFlaskRequest false None None (Some "a")
      (Some (mkFileStorage "notes.txt" 10 [])) in
  reply_status
    (llm_query (healthy_remote "hello" "hi") (configured_app ChatHistoryManager_init)
       request "b" (mkDraw "c" 1 1 1) (mkDraw "d" 2 2 2)).1.1 = 400 ∧
  (llm_query (healthy_remote "hello" "hi") (configured_app ChatHistoryManager_init)
     request "b" (mkDraw "c" 1 1 1) (mkDraw "d" 2 2 2)).2 = [].
Proof.
  cbv zeta.
  pose proof (rejected_upload_is_answered_400 (healthy_remote "hello" "hi")
                (configured_app ChatHistoryManager_init)
                (mkFlaskRequest false None None (Some "a")
                   (Some (mkFileStorage "notes.txt" 10 [])))
                (mkFileStorage "notes.txt" 10 [])
                "Unsupported file format. Allowed: .webm, .wav, .mp3, .m4a, .ogg"
                "b" (mkDraw "c" 1 1 1) (mkDraw "d" 2 2 2)
                eq_refl ltac:(vm_compute; reflexivity)) as [Hquery _].
  by rewrite Hquery.
Defined.


End validation_more.

(** ** The request models *)

Section schemas_more.
Implicit Types (s a b : string) (c : ascii).

Lemma lstrip_idempotent s : lstrip (lstrip s) = lstrip s.
Proof.
  induction s as [|c s IH]; [done|].
  cbn [lstrip]. destruct (chr_isspace c) eqn:Hc; [done|].
  cbn [lstrip]. by rewrite Hc.
Qed.

(** What [lstrip] leaves is empty or starts with a character that is no
    white space. *)
Lemma lstrip_head s :
  lstrip s = "" ∨ ∃ c r, lstrip s = String c r ∧ chr_isspace c = false.
Proof.
  induction s as [|c s IH]; [by left|].
  cbn [lstrip]. destruct (chr_isspace c) eqn:Hc; [done|]. right. eauto.
Qed.

Lemma lstrip_split s : ∃ w, s = w +:+ lstrip s.
Proof.
  induction s as [|c s [w Hw]]; [by exists ""|].
  cbn [lstrip]. destruct (chr_isspace c).
  - exists (String c w). by rewrite str_app_cons, <- Hw.
  - by exists "".
Qed.

Lemma string_of_list_ascii_app (l1 l2 : list ascii) :
  string_of_list_ascii (l1 ++ l2) =
    string_of_list_ascii l1 +:+ string_of_list_ascii l2.
Proof.
  induction l1 as [|x l1 IH]; [done|].
  cbn. by rewrite str_app_cons, IH.
Qed.

Lemma str_reverse_app a b :
  str_reverse (a +:+ b) = str_reverse b +:+ str_reverse a.
Proof.
  unfold str_reverse.
  by rewrite list_ascii_of_string_app, reverse_app, string_of_list_ascii_app.
Qed.

(** [rstrip] cuts a text at its end only. *)
Lemma rstrip_split s : ∃ w, s = rstrip s +:+ w.
Proof.
  unfold rstrip. destruct (lstrip_split (str_reverse s)) as [w Hw].
  exists (str_reverse w).
  by rewrite <- str_reverse_app, <- Hw, str_reverse_involutive.
Qed.

Lemma rstrip_idempotent s : rstrip (rstrip s) = rstrip s.
Proof. unfold rstrip. by rewrite str_reverse_involutive, lstrip_idempotent. Qed.

(** [s.strip().strip() == s.strip()] *)
Lemma strip_idempotent s : strip (strip s) = strip s.
Proof.
  unfold strip.
  assert (Hleft : lstrip (rstrip (lstrip s)) = rstrip (lstrip s)).
  { destruct (rstrip_split (lstrip s)) as [w Hw].
    destruct (rstrip (lstrip s)) as [|c r] eqn:Hr; [done|].
    destruct (lstrip_head s) as [Hempty|(c' & r' & Hs & Hc')].
    - rewrite Hempty in Hw. discriminate.
    - rewrite Hs, str_app_cons in Hw. injection Hw as -> _.
      cbn [lstrip]. by rewrite Hc'. }
  by rewrite Hleft, rstrip_idempotent.
Qed.

(** X10.  A request model that is accepted holds the stripped form of the
    text it was given, which is between 1 and the field's upper bound
    (10000 for [LLMRequest], 5000 for [TTSRequest]) characters long; built
    again from the text it holds, the model is accepted and is the same. *)
Theorem request_models_keep_their_text raw session_id voice_id speed pitch :
  (∀ request, LLMRequest_new raw session_id = Ok request →
     rq_text request = strip raw ∧ 1 ≤ len (rq_text request) ≤ 10000 ∧
     LLMRequest_new (rq_text request) session_id = Ok request) ∧
  (∀ request, TTSRequest_new raw voice_id speed pitch = Ok request →
     tts_text request = strip raw ∧ 1 ≤ len (tts_text request) ≤ 5000 ∧
     TTSRequest_new (tts_text request) voice_id speed pitch = Ok request).
Proof.
  pose proof (len_strip_le raw) as Hle. split; intros request.
  - unfold LLMRequest_new.
    destruct (Z.ltb_spec (len raw) 1); [discriminate|].
    destruct (Z.ltb_spec 10000 (len raw)); [discriminate|].
    destruct (str_falsy (strip raw)) eqn:Hfalsy; [discriminate|].
    intros [= <-]. cbn [rq_text].
    pose proof (len_nonempty _ (proj1 (str_falsy_false _) Hfalsy)).
    split; [done|]. split; [lia|].
    rewrite (proj2 (Z.ltb_ge _ _)) by lia.
    rewrite (proj2 (Z.ltb_ge _ _)) by lia.
    by rewrite strip_idempotent, Hfalsy.
  - unfold TTSRequest_new.
    destruct (Z.ltb_spec (len raw) 1); [discriminate|].
    destruct (Z.ltb_spec 5000 (len raw)); [discriminate|].
    destruct (in_range 50 200 speed); cbn [negb]; [|discriminate].
    destruct (in_range 0 100 pitch); cbn [negb]; [|discriminate].
    destruct (str_falsy (strip raw)) eqn:Hfalsy; [discriminate|].
    intros [= <-]. cbn [tts_text].
    pose proof (len_nonempty _ (proj1 (str_falsy_false _) Hfalsy)).
    split; [done|]. split; [lia|].
    rewrite (proj2 (Z.ltb_ge _ _)) by lia.
    rewrite (proj2 (Z.ltb_ge _ _)) by lia.
    by rewrite strip_idempotent, Hfalsy.
Qed.
End schemas_more.

(** ** The generator service *)

Section llm_more.
Implicit Types (remote : Remote) (self : LLMService) (request : LLMRequest).

Lemma last_n_last_n {A} (k : nat) (l : list A) : last_n k (last_n k l) = last_n k l.
Proof.
  unfold last_n. rewrite length_drop.
  replace (length l - (length l - k) - k)%nat with 0%nat by lia. done.
Qed.

Lemma last_n_nil_inv {A} (k : nat) (l : list A) :
  (0 < k)%nat → last_n k l = [] → l = [].
Proof.
  unfold last_n. intros Hk Hnil.
  apply (f_equal length) in Hnil. rewrite length_drop in Hnil.
  destruct l; [done|]. cbn in Hnil. lia.
Qed.

(** X11.  [_prepare_context] reads at most the last ten messages of the
    history it is given: it builds the same context from the whole history
    and from its last ten messages.  A request that does not ask for the
    history, or an empty history, gives the context built without
    history. *)
Theorem prepare_context_reads_last_ten request (past : list ChatMessage) :
  _prepare_context request (Some past) =
    _prepare_context request (Some (last_n 10 past)) ∧
  (rq_include_history request ≠ Some true ∨ past = [] →
   _prepare_context request (Some past) = _prepare_context request None).
Proof.
  unfold _prepare_context. split.
  - destruct (rq_include_history request) as [[]|]; [|done..].
    destruct past as [|x past]; [done|].
    destruct (last_n 10 (x :: past)) as [|y rest] eqn:Hlast.
    { by apply last_n_nil_inv in Hlast; [|lia]. }
    rewrite <- Hlast.
    rewrite !(py_slice_from_last _ 10) by lia.
    change (Z.to_nat 10) with 10%nat. by rewrite last_n_last_n.
  - intros [Hno| ->].
    + by destruct (rq_include_history request) as [[]|].
    + by destruct (rq_include_history request) as [[]|].
Qed.

(** X12.  What [generate_response] returns.  The query and the session id
    of the request are echoed.  A success means the service is available,
    one generation call was made with the prepared context, the generator
    answered a text that is not empty, and the response is that text
    stripped; it carries no error and no fallback.  A failure carries no
    response, the contextual fallback for the text of the request and an
    error; it is a [CONFIG_ERROR] with no call when the service is not
    available and an [LLM_ERROR] after one call otherwise. *)
Theorem generate_response_outcomes remote self request chat_history :
  let out := generate_response remote self request chat_history in
  let context := _prepare_context request chat_history in
  lr_query out.1 = Some (rq_text request) ∧
  lr_session_id out.1 = rq_session_id request ∧
  out.2 = (if llm_is_available self then [CallGenerate context] else []) ∧
  if lr_success out.1 then
    llm_is_available self = true ∧
    (∃ answer, gemini_generate_content remote context = Ok answer ∧
               answer ≠ "" ∧ lr_response out.1 = Some (strip answer)) ∧
    lr_model out.1 = Some (llm_model_name self) ∧
    lr_error out.1 = None ∧ lr_error_type out.1 = None ∧
    lr_fallback_response out.1 = None
  else
    lr_response out.1 = None ∧ lr_model out.1 = None ∧
    lr_fallback_response out.1 =
      Some (_generate_contextual_fallback (rq_text request)) ∧
    (∃ message, lr_error out.1 = Some message) ∧
    lr_error_type out.1 =
      Some (if llm_is_available self then LLM_ERROR else CONFIG_ERROR).
Proof.
  cbv zeta. split_and!; [| |apply generate_response_calls|].
  - unfold generate_response. destruct (llm_is_available self); cbn; [|done].
    by destruct (_generate_llm_response _ _ _) as [[?|?] ?].
  - unfold generate_response. destruct (llm_is_available self); cbn; [|done].
    by destruct (_generate_llm_response _ _ _) as [[?|?] ?].
  - unfold generate_response, _generate_llm_response.
    destruct (llm_is_available self) eqn:Havail; cbn; [|eauto 10].
    unfold llm_is_available in Havail.
    destruct (llm_client self); [|done].
    destruct (gemini_generate_content remote _) as [answer|e]; cbn; [|eauto 10].
    destruct answer as [|c rest]; cbn; [eauto 10|].
    split_and!; try done. by exists (String c rest).
Qed.

Lemma append_falsy a b : str_falsy (a +:+ b) = str_falsy a && str_falsy b.
Proof. by destruct a, b. Qed.

(** X13.  A greeting word wins wherever it stands: a text that holds, in
    any mix of upper and lower case, one of hello, hi, hey, good morning
    and good afternoon gets the greeting reply of
    [_generate_contextual_fallback], whatever surrounds the word, also
    inside another word. *)
Theorem fallback_greeting_anywhere (before word after : string) :
  lower word ∈ ["hello"; "hi"; "hey"; "good morning"; "good afternoon"] →
  _generate_contextual_fallback (before +:+ word +:+ after) =
    "Hello! I'm having some technical difficulties with my AI brain, but I'm here to help as best I can.".
Proof.
  intros Hword. unfold _generate_contextual_fallback.
  assert (Hne : str_falsy (before +:+ word +:+ after) = false).
  { rewrite !append_falsy. destruct word; [|by rewrite andb_false_r].
    exfalso. cbn in Hword.
    repeat (apply elem_of_cons in Hword as [Hword|Hword]; [discriminate|]).
    by apply elem_of_nil in Hword. }
  rewrite Hne.
  assert (Hany :
    any_word_in ["hello"; "hi"; "hey"; "good morning"; "good afternoon"]
      (lower (before +:+ word +:+ after)) = true).
  { unfold any_word_in. apply existsb_exists. exists (lower word).
    split; [by apply list_elem_of_In|].
    rewrite !lower_app. apply contains_app. }
  by rewrite Hany.
Qed.

Lemma fallback_greeting_anywhere_witness :
  _generate_contextual_fallback "What is tHIs?" =
    "Hello! I'm having some technical difficulties with my AI brain, but I'm here to help as best I can.".
Proof.
  apply (fallback_greeting_anywhere "What is t" "HI" "s?").
  vm_compute. set_solver.
Defined.
End llm_more.

(** ** The synthesizer service *)

Section tts_more.
Implicit Types (remote : Remote) (self : TTSService) (request : TTSRequest).

(** X14.  [synthesize_speech] succeeds exactly when the service is
    available, the POST returns, its status is 200 and the parsed body
    holds under [audioFile] a string that is not empty; the response then
    carries that string as its audio URL, and no error and no fallback.
    Every failure names an error and an error type, and the type is
    [CONFIG_ERROR] exactly when the service is not available. *)
Theorem synthesize_speech_success remote self request :
  let out := synthesize_speech remote self request in
  let post :=
    requests_post remote (default "" (tts_api_url self))
      (_prepare_murf_payload self request) (_prepare_murf_headers self)
      (tts_timeout self) in
  (tts_success out.1 = true ↔
     tts_is_available self = true ∧
     ∃ response audio,
       post = Ok response ∧ status_code response = 200 ∧
       response_json response = BodyObject (Some (JString audio)) ∧
       audio ≠ "") ∧
  (∀ response audio,
     tts_success out.1 = true →
     post = Ok response →
     response_json response = BodyObject (Some (JString audio)) →
     tts_audio_url out.1 = Some audio) ∧
  (tts_success out.1 = true →
     tts_error out.1 = None ∧ tts_error_type out.1 = None ∧
     tts_emergency_fallback out.1 = None) ∧
  (tts_success out.1 = false →
     ∃ message error_type,
       tts_error out.1 = Some message ∧ tts_error_type out.1 = Some error_type ∧
       (error_type = CONFIG_ERROR ↔ tts_is_available self = false)).
Proof.
  cbv zeta. unfold synthesize_speech.
  destruct (tts_is_available self); cbn [negb];
    [destruct (requests_post _ _ _ _ _) as [response|e]; cbn [fst snd];
     [unfold _process_murf_response;
      destruct (Z.eqb_spec (status_code response) 200) as [Hstatus|Hstatus];
      cbn [negb];
      [destruct (response_json response) as [msg|msg|[[audio|truthy]|]] eqn:Hjson;
       [| |destruct audio as [|c rest]|destruct truthy|]|]
     |unfold synthesize_except;
      destruct (is_Timeout e), (is_RequestException e)]|];
    cbn.
  all: split_and!.
  all: try discriminate.
  all: try (intros ? ? ?; discriminate).
  all: try (intros _; eexists _, _; split_and!;
            [reflexivity|reflexivity|split; intros; discriminate || done]).
  all: try (split; [discriminate|];
            intros (Ha & r & a & Hp & Hs & Hj & Hne);
            solve [simplify_eq; congruence | by simplify_eq]).
  - split; [|done]. intros _. split; [done|].
    eexists _, _. split_and!; [reflexivity|exact Hstatus|exact Hjson|discriminate].
  - intros r a _ Hp Hj. simplify_eq. congruence.
  - done.
Qed.

(** X15.  The payload sent for a request that [TTSRequest] accepted: its
    text is the stripped text, its rate the speed asked for, its pitch the
    pitch asked for, its voice the voice asked for; the defaults of the
    service stand in for a speed or pitch of [None], for a voice of [None]
    or the empty string and for a pitch of 0, which the model accepts. *)
Theorem murf_payload_of_accepted_request self raw voice_id speed pitch_asked request :
  TTSRequest_new raw voice_id speed pitch_asked = Ok request →
  let payload := _prepare_murf_payload self request in
  text payload = strip raw ∧
  rate payload = match speed with Some v => v | None => default_speed self end ∧
  pitch payload =
    match pitch_asked with
    | Some 0 | None => default_pitch self
    | Some v => v
    end ∧
  voiceId payload =
    match voice_id with
    | Some EmptyString | None => default_voice self
    | Some v => v
    end.
Proof.
  unfold TTSRequest_new.
  destruct (len raw <? 1); [discriminate|].
  destruct (5000 <? len raw); [discriminate|].
  destruct (in_range 50 200 speed) eqn:Hspeed; cbn [negb]; [|discriminate].
  destruct (in_range 0 100 pitch_asked); cbn [negb]; [|discriminate].
  destruct (str_falsy (strip raw)); [discriminate|].
  intros [= <-]. cbn. split_and!; try done.
  - destruct speed as [v|]; [|done]. cbn in *.
    destruct (Z.eqb_spec v 0) as [->|]; [discriminate|done].
  - by destruct pitch_asked as [[| |]|].
  - by destruct voice_id as [[|]|].
Qed.

Lemma murf_payload_of_accepted_request_witness :
  let self :=
    mkTTSService (Some "key") (Some "https://api.murf.ai") 60 "en-US-AriaNeural"
      95 45 in
  TTSRequest_new " Hello " (Some "") (Some 120) (Some 0) =
    Ok (mkTTSRequest "Hello" (Some "") (Some 120) (Some 0)) ∧
  pitch (_prepare_murf_payload self
           (mkTTSRequest "Hello" (Some "") (Some 120) (Some 0))) = 45.
Proof.
  cbv zeta. split; [vm_compute; reflexivity|].
  pose proof (murf_payload_of_accepted_request
                (mkTTSService (Some "key") (Some "https://api.murf.ai") 60
                   "en-US-AriaNeural" 95 45)
                " Hello " (Some "") (Some 120) (Some 0)
                (mkTTSRequest "Hello" (Some "") (Some 120) (Some 0))
                ltac:(vm_compute; reflexivity)) as H.
  cbv zeta in H. exact (proj1 (proj2 (proj2 H))).
Defined.

(** X16.  The configuration reads a setting that is not set as the empty
    string.  With the Murf key and URL both empty the synthesizer still
    counts as available, although both settings are listed as missing and
    its health check reports them as not configured: [is_available]
    compares with [None] and the placeholder only.  [synthesize_speech] then
    sends its POST to the empty URL with the empty key. *)
Theorem unset_murf_settings_pass_for_available remote config request :
  MURF_API_KEY config = Some "" →
  MURF_API_URL config = Some "" →
  let self := TTSService_init config in
  tts_is_available self = true ∧
  "murf" ∈ get_missing_keys config ∧ "murf_url" ∈ get_missing_keys config ∧
  is_production_ready config = false ∧
  tts_health_available (tts_health_check self) = true ∧
  tts_health_api_key_configured (tts_health_check self) = false ∧
  tts_health_api_url_configured (tts_health_check self) = false ∧
  (synthesize_speech remote self request).2 =
    [CallPost "" (_prepare_murf_payload self request)
       (mkMurfHeaders (Some "") "application/json") (TTS_TIMEOUT config)].
Proof.
  intros Hkey Hurl. cbv zeta.
  assert (Havail : tts_is_available (TTSService_init config) = true).
  { unfold tts_is_available. cbn. by rewrite Hkey, Hurl. }
  assert (Hmissing : ∃ l, get_missing_keys config = l ++ ["murf"; "murf_url"]).
  { unfold get_missing_keys, validate_api_keys. rewrite Hkey, Hurl. cbn.
    destruct (key_configured (ASSEMBLYAI_API_KEY config) _),
      (key_configured (GEMINI_API_KEY config) _); cbn.
    - by exists [].
    - by exists ["gemini"].
    - by exists ["assemblyai"].
    - by exists ["assemblyai"; "gemini"]. }
  destruct Hmissing as [l Hl].
  split_and!.
  - done.
  - rewrite Hl. apply elem_of_app. right. by repeat constructor.
  - rewrite Hl. apply elem_of_app. right. by repeat constructor.
  - unfold is_production_ready. rewrite Hl.
    apply bool_decide_eq_false_2. rewrite length_app. cbn. lia.
  - done.
  - cbn. by rewrite Hkey.
  - cbn. by rewrite Hurl.
  - unfold synthesize_speech. rewrite Havail. cbn [negb].
    unfold _prepare_murf_headers. cbn [tts_api_url tts_api_key TTSService_init
      tts_timeout]. rewrite Hkey, Hurl. cbn [default from_option id].
    by destruct (requests_post _ _ _ _ _) as [response|e];
      [destruct (_process_murf_response _ _)|].
Qed.

Lemma unset_murf_settings_pass_for_available_witness :
  let config :=
    mkConfig (Some "stt-key") (Some "llm-key") (Some "") (Some "")
      "en-US-AriaNeural" 95 45 30 30 60 in
  tts_is_available (TTSService_init config) = true ∧
  is_production_ready config = false.
Proof.
  cbv zeta.
  pose proof (unset_murf_settings_pass_for_available (healthy_remote "hello" "hi")
                (mkConfig (Some "stt-key") (Some "llm-key") (Some "") (Some "")
                   "en-US-AriaNeural" 95 45 30 30 60)
                (mkTTSRequest "Hello" None None None) eq_refl eq_refl) as H.
  cbv zeta in H. destruct H as (Havail & _ & _ & Hready & _).
  split; [exact Havail|exact Hready].
Defined.
End tts_more.

(** ** Configuration and health *)

Section config_more.
Implicit Types (config : Config) (app : App).

Lemma key_missing_configured (key : option string) (placeholder : string) :
  key_missing key placeholder = negb (key_configured key placeholder).
Proof.
  destruct key as [k|]; [|done]. cbn.
  by destruct (str_falsy k), (String.eqb k placeholder).
Qed.

Lemma missing_keys_spec config name :
  name ∈ get_missing_keys config ↔ (name, false) ∈ validate_api_keys config.
Proof.
  unfold get_missing_keys.
  generalize (validate_api_keys config). intros l.
  induction l as [|[k v] l IH]; cbn.
  - split; intros H; by apply elem_of_nil in H.
  - destruct v; cbn.
    + rewrite IH, elem_of_cons. split; [by right|]. by intros [[=]|?].
    + rewrite !elem_of_cons, IH.
      split; intros [H|H]; [left; by subst|by right|left; by injection H|by right].
Qed.

Lemma production_ready_all config :
  is_production_ready config = true ↔
  ∀ item, item ∈ validate_api_keys config → item.2 = true.
Proof.
  unfold is_production_ready. rewrite bool_decide_eq_true. split.
  - intros Hlen [k v] Hitem. destruct v; [done|].
    apply missing_keys_spec in Hitem. destruct (get_missing_keys config); [|done].
    by apply elem_of_nil in Hitem.
  - intros Hall. destruct (get_missing_keys config) as [|name l] eqn:Hl; [done|].
    assert (Hin : name ∈ get_missing_keys config) by (rewrite Hl; constructor).
    apply missing_keys_spec in Hin. by apply Hall in Hin.
Qed.

(** X17.  [get_missing_keys] lists the names of the settings that
    [validate_api_keys] finds not configured, and no other;
    [is_production_ready] holds exactly when every setting is configured;
    [/api/health] answers 200 with the status "healthy" exactly then, and
    "degraded" otherwise, whatever the services report. *)
Theorem production_ready_iff_all_configured config app :
  (∀ name, name ∈ get_missing_keys config ↔
           (name, false) ∈ validate_api_keys config) ∧
  (is_production_ready config = true ↔
   key_configured (ASSEMBLYAI_API_KEY config) "your_assemblyai_api_key_here" = true ∧
   key_configured (GEMINI_API_KEY config) "your_gemini_api_key_here" = true ∧
   key_configured (MURF_API_KEY config) "your_murf_api_key_here" = true ∧
   key_configured (MURF_API_URL config) "your_murf_api_url_here" = true) ∧
  (health_check config app).2 = 200 ∧
  hc_status (health_check config app).1 =
    (if is_production_ready config then "healthy" else "degraded").
Proof.
  split_and!; [apply missing_keys_spec| |done|done].
  rewrite production_ready_all. unfold validate_api_keys. split.
  - intros Hall. split_and!.
    + apply (Hall ("assemblyai", _)). unfold validate_api_keys. by repeat constructor.
    + apply (Hall ("gemini", _)). unfold validate_api_keys. by repeat constructor.
    + apply (Hall ("murf", _)). unfold validate_api_keys. by repeat constructor.
    + apply (Hall ("murf_url", _)). unfold validate_api_keys. by repeat constructor.
  - intros (H1 & H2 & H3 & H4) item Hitem.
    repeat (apply elem_of_cons in Hitem as [->|Hitem]; [done|]).
    by apply elem_of_nil in Hitem.
Qed.

(** X18.  The services as built from the configuration.  The recognizer
    and the generator are available exactly when their key is configured
    and their client library was set up without an exception; the
    synthesizer is available whenever its key and URL are configured.  So
    when [/api/health] says "healthy" and both set-ups went through, it
    reports all three services as available. *)
Theorem services_follow_configuration config stt_configure llm_configure store :
  let app := app_of_config config stt_configure llm_configure store in
  (stt_is_available (stt_service app) = true ↔
   key_configured (ASSEMBLYAI_API_KEY config) "your_assemblyai_api_key_here" = true ∧
   ∃ u, stt_configure = Ok u) ∧
  (llm_is_available (llm_service app) = true ↔
   key_configured (GEMINI_API_KEY config) "your_gemini_api_key_here" = true ∧
   ∃ u, llm_configure = Ok u) ∧
  (key_configured (MURF_API_KEY config) "your_murf_api_key_here" = true →
   key_configured (MURF_API_URL config) "your_murf_api_url_here" = true →
   tts_is_available (tts_service app) = true) ∧
  (hc_status (health_check config app).1 = "healthy" →
   (∃ u, stt_configure = Ok u) → (∃ u, llm_configure = Ok u) →
   hc_services (health_check config app).1 =
     [("stt", true); ("llm", true); ("tts", true)]).
Proof.
  cbv zeta.
  assert (Hstt :
    stt_is_available (stt_service (app_of_config config stt_configure llm_configure store)) = true ↔
    key_configured (ASSEMBLYAI_API_KEY config) "your_assemblyai_api_key_here" = true ∧
    ∃ u, stt_configure = Ok u).
  { unfold stt_is_available. cbn. rewrite key_missing_configured.
    rewrite andb_true_iff, !bool_decide_eq_true.
    destruct (ASSEMBLYAI_API_KEY config) as [k|]; cbn; [|by split; intros [? ?]].
    destruct (negb (str_falsy k) && negb (String.eqb k _)); cbn;
      [|by split; intros [? ?]].
    destruct stt_configure as [u|e]; cbn.
    - split; [eauto|done].
    - split; [by intros [? _]|]. by intros [_ [? ?]]. }
  assert (Hllm :
    llm_is_available (llm_service (app_of_config config stt_configure llm_configure store)) = true ↔
    key_configured (GEMINI_API_KEY config) "your_gemini_api_key_here" = true ∧
    ∃ u, llm_configure = Ok u).
  { unfold llm_is_available. cbn. rewrite key_missing_configured.
    rewrite andb_true_iff, !bool_decide_eq_true.
    destruct (GEMINI_API_KEY config) as [k|]; cbn; [|by split; intros [? ?]].
    destruct (negb (str_falsy k) && negb (String.eqb k _)); cbn;
      [|by split; intros [? ?]].
    destruct llm_configure as [u|e]; cbn.
    - split; [eauto|done].
    - split; [by intros [? _]|]. by intros [_ [? ?]]. }
  assert (Htts :
    key_configured (MURF_API_KEY config) "your_murf_api_key_here" = true →
    key_configured (MURF_API_URL config) "your_murf_api_url_here" = true →
    tts_is_available (tts_service (app_of_config config stt_configure llm_configure store)) = true).
  { unfold tts_is_available. cbn.
    destruct (MURF_API_KEY config) as [k|]; cbn; [|done].
    destruct (MURF_API_URL config) as [u|]; cbn; [|by rewrite andb_false_r].
    intros [_ Hk%negb_true_iff%String.eqb_neq]%andb_true_iff
           [_ Hu%negb_true_iff%String.eqb_neq]%andb_true_iff.
    rewrite !andb_true_iff, !bool_decide_eq_true. split_and!; congruence. }
  split_and!; [exact Hstt|exact Hllm|exact Htts|].
  intros Hhealthy Hs Hl.
  destruct (production_ready_all config) as [Hready _].
  cbn [health_check fst hc_status hc_services] in *.
  case_bool_decide as Hlen; [|discriminate].
  assert (Hall : ∀ item, item ∈ validate_api_keys config → item.2 = true).
  { apply Hready. unfold is_production_ready. by apply bool_decide_eq_true_2. }
  rewrite (proj2 Hstt), (proj2 Hllm), Htts; [done| | | |].
  - apply (Hall ("murf", _)). unfold validate_api_keys. by repeat constructor.
  - apply (Hall ("murf_url", _)). unfold validate_api_keys. by repeat constructor.
  - split; [|done]. apply (Hall ("gemini", _)). unfold validate_api_keys. by repeat constructor.
  - split; [|done]. apply (Hall ("assemblyai", _)). unfold validate_api_keys. by repeat constructor.
Qed.
End config_more.

(** ** The recognizer service *)

Section stt_more.
Implicit Types (remote : Remote) (self : STTService) (audio_file : FileStorage).

Lemma perform_transcription_outcomes remote self path :
  let r := (_perform_transcription remote self path).1 in
  if stt_success r then
    ∃ transcript raw,
      aai_transcribe remote path = Ok transcript ∧
      status_error transcript = false ∧
      transcript_text transcript = Some raw ∧
      strip raw ≠ "" ∧
      confidence_ok (transcript_confidence transcript) = true ∧
      r = mkTranscriptionResponse true (Some (strip raw))
            (transcript_confidence transcript) (Some "en") None None
  else
    ∃ message, r = stt_failure message STT_ERROR.
Proof.
  cbv zeta. unfold _perform_transcription.
  destruct (stt_client self); cbn; [|eauto].
  destruct (aai_transcribe remote path) as [transcript|e]; cbn; [|eauto].
  destruct (status_error transcript) eqn:Hstatus; cbn; [eauto|].
  destruct (transcript_text transcript) as [raw|] eqn:Htext; cbn; [|eauto].
  destruct (str_falsy raw); cbn; [eauto|].
  destruct (String.eqb_spec (strip raw) "") as [|Hne]; cbn; [eauto|].
  unfold TranscriptionResponse_new.
  destruct (confidence_ok _) eqn:Hconfidence; cbn; [|eauto].
  exists transcript, raw. by rewrite Hstatus, Htext.
Qed.

Lemma transcribe_audio_outcomes_aux remote self audio_file :
  let r := (transcribe_audio remote self audio_file).1 in
  if stt_success r then
    stt_is_available self = true ∧
    ∃ path transcript raw,
      save_upload remote audio_file = Ok path ∧
      aai_transcribe remote path = Ok transcript ∧
      status_error transcript = false ∧
      transcript_text transcript = Some raw ∧
      strip raw ≠ "" ∧
      confidence_ok (transcript_confidence transcript) = true ∧
      r = mkTranscriptionResponse true (Some (strip raw))
            (transcript_confidence transcript) (Some "en") None None
  else
    ∃ message,
      r = stt_failure message
            (if stt_is_available self then STT_ERROR else CONFIG_ERROR).
Proof.
  cbv zeta. unfold transcribe_audio.
  destruct (stt_is_available self); cbn [negb]; [|cbn; eauto].
  unfold _save_temp_file.
  destruct (save_upload remote audio_file) as [path|e] eqn:Hsave; [|cbn; eauto].
  pose proof (perform_transcription_outcomes remote self path) as Hperform.
  cbv zeta in Hperform.
  destruct (_perform_transcription remote self path) as [r calls]. cbn [fst] in *.
  destruct (stt_success r).
  - destruct Hperform as (transcript & raw & ? & ? & ? & ? & ? & ?).
    split; [done|]. by exists path, transcript, raw.
  - done.
Qed.

(** X19.  What [transcribe_audio] returns.  A success means the service is
    available, the upload was saved, the remote transcript came back
    without error status, and its text stripped is not empty; the response
    carries that stripped text, the confidence of the transcript, which
    lies between 0 and 1 when there is one, and the language "en".  A
    failure carries no transcription, confidence or language; its error
    type is [CONFIG_ERROR] when the service is not available, with no
    outgoing call made, and [STT_ERROR] otherwise. *)
Theorem transcribe_audio_outcomes remote self audio_file :
  let out := transcribe_audio remote self audio_file in
  (out.2 = [] ↔ stt_is_available self = false) ∧
  if stt_success out.1 then
    stt_is_available self = true ∧
    (∃ path transcript raw,
       save_upload remote audio_file = Ok path ∧
       aai_transcribe remote path = Ok transcript ∧
       status_error transcript = false ∧
       transcript_text transcript = Some raw ∧
       stt_transcription out.1 = Some (strip raw) ∧ strip raw ≠ "" ∧
       stt_confidence out.1 = transcript_confidence transcript ∧
       confidence_ok (stt_confidence out.1) = true) ∧
    stt_language out.1 = Some "en" ∧
    stt_error out.1 = None ∧ stt_error_type out.1 = None
  else
    stt_transcription out.1 = None ∧ stt_confidence out.1 = None ∧
    stt_language out.1 = None ∧
    (∃ message, stt_error out.1 = Some message) ∧
    stt_error_type out.1 =
      Some (if stt_is_available self then STT_ERROR else CONFIG_ERROR).
Proof.
  cbv zeta. split.
  - unfold transcribe_audio.
    destruct (stt_is_available self); cbn [negb]; [|done].
    unfold _save_temp_file.
    destruct (save_upload remote audio_file) as [path|e]; [|done].
    by destruct (_perform_transcription remote self path).
  - pose proof (transcribe_audio_outcomes_aux remote self audio_file) as H.
    cbv zeta in H.
    destruct (stt_success (transcribe_audio remote self audio_file).1).
    + destruct H as (Havail & path & transcript & raw & ? & ? & ? & ? & ? & ? & Hr).
      rewrite Hr. cbn. split; [done|]. split; [|done].
      by exists path, transcript, raw.
    + destruct H as [message Hr]. rewrite Hr. cbn. eauto 10.
Qed.
End stt_more.

(** ** The voice pipeline, case by case *)

Section pipeline_more.
Implicit Types (remote : Remote) (app : App) (audio_file : FileStorage).
Implicit Types (sid : string) (d : Draw) (m : ChatHistoryManager).

Lemma TTSRequest_of_text_stripped a :
  strip a = a →
  if (len a <? 1) || (5000 <? len a)
  then ∃ e, TTSRequest_of_text a = Raise e
  else TTSRequest_of_text a =
         Ok (mkTTSRequest a (Some "en-US-AriaNeural") (Some 95) (Some 45)).
Proof.
  intros Hstrip. unfold TTSRequest_of_text, TTSRequest_new.
  destruct (Z.ltb_spec (len a) 1); cbn [orb]; [eauto|].
  destruct (Z.ltb_spec 5000 (len a)); [eauto|].
  cbn [in_range negb andb Z.leb Z.compare Pos.compare Pos.compare_cont].
  rewrite Hstrip. destruct a; [unfold len in *; cbn in *; lia|]. reflexivity.
Qed.

Lemma TTSRequest_of_text_bounds a r :
  TTSRequest_of_text a = Ok r → 1 ≤ len a ≤ 5000 ∧ tts_text r = strip a.
Proof.
  unfold TTSRequest_of_text, TTSRequest_new.
  destruct (Z.ltb_spec (len a) 1); [discriminate|].
  destruct (Z.ltb_spec 5000 (len a)); [discriminate|].
  cbn [in_range negb andb Z.leb Z.compare Pos.compare Pos.compare_cont].
  destruct (str_falsy (strip a)); [discriminate|].
  intros [= <-]. cbn [tts_text]. split; [lia|done].
Qed.

(** The fallback replies are between 1 and 5000 characters long and strip
    to themselves. *)
Lemma fallback_bounds user_text :
  1 ≤ len (_generate_contextual_fallback user_text) ≤ 5000 ∧
  strip (_generate_contextual_fallback user_text) =
    _generate_contextual_fallback user_text.
Proof.
  pose proof (fallback_is_speakable user_text) as Hok.
  destruct (TTSRequest_of_text_bounds _ _ Hok) as [Hlen Htext]. by cbn in Htext.
Qed.

Lemma LLMRequest_new_stripped t session_id :
  strip t = t → t ≠ "" →
  if 10000 <? len t
  then ∃ e, LLMRequest_new t session_id = Raise e
  else LLMRequest_new t session_id =
         Ok (mkLLMRequest t session_id (Some "gemini-1.5-flash") (Some true)).
Proof.
  intros Hstrip Hne. unfold LLMRequest_new.
  pose proof (len_nonempty _ Hne).
  rewrite (proj2 (Z.ltb_ge (len t) 1)) by lia.
  destruct (Z.ltb_spec 10000 (len t)); [eauto|].
  rewrite Hstrip. by destruct t.
Qed.

Lemma step_append_spec d m sid role content :
  add_message d m sid role content = Ok (true, step (OpAppend d sid role content) m).
Proof.
  destruct (add_message_returns d m sid role content) as [m' Hm'].
  cbn. by rewrite Hm'.
Qed.

(** The four ways through [_process_voice_pipeline]: the transcription
    fails; the transcription is longer than [LLMRequest] allows; the reply
    is one [TTSRequest] refuses; all steps go through. *)
Lemma voice_pipeline_cases remote app audio_file sid d_user d_assistant :
  let stt := transcribe_audio remote (stt_service app) audio_file in
  let t := default "" (stt_transcription stt.1) in
  let m1 := step (OpAppend d_user sid USER t) (chat_manager app) in
  let request :=
    mkLLMRequest t (Some sid) (Some "gemini-1.5-flash") (Some true) in
  let llm := generate_response remote (llm_service app) request
               (Some (get_recent_messages m1 sid 10)) in
  let a := if lr_success llm.1 then default "" (lr_response llm.1)
           else _generate_contextual_fallback t in
  let m2 := step (OpAppend d_assistant sid ASSISTANT a) m1 in
  let tts := synthesize_speech remote (tts_service app)
               (mkTTSRequest a (Some "en-US-AriaNeural") (Some 95) (Some 45)) in
  let out := _process_voice_pipeline remote app audio_file sid d_user d_assistant in
  (stt_success stt.1 = true → t ≠ "" ∧ strip t = t) ∧
  strip a = a ∧
  (lr_success llm.1 = false → 1 ≤ len a ≤ 5000) ∧
  if negb (stt_success stt.1) then
    out = (voice_failure (stt_error stt.1) (stt_error_type stt.1) sid,
           chat_manager app, stt.2)
  else if 10000 <? len t then
    ∃ e, out = (voice_failure (Some ("Voice processing failed: " +:+ exn_str e))
                  (Some GENERAL_ERROR) sid, m1, stt.2)
  else if (len a <? 1) || (5000 <? len a) then
    ∃ e, out = (voice_failure (Some ("Voice processing failed: " +:+ exn_str e))
                  (Some GENERAL_ERROR) sid, m2, stt.2 ++ llm.2)
  else
    out =
      ({| vq_success := true;
          vq_transcription := Some t;
          vq_llm_response := Some a;
          vq_audio_url :=
            if tts_success tts.1 then tts_audio_url tts.1 else None;
          vq_confidence := stt_confidence stt.1;
          vq_chat_history := Some (get_chat_history m2 sid);
          vq_session_id := Some sid;
          vq_message_count := Some (Z.of_nat (length (get_chat_history m2 sid)));
          vq_error := None;
          vq_error_type := None;
          vq_fallback_used :=
            Some (negb (lr_success llm.1) || negb (tts_success tts.1)) |},
       m2, stt.2 ++ llm.2 ++ tts.2).
Proof.
  cbv zeta.
  pose proof (transcribe_audio_outcomes_aux remote (stt_service app) audio_file)
    as Hstt. cbv zeta in Hstt.
  set (stt := transcribe_audio remote (stt_service app) audio_file) in *.
  set (t := default "" (stt_transcription stt.1)).
  set (m1 := step (OpAppend d_user sid USER t) (chat_manager app)).
  set (request := mkLLMRequest t (Some sid) (Some "gemini-1.5-flash") (Some true)).
  pose proof (generate_response_failure remote (llm_service app) request
                (Some (get_recent_messages m1 sid 10))) as Hfail.
  change (rq_text request) with t in Hfail.
  set (llm := generate_response remote (llm_service app) request
                (Some (get_recent_messages m1 sid 10))) in *.
  set (a := if lr_success llm.1 then default "" (lr_response llm.1)
            else _generate_contextual_fallback t).
  set (m2 := step (OpAppend d_assistant sid ASSISTANT a) m1).
  assert (Ha : strip a = a).
  { subst a. destruct (lr_success llm.1) eqn:Hsuccess;
      [|apply fallback_bounds].
    subst llm. unfold generate_response, _generate_llm_response in *.
    destruct (llm_is_available (llm_service app)); cbn in *; [|discriminate].
    destruct (llm_client (llm_service app)); cbn in *; [|discriminate].
    destruct (gemini_generate_content remote _) as [answer|e]; cbn in *;
      [|discriminate].
    destruct (str_falsy answer); cbn in *; [discriminate|].
    apply strip_idempotent. }
  assert (Hfallback : lr_success llm.1 = false → 1 ≤ len a ≤ 5000).
  { intros Hsuccess. subst a. rewrite Hsuccess. apply fallback_bounds. }
  assert (Hresponse :
    (if negb (lr_success llm.1)
     then Some (str_or (lr_fallback_response llm.1)
                  "I'm having trouble processing your request.")
     else lr_response llm.1) = Some a ∨
    (lr_success llm.1 = true ∧ lr_response llm.1 = None)).
  { subst a. destruct (lr_success llm.1) eqn:Hsuccess; cbn [negb].
    - destruct (lr_response llm.1); [by left|by right].
    - left. destruct (Hfail eq_refl) as [-> _]. cbn [str_or].
      pose proof (fallback_bounds t) as [Hlen _].
      destruct (_generate_contextual_fallback t); [|done].
      unfold len in Hlen. cbn in Hlen. lia. }
  assert (Hsome : lr_success llm.1 = true → lr_response llm.1 ≠ None).
  { subst llm. unfold generate_response.
    destruct (llm_is_available (llm_service app)); cbn; [|discriminate].
    by destruct (_generate_llm_response _ _ _) as [[?|?] ?]. }
  destruct Hresponse as [Hresponse|[Hs Hn]]; [|by apply Hsome in Hs].
  split_and!; [|exact Ha|exact Hfallback|].
  { intros Hsuccess. rewrite Hsuccess in Hstt.
    destruct Hstt as (_ & path & transcript & raw & _ & _ & _ & _ & Hne & _ & Hr).
    subst t. rewrite Hr. cbn. split; [done|apply strip_idempotent]. }
  unfold _process_voice_pipeline, voice_pipeline_try.
  unfold mbind, pipe_bind, mret, pipe_ret, service_call, store_call, store_read,
    raise_from.
  cbn [fst snd]. fold stt.
  destruct (stt_success stt.1) eqn:Hsuccess; cbn [negb fst snd]; [|done].
  destruct Hstt as (_ & path & transcript & raw & _ & _ & _ & _ & Hne & _ & Hr).
  assert (Ht : stt_transcription stt.1 = Some t) by (subst t; by rewrite Hr).
  assert (Htne : t ≠ "" ∧ strip t = t).
  { subst t. rewrite Hr. cbn. split; [done|apply strip_idempotent]. }
  rewrite Ht. cbn [require_str fst snd].
  unfold add_user_message. rewrite step_append_spec. fold m1. cbn [fst snd].
  pose proof (LLMRequest_new_stripped t (Some sid) (proj2 Htne) (proj1 Htne))
    as Hrequest.
  destruct (10000 <? len t).
  { destruct Hrequest as [e ->]. by exists e. }
  rewrite Hrequest. cbn [fst snd]. fold request. fold llm.
  rewrite Hresponse. cbn [require_str fst snd].
  unfold add_assistant_message. rewrite step_append_spec. fold m2. cbn [fst snd].
  pose proof (TTSRequest_of_text_stripped a Ha) as Htts.
  destruct ((len a <? 1) || (5000 <? len a)).
  { destruct Htts as [e ->]. by exists e. }
  rewrite Htts. cbn [fst snd List.app]. by rewrite <- app_assoc.
Qed.
Lemma synthesize_speech_success_url remote self request :
  tts_success (synthesize_speech remote self request).1 = true →
  ∃ url, tts_audio_url (synthesize_speech remote self request).1 = Some url ∧
         url ≠ "".
Proof.
  unfold synthesize_speech.
  destruct (tts_is_available self); cbn [negb]; [|discriminate].
  destruct (requests_post _ _ _ _ _) as [response|e]; cbn [fst snd].
  - unfold _process_murf_response.
    destruct (status_code response =? 200); cbn [negb]; [|discriminate].
    destruct (response_json response) as [msg|msg|[[[|c rest]|[]]|]]; cbn;
      try discriminate.
    intros _. by eexists.
  - unfold synthesize_except.
    destruct (is_Timeout e), (is_RequestException e); discriminate.
Qed.

(** X20.  The response of [_process_voice_pipeline], whatever the remote
    parties do.  It always names the session id it was given.  A success
    carries a transcription of 1 to 10000 characters and a reply of 1 to
    5000 characters, both stripped, no error, and as chat history and
    message count exactly what [/api/chat/history/<session_id>] answers for
    the store the pipeline leaves; when it reports no fallback it carries an
    audio URL that is not empty.  A failure carries none of transcription,
    reply, audio URL, history and count, reports no fallback, and names an
    error of type [CONFIG_ERROR], [STT_ERROR] or [GENERAL_ERROR]. *)
Theorem voice_pipeline_response_shape remote app audio_file sid d_user d_assistant :
  let out := _process_voice_pipeline remote app audio_file sid d_user d_assistant in
  let response := out.1.1 in
  let route :=
    get_chat_history_route
      (mkApp (stt_service app) (llm_service app) (tts_service app) out.1.2) sid in
  vq_session_id response = Some sid ∧
  if vq_success response then
    route.2 = 200 ∧
    vq_chat_history response = Some (history route.1) ∧
    vq_message_count response = Some (history_message_count route.1) ∧
    (∃ t, vq_transcription response = Some t ∧ strip t = t ∧
          1 ≤ len t ≤ 10000) ∧
    (∃ a, vq_llm_response response = Some a ∧ strip a = a ∧ 1 ≤ len a ≤ 5000) ∧
    vq_error response = None ∧ vq_error_type response = None ∧
    (vq_fallback_used response = Some false →
     ∃ url, vq_audio_url response = Some url ∧ url ≠ "")
  else
    vq_transcription response = None ∧ vq_llm_response response = None ∧
    vq_audio_url response = None ∧ vq_chat_history response = None ∧
    vq_message_count response = None ∧ vq_fallback_used response = Some false ∧
    ∃ message error_type,
      vq_error response = Some message ∧
      vq_error_type response = Some error_type ∧
      error_type ∈ [CONFIG_ERROR; STT_ERROR; GENERAL_ERROR].
Proof.
  cbv zeta.
  pose proof (voice_pipeline_cases remote app audio_file sid d_user d_assistant)
    as Hcases. cbv zeta in Hcases.
  pose proof (transcribe_audio_outcomes_aux remote (stt_service app) audio_file)
    as Hstt. cbv zeta in Hstt.
  pose proof (synthesize_speech_success_url remote (tts_service app)) as Hurl.
  set (stt := transcribe_audio remote (stt_service app) audio_file) in *.
  set (t := default "" (stt_transcription stt.1)) in *.
  set (m1 := step (OpAppend d_user sid USER t) (chat_manager app)) in *.
  set (llm := generate_response remote (llm_service app)
                (mkLLMRequest t (Some sid) (Some "gemini-1.5-flash") (Some true))
                (Some (get_recent_messages m1 sid 10))) in *.
  set (a := if lr_success llm.1 then default "" (lr_response llm.1)
            else _generate_contextual_fallback t) in *.
  set (m2 := step (OpAppend d_assistant sid ASSISTANT a) m1) in *.
  set (tts := synthesize_speech remote (tts_service app)
                (mkTTSRequest a (Some "en-US-AriaNeural") (Some 95) (Some 45))) in *.
  specialize (Hurl (mkTTSRequest a (Some "en-US-AriaNeural") (Some 95) (Some 45))).
  fold tts in Hurl.
  destruct Hcases as (Ht & Ha & _ & Hcases).
  assert (Herror :
    stt_success stt.1 = false →
    ∃ message error_type,
      stt_error stt.1 = Some message ∧ stt_error_type stt.1 = Some error_type ∧
      error_type ∈ [CONFIG_ERROR; STT_ERROR; GENERAL_ERROR]).
  { intros Hfail. rewrite Hfail in Hstt. destruct Hstt as [message ->].
    eexists _, _. split_and!; [done..|].
    destruct (stt_is_available _); by repeat constructor. }
  clear Hstt. clearbody tts m2 a llm m1 t stt.
  destruct (stt_success stt.1); cbn [negb] in Hcases.
  2:{ rewrite Hcases. cbn [fst snd voice_failure vq_session_id vq_success
        vq_transcription vq_llm_response vq_audio_url vq_chat_history
        vq_message_count vq_fallback_used vq_error vq_error_type].
      split_and!; try done. by apply Herror. }
  destruct (Ht eq_refl) as [Hne Hstrip].
  assert (Hgeneral :
    ∀ e, ∃ message error_type,
      Some ("Voice processing failed: " +:+ exn_str e) = Some message ∧
      Some GENERAL_ERROR = Some error_type ∧
      error_type ∈ [CONFIG_ERROR; STT_ERROR; GENERAL_ERROR]).
  { intros e. eexists _, _. split_and!; [done..|]. by repeat constructor. }
  destruct (Z.ltb_spec 10000 (len t)).
  { destruct Hcases as [e ->]. cbn [fst snd voice_failure vq_session_id vq_success
      vq_transcription vq_llm_response vq_audio_url vq_chat_history
      vq_message_count vq_fallback_used vq_error vq_error_type].
    by split_and!. }
  destruct (Z.ltb_spec (len a) 1); cbn [orb] in Hcases;
    [|destruct (Z.ltb_spec 5000 (len a))].
  { destruct Hcases as [e ->]. cbn [fst snd voice_failure vq_session_id vq_success
      vq_transcription vq_llm_response vq_audio_url vq_chat_history
      vq_message_count vq_fallback_used vq_error vq_error_type].
    by split_and!. }
  { destruct Hcases as [e ->]. cbn [fst snd voice_failure vq_session_id vq_success
      vq_transcription vq_llm_response vq_audio_url vq_chat_history
      vq_message_count vq_fallback_used vq_error vq_error_type].
    by split_and!. }
  rewrite Hcases. cbn [fst snd vq_session_id vq_success vq_chat_history
    vq_message_count vq_transcription vq_llm_response vq_error vq_error_type
    vq_fallback_used vq_audio_url get_chat_history_route history
    history_message_count chat_manager].
  split_and!; try done.
  - eexists. split; [done|]. split; [done|].
    pose proof (len_nonempty _ Hne). lia.
  - eexists. split; [done|]. split; [done|]. lia.
  - destruct (tts_success tts.1).
    + intros _. by apply Hurl.
    + rewrite orb_true_r. discriminate.
Qed.


(** X22.  A pipeline that fails after the transcription succeeded fails
    with a [GENERAL_ERROR], and what it wrote before the failing step stays
    written: the user message when the transcription is longer than 10000
    characters, in which case no generation call was made, and the user
    message and the reply when the generated answer strips to nothing or to
    more than 5000 characters.  No POST to the synthesizer is made in
    either case. *)
Theorem voice_pipeline_failure_keeps_writes remote app audio_file sid
    d_user d_assistant :
  let stt := transcribe_audio remote (stt_service app) audio_file in
  let t := default "" (stt_transcription stt.1) in
  let m1 := step (OpAppend d_user sid USER t) (chat_manager app) in
  let request :=
    mkLLMRequest t (Some sid) (Some "gemini-1.5-flash") (Some true) in
  let llm := generate_response remote (llm_service app) request
               (Some (get_recent_messages m1 sid 10)) in
  let a := if lr_success llm.1 then default "" (lr_response llm.1)
           else _generate_contextual_fallback t in
  let m2 := step (OpAppend d_assistant sid ASSISTANT a) m1 in
  let out := _process_voice_pipeline remote app audio_file sid d_user d_assistant in
  stt_success stt.1 = true →
  vq_success out.1.1 = false →
  vq_error_type out.1.1 = Some GENERAL_ERROR ∧
  add_message d_user (chat_manager app) sid USER t = Ok (true, m1) ∧
  add_message d_assistant m1 sid ASSISTANT a = Ok (true, m2) ∧
  (if 10000 <? len t
   then out.1.2 = m1 ∧ out.2 = stt.2
   else lr_success llm.1 = true ∧ (len a < 1 ∨ 5000 < len a) ∧
        out.1.2 = m2 ∧ out.2 = stt.2 ++ llm.2) ∧
  Forall (λ c, is_post c = false) out.2.
Proof.
  cbv zeta.
  pose proof (voice_pipeline_cases remote app audio_file sid d_user d_assistant)
    as Hcases. cbv zeta in Hcases.
  pose proof (transcribe_audio_calls remote (stt_service app) audio_file) as Hcalls.
  set (stt := transcribe_audio remote (stt_service app) audio_file) in *.
  set (t := default "" (stt_transcription stt.1)) in *.
  set (m1 := step (OpAppend d_user sid USER t) (chat_manager app)) in *.
  set (llm := generate_response remote (llm_service app)
                (mkLLMRequest t (Some sid) (Some "gemini-1.5-flash") (Some true))
                (Some (get_recent_messages m1 sid 10))) in *.
  set (a := if lr_success llm.1 then default "" (lr_response llm.1)
            else _generate_contextual_fallback t) in *.
  set (m2 := step (OpAppend d_assistant sid ASSISTANT a) m1) in *.
  set (tts := synthesize_speech remote (tts_service app)
                (mkTTSRequest a (Some "en-US-AriaNeural") (Some 95) (Some 45))) in *.
  destruct Hcases as (_ & _ & Hfallback & Hcases).
  assert (Hstt_calls : Forall (λ c, is_post c = false) stt.2).
  { eapply Forall_impl; [exact Hcalls|]. by intros c [_ ?]. }
  assert (Hllm_calls : Forall (λ c, is_post c = false) llm.2).
  { subst llm. rewrite generate_response_calls.
    destruct (llm_is_available _); by repeat constructor. }
  assert (Hm1 : add_message d_user (chat_manager app) sid USER t = Ok (true, m1))
    by apply step_append_spec.
  assert (Hm2 : add_message d_assistant m1 sid ASSISTANT a = Ok (true, m2))
    by apply step_append_spec.
  clearbody tts m2 a llm m1 t stt.
  intros Hsuccess. rewrite Hsuccess in Hcases. cbn [negb] in Hcases.
  destruct (Z.ltb_spec 10000 (len t)).
  { destruct Hcases as [e ->].
    cbn [fst snd vq_success vq_error_type voice_failure]. intros _.
    by split_and!. }
  destruct (Z.ltb_spec (len a) 1); cbn [orb] in Hcases;
    [|destruct (Z.ltb_spec 5000 (len a))].
  3:{ rewrite Hcases. cbn [fst snd vq_success]. discriminate. }
  all: destruct Hcases as [e ->];
       cbn [fst snd vq_success vq_error_type voice_failure]; intros _.
  all: split_and!; try done.
  all: try (destruct (lr_success llm.1); [done|];
            specialize (Hfallback eq_refl); lia).
  all: try (left; lia); try (right; lia).
  all: by apply Forall_app.
Qed.

Lemma voice_pipeline_failure_keeps_writes_witness :
  let remote := healthy_remote "hello" "   " in
  let app := configured_app ChatHistoryManager_init in
  let out :=
    _process_voice_pipeline remote app sample_audio "s"
      (mkDraw "u1" 1 2 3) (mkDraw "u2" 4 5 6) in
  stt_success (transcribe_audio remote (stt_service app) sample_audio).1 = true ∧
  vq_success out.1.1 = false ∧
  vq_error_type out.1.1 = Some GENERAL_ERROR ∧
  Forall (λ c, is_post c = false) out.2.
Proof.
  cbv zeta.
  pose proof (voice_pipeline_failure_keeps_writes (healthy_remote "hello" "   ")
                (configured_app ChatHistoryManager_init) sample_audio "s"
                (mkDraw "u1" 1 2 3) (mkDraw "u2" 4 5 6)) as H.
  cbv zeta in H.
  assert (Hstt :
    stt_success
      (transcribe_audio (healthy_remote "hello" "   ")
         (stt_service (configured_app ChatHistoryManager_init)) sample_audio).1 =
    true) by (vm_compute; reflexivity).
  assert (Hfail :
    vq_success
      (_process_voice_pipeline (healthy_remote "hello" "   ")
         (configured_app ChatHistoryManager_init) sample_audio "s"
         (mkDraw "u1" 1 2 3) (mkDraw "u2" 4 5 6)).1.1 = false)
    by (vm_compute; reflexivity).
  destruct (H Hstt Hfail) as (Htype & _ & _ & _ & Hposts).
  split; [exact Hstt|]. split; [exact Hfail|]. split; [exact Htype|exact Hposts].
Defined.
End pipeline_more.

(** ** The route of the synthesizer *)

Section routes_more.
Implicit Types (remote : Remote) (app : App).


Lemma voice_pipeline_session_id remote app audio_file sid d_user d_assistant :
  vq_session_id
    (_process_voice_pipeline remote app audio_file sid d_user d_assistant).1.1 =
  Some sid.
Proof.
  pose proof (voice_pipeline_cases remote app audio_file sid d_user d_assistant)
    as Hcases. cbv zeta in Hcases.
  destruct Hcases as (_ & _ & _ & Hcases).
  destruct (negb _); [by rewrite Hcases|].
  destruct (10000 <? _); [by destruct Hcases as [e ->]|].
  destruct (_ || _); [by destruct Hcases as [e ->]|].
  by rewrite Hcases.
Qed.

(** X24.  A request to [/llm/query] with an upload that passes
    [validate_audio_file] is always answered with status 200, also when the
    pipeline fails: the failure is only told by the [success] field of the
    body.  The session id of the response is the one of the form, or the
    freshly drawn one when the form gives none or an empty one; the store
    and the outgoing calls are those of [_process_voice_pipeline]. *)
Theorem voice_query_always_200 remote app request audio new_session_id
    d_user d_assistant :
  files_audio request = Some audio →
  validate_audio_file audio = None →
  let sid := str_or (form_session_id request) new_session_id in
  let pipeline := _process_voice_pipeline remote app audio sid d_user d_assistant in
  llm_query remote app request new_session_id d_user d_assistant =
    (mkReply (ReplyVoice pipeline.1.1) 200, pipeline.1.2, pipeline.2) ∧
  vq_session_id pipeline.1.1 = Some sid ∧
  (form_session_id request = None ∨ form_session_id request = Some "" →
   sid = new_session_id).
Proof.
  intros Haudio Hvalid. cbv zeta. split_and!.
  - unfold llm_query, _handle_voice_query. rewrite Haudio, Hvalid.
    cbn [fst snd].
    replace (mkApp (stt_service app) (llm_service app) (tts_service app)
               (chat_manager app)) with app by (by destruct app).
    by destruct (_process_voice_pipeline _ _ _ _ _ _) as [[response m] calls].
  - apply voice_pipeline_session_id.
  - by intros [-> | ->].
Qed.

Lemma voice_query_always_200_witness :
  let app :=
    app_of_config
      (mkConfig (Some "") (Some "") (Some "") (Some "") "en-US-AriaNeural"
         95 45 30 30 60)
      (Ok ()) (Ok ()) ChatHistoryManager_init in
  let request := mkFlaskRequest false None None (Some "") (Some sample_audio) in
  let out :=
    llm_query (healthy_remote "hello" "hi") app request "fresh"
      (mkDraw "u1" 1 2 3) (mkDraw "u2" 4 5 6) in
  reply_status out.1.1 = 200 ∧
  out.1.1 =
    mkReply
      (ReplyVoice
         (voice_failure
            (Some "STT service not available - API key not configured")
            (Some CONFIG_ERROR) "fresh")) 200.
Proof.
  cbv zeta.
  pose proof (voice_query_always_200 (healthy_remote "hello" "hi")
                (app_of_config
                   (mkConfig (Some "") (Some "") (Some "") (Some "")
                      "en-US-AriaNeural" 95 45 30 30 60)
                   (Ok ()) (Ok ()) ChatHistoryManager_init)
                (mkFlaskRequest false None None (Some "") (Some sample_audio))
                sample_audio "fresh" (mkDraw "u1" 1 2 3) (mkDraw "u2" 4 5 6)
                eq_refl ltac:(vm_compute; reflexivity)) as H.
  cbv zeta in H. destruct H as (Hreply & _ & _).
  split; [by rewrite Hreply|]. vm_compute. reflexivity.
Defined.
End routes_more.
